(** * books / cmd/gen-books-2/page.go

    A shallow embedding of the page-tree extraction code of
    [cmd/gen-books-2/page.go] (meta extraction, block removal, embed
    resolution, sub-page extraction, source-file lookup), and the
    properties of it that the specification states.

    Conventions of the embedding:
    - a Go [string] is a sequence of bytes: Rocq's [string], whose
      characters are the 8-bit [ascii];
    - a Go pointer that the code itself sets to or tests against [nil] is an
      [option]; dereferencing [None] is a run-time panic;
    - a run either returns or panics: [Result];
    - a slice written by index is a list with stdpp's lookup and insert,
      a Go [map] is a [gmap];
    - code mutating its argument in place returns the new value of it.

    The tree builder ([bookPageFromNotionPage], [bookFromPages]) composes
    the extraction functions over a heap of shared pages. *)

From Stdlib Require Import ZArith NArith Ascii String List Lia Bool.
From stdpp Require Import base option list gmap strings.

Local Open Scope string_scope.
Local Open Scope Z_scope.
Local Open Scope stdpp_scope.

(** ** Runs that may panic *)

Inductive Result (A : Type) : Type :=
| OK (a : A)
| Panic (msg : string).
Arguments OK {A} a.
Arguments Panic {A} msg.

(** Sequencing: a panic skips the rest of the run. With these instances
    stdpp's [x ← r; k] is the statement sequence of the source. *)
#[global] Instance Result_ret : MRet Result := fun A a => OK a.
#[global] Instance Result_bind : MBind Result := fun A B k r =>
  match r with
  | OK a => k a
  | Panic msg => Panic msg
  end.

Definition returned {A} (r : Result A) : bool :=
  match r with OK _ => true | Panic _ => false end.

(** The message of the Go runtime for a field read through a nil pointer. *)
Definition nilDereference : string :=
  "runtime error: invalid memory address or nil pointer dereference".

(** ** Bytes *)

Definition byte (c : ascii) : N := N_of_ascii c.

Definition inRange (lo hi : ascii) (c : ascii) : bool :=
  (byte lo <=? byte c)%N && (byte c <=? byte hi)%N.

Definition isByte (n : N) (c : ascii) : bool := (byte c =? n)%N.

(** ** Go's package [strings], on byte strings *)

Module Strings.

Definition len (s : string) : Z := Z.of_nat (String.length s).

Definition HasPrefix (s prefix : string) : bool := String.prefix prefix s.

Fixpoint dropBytes (n : nat) (s : string) : string :=
  match n, s with
  | O, _ => s
  | S k, String _ s' => dropBytes k s'
  | S _, EmptyString => EmptyString
  end.

(** [TrimPrefix] returns [s] without the leading [prefix], and [s] itself
    when it does not start with it. *)
Definition TrimPrefix (s prefix : string) : string :=
  if HasPrefix s prefix then dropBytes (String.length prefix) s else s.

(** [Cut s sep] slices [s] around the first instance of [sep]: the text
    before and the text after it; [None] when [sep] does not occur. *)
Fixpoint Cut (s sep : string) : option (string * string) :=
  if String.prefix sep s then Some (EmptyString, dropBytes (String.length sep) s)
  else match s with
       | EmptyString => None
       | String c s' =>
           match Cut s' sep with
           | Some (before, after) => Some (String c before, after)
           | None => None
           end
       end.

Definition Contains (s sub : string) : bool :=
  match Cut s sub with Some _ => true | None => false end.

(** The loop of [genSplit]: at most [cuts] separators are consumed, the
    rest of the string is the last piece. *)
Fixpoint splitLoop (cuts : nat) (s sep : string) : list string :=
  match cuts with
  | O => [s]
  | S k =>
      match Cut s sep with
      | Some (before, after) => before :: splitLoop k after sep
      | None => [s]
      end
  end.

(** [SplitN] for a separator that is not empty (the program splits on
    [":"] and [","] only): [n = 0] gives no piece, [n < 0] all pieces,
    [n > 0] at most [n] pieces, the last one being the unsplit rest. A
    string of [k] bytes holds at most [k] separators. *)
Definition SplitN (s sep : string) (n : Z) : list string :=
  if n =? 0 then []
  else if n <? 0 then splitLoop (String.length s) s sep
  else splitLoop (Z.to_nat n - 1) s sep.

Definition Split (s sep : string) : list string := SplitN s sep (-1).

(** White space "as defined by Unicode" ([unicode.IsSpace]), recognised
    on the UTF-8 encoding: the six ASCII spaces, U+0085 and U+00A0 (two
    bytes), U+1680, U+2000..U+200A, U+2028, U+2029, U+202F, U+205F and
    U+3000 (three bytes). A byte sequence that is no valid encoding
    decodes to U+FFFD, which is no space. *)
Definition isSpace1 (c : ascii) : bool :=
  ((9 <=? byte c) && (byte c <=? 13) || (byte c =? 32))%N.

Definition isSpace2 (c1 c2 : ascii) : bool :=
  isByte 0xC2 c1 && (isByte 0x85 c2 || isByte 0xA0 c2).

Definition isSpace3 (c1 c2 c3 : ascii) : bool :=
  isByte 0xE1 c1 && isByte 0x9A c2 && isByte 0x80 c3
  || isByte 0xE2 c1 && isByte 0x80 c2
     && ((0x80 <=? byte c3)%N && (byte c3 <=? 0x8A)%N
         || isByte 0xA8 c3 || isByte 0xA9 c3 || isByte 0xAF c3)
  || isByte 0xE2 c1 && isByte 0x81 c2 && isByte 0x9F c3
  || isByte 0xE3 c1 && isByte 0x80 c2 && isByte 0x80 c3.

(** Removal of the leading runes that satisfy the three recognisers. *)
Fixpoint trimLeading (p1 : ascii -> bool) (p2 : ascii -> ascii -> bool)
    (p3 : ascii -> ascii -> ascii -> bool) (s : string) : string :=
  match s with
  | EmptyString => EmptyString
  | String c1 s1 =>
      if p1 c1 then trimLeading p1 p2 p3 s1
      else match s1 with
           | EmptyString => s
           | String c2 s2 =>
               if p2 c1 c2 then trimLeading p1 p2 p3 s2
               else match s2 with
                    | EmptyString => s
                    | String c3 s3 =>
                        if p3 c1 c2 c3 then trimLeading p1 p2 p3 s3 else s
                    end
           end
  end.

Fixpoint revOnto (s acc : string) : string :=
  match s with
  | EmptyString => acc
  | String c s' => revOnto s' (String c acc)
  end.

Definition reverse (s : string) : string := revOnto s EmptyString.

Definition TrimLeftSpace (s : string) : string :=
  trimLeading isSpace1 isSpace2 isSpace3 s.

(** The trailing runes are the leading ones of the reversed string, with
    the bytes of each encoding read backwards. *)
Definition TrimRightSpace (s : string) : string :=
  reverse (trimLeading isSpace1 (fun c2 c1 => isSpace2 c1 c2)
             (fun c3 c2 c1 => isSpace3 c1 c2 c3) (reverse s)).

(** [TrimSpace]: all leading and trailing white space removed. *)
Definition TrimSpace (s : string) : string :=
  TrimRightSpace (TrimLeftSpace s).

Definition isASCII (s : string) : bool :=
  forallb (fun c => (byte c <? 128)%N) (list_ascii_of_string s).

Definition lowerByte (c : ascii) : ascii :=
  if inRange "A" "Z" c then ascii_of_N (byte c + 32) else c.

Fixpoint mapBytes (f : ascii -> ascii) (s : string) : string :=
  match s with
  | EmptyString => EmptyString
  | String c s' => String (f c) (mapBytes f s')
  end.

(** [ToLower]: byte by byte on a string of ASCII, and by
    [Map(unicode.ToLower, s)] otherwise; the Unicode case tables are a
    parameter of the development. *)
Definition ToLower (unicodeLower : string -> string) (s : string) : string :=
  if isASCII s then mapBytes lowerByte s else unicodeLower s.

(** [Join] concatenates the pieces with the separator between them. *)
Fixpoint Join (pieces : list string) (sep : string) : string :=
  match pieces with
  | [] => EmptyString
  | [piece] => piece
  | piece :: rest => piece +:+ sep +:+ Join rest sep
  end.

(** The byte [c] occurs in [s]. *)
Definition hasByte (c : ascii) (s : string) : Prop :=
  exists i, String.get i s = Some c.

End Strings.

(** ** Go's package [net/url]

    [Parse] and [Query().Get] as the package documents and implements them
    (Go 1.17 and later), for the fields that [page.go] reads: [Host],
    [Path] and [RawQuery]. The user information and the fragment are
    checked as [Parse] checks them, since a failed check makes [Parse]
    return an error, but their values are not kept. [Parse] returns a nil
    [*URL] together with its error: [None]. *)

Module Url.

Inductive encoding : Type :=
| encodePath
| encodePathSegment
| encodeHost
| encodeZone
| encodeUserPassword
| encodeQueryComponent
| encodeFragment.

Record URL : Type := mkURL {
  Scheme : string;
  Opaque : string;
  Host : string;
  Path : string;
  RawQuery : string
}.

Definition oneOf (cs : string) (c : ascii) : bool :=
  existsb (Ascii.eqb c) (list_ascii_of_string cs).

Definition isLetter (c : ascii) : bool := inRange "a" "z" c || inRange "A" "Z" c.

Definition isDigit (c : ascii) : bool := inRange "0" "9" c.

Definition ishex (c : ascii) : bool :=
  inRange "0" "9" c || inRange "a" "f" c || inRange "A" "F" c.

Definition unhex (c : ascii) : N :=
  if inRange "0" "9" c then byte c - byte "0"
  else if inRange "a" "f" c then byte c - byte "a" + 10
  else if inRange "A" "F" c then byte c - byte "A" + 10
  else 0.

Definition isHostMode (mode : encoding) : bool :=
  match mode with
  | encodeHost | encodeZone => true
  | _ => false
  end.

(** [shouldEscape]: whether the byte must be escaped when it appears in the
    given part of a URL (RFC 3986). Byte 34 is the double quote. *)
Definition shouldEscape (c : ascii) (mode : encoding) : bool :=
  if isLetter c || isDigit c then false
  else if isHostMode mode && (oneOf "!$&'()*+,;=:[]<>" c || isByte 34 c) then false
  else if oneOf "-_.~" c then false
  else if oneOf "$&+,/:;=?@" c then
    match mode with
    | encodePath => Ascii.eqb c "?"
    | encodePathSegment => oneOf "/;,?" c
    | encodeUserPassword => oneOf "@/?:" c
    | encodeQueryComponent => true
    | encodeFragment => false
    | encodeHost | encodeZone => true
    end
  else match mode with
       | encodeFragment => negb (oneOf "!()*" c)
       | _ => true
       end.

(** The byte that [%h1h2] stands for. *)
Definition escaped (h1 h2 : ascii) : ascii := ascii_of_N (unhex h1 * 16 + unhex h2).

(** The first loop of [unescape]: every [%] is followed by two hexadecimal
    digits, and the host and zone modes allow only what a host may hold. *)
Fixpoint wellEscaped (mode : encoding) (s : string) : bool :=
  match s with
  | EmptyString => true
  | String c s1 =>
      if Ascii.eqb c "%" then
        match s1 with
        | String h1 (String h2 rest) =>
            let is25 := Ascii.eqb h1 "2" && Ascii.eqb h2 "5" in
            if negb (ishex h1 && ishex h2) then false
            else if match mode with
                    | encodeHost => (unhex h1 <? 8)%N && negb is25
                    | encodeZone =>
                        negb is25 && negb (Ascii.eqb (escaped h1 h2) " ")
                        && shouldEscape (escaped h1 h2) encodeHost
                    | _ => false
                    end
            then false
            else wellEscaped mode rest
        | _ => false
        end
      else if Ascii.eqb c "+" then wellEscaped mode s1
      else if isHostMode mode && (byte c <? 0x80)%N && shouldEscape c encodeHost
      then false
      else wellEscaped mode s1
  end.

(** The second loop of [unescape], on a string that passed the first. *)
Fixpoint decodeEscapes (mode : encoding) (s : string) : string :=
  match s with
  | EmptyString => EmptyString
  | String c s1 =>
      if Ascii.eqb c "%" then
        match s1 with
        | String h1 (String h2 rest) => String (escaped h1 h2) (decodeEscapes mode rest)
        | _ => s
        end
      else if Ascii.eqb c "+" then
        String (match mode with encodeQueryComponent => " "%char | _ => c end)
          (decodeEscapes mode s1)
      else String c (decodeEscapes mode s1)
  end.

Definition unescape (s : string) (mode : encoding) : option string :=
  if wellEscaped mode s then Some (decodeEscapes mode s) else None.

Definition QueryUnescape (s : string) : option string :=
  unescape s encodeQueryComponent.

Definition stringContainsCTLByte (s : string) : bool :=
  existsb (fun c => (byte c <? 32)%N || isByte 0x7f c) (list_ascii_of_string s).

(** The scan of [getScheme] from index [i]. *)
Inductive schemeScan : Type :=
| noScheme
| missingScheme
| schemeEnds (i : nat).

Fixpoint scanScheme (i : nat) (s : string) : schemeScan :=
  match s with
  | EmptyString => noScheme
  | String c s' =>
      if isLetter c then scanScheme (S i) s'
      else if isDigit c || oneOf "+-." c then
        match i with
        | O => noScheme
        | _ => scanScheme (S i) s'
        end
      else if Ascii.eqb c ":" then
        match i with
        | O => missingScheme
        | _ => schemeEnds i
        end
      else noScheme
  end.

(** [getScheme]: the scheme and the rest after its colon; no scheme when
    the string does not start with one; an error for a leading colon. *)
Definition getScheme (rawURL : string) : option (string * string) :=
  match scanScheme 0 rawURL with
  | noScheme => Some (EmptyString, rawURL)
  | missingScheme => None
  | schemeEnds i => Some (String.substring 0 i rawURL, Strings.dropBytes (S i) rawURL)
  end.

Definition HasSuffix (s suffix : string) : bool :=
  String.prefix (Strings.reverse suffix) (Strings.reverse s).

(** The number of instances of a separator that is not empty. *)
Definition Count (s sep : string) : nat := (length (Strings.Split s sep) - 1)%nat.

(** The text before and after the last instance of [sep]. *)
Definition CutLast (s sep : string) : option (string * string) :=
  match Strings.Cut (Strings.reverse s) (Strings.reverse sep) with
  | Some (after, before) => Some (Strings.reverse before, Strings.reverse after)
  | None => None
  end.

Definition validOptionalPort (port : string) : bool :=
  match port with
  | EmptyString => true
  | String c digits =>
      Ascii.eqb c ":" && forallb isDigit (list_ascii_of_string digits)
  end.

Definition validUserinfo (s : string) : bool :=
  forallb (fun c => isLetter c || isDigit c || oneOf "-._:~!$&'()*+,;=%@" c)
    (list_ascii_of_string s).

(** [parseHost]: an IP literal in brackets with an optional zone and port,
    or a name with an optional port. *)
Definition parseHost (host : string) : option string :=
  if Strings.HasPrefix host "[" then
    match CutLast host "]" with
    | None => None
    | Some (inBrackets, colonPort) =>
        if negb (validOptionalPort colonPort) then None
        else
          match Strings.Cut inBrackets "%25" with
          | Some (beforeZone, afterMark) =>
              host1 ← unescape beforeZone encodeHost;
              host2 ← unescape ("%25" +:+ afterMark) encodeZone;
              host3 ← unescape ("]" +:+ colonPort) encodeHost;
              Some (host1 +:+ host2 +:+ host3)
          | None => unescape host encodeHost
          end
    end
  else
    match CutLast host ":" with
    | Some (_, port) =>
        if negb (validOptionalPort (":" +:+ port)) then None
        else unescape host encodeHost
    | None => unescape host encodeHost
    end.

(** [parseAuthority]: the host, after the check of the user information
    before the last [@]. *)
Definition parseAuthority (authority : string) : option string :=
  match CutLast authority "@" with
  | None => parseHost authority
  | Some (userinfo, hostport) =>
      host ← parseHost hostport;
      if negb (validUserinfo userinfo) then None
      else
        match Strings.Cut userinfo ":" with
        | None => _ ← unescape userinfo encodeUserPassword; Some host
        | Some (username, password) =>
            _ ← unescape username encodeUserPassword;
            _ ← unescape password encodeUserPassword;
            Some host
        end
  end.

(** [parse(rawURL, false)] *)
Definition parse (rawURL : string) : option URL :=
  if stringContainsCTLByte rawURL then None
  else if String.eqb rawURL "*" then Some (mkURL "" "" "" "*" "")
  else
    '(scheme, rest) ← getScheme rawURL;
    let scheme := Strings.mapBytes Strings.lowerByte scheme in
    let '(rest, rawQuery) :=
      if HasSuffix rest "?" && (Count rest "?" =? 1)%nat then
        (String.substring 0 (String.length rest - 1) rest, EmptyString)
      else match Strings.Cut rest "?" with
           | Some (before, after) => (before, after)
           | None => (rest, EmptyString)
           end in
    if negb (Strings.HasPrefix rest "/") && negb (String.eqb scheme "") then
      Some (mkURL scheme rest "" "" rawQuery)
    else if negb (Strings.HasPrefix rest "/")
            && Strings.Contains
                 (match Strings.Cut rest "/" with
                  | Some (segment, _) => segment
                  | None => rest
                  end) ":"
    then None
    else
      '(host, rest) ←
        (if (negb (String.eqb scheme "") || negb (Strings.HasPrefix rest "///"))
            && Strings.HasPrefix rest "//"
         then
           let authority := Strings.dropBytes 2 rest in
           let '(authority, rest) :=
             match Strings.Cut authority "/" with
             | Some (before, after) => (before, "/" +:+ after)
             | None => (authority, EmptyString)
             end in
           host ← parseAuthority authority; Some (host, rest)
         else Some (EmptyString, rest));
      path ← unescape rest encodePath;
      Some (mkURL scheme "" host path rawQuery).

(** [Parse]: the fragment after the first [#] is cut off and unescaped,
    the rest is parsed. *)
Definition Parse (rawURL : string) : option URL :=
  match Strings.Cut rawURL "#" with
  | None => parse rawURL
  | Some (u, frag) =>
      url ← parse u;
      if String.eqb frag "" then Some url
      else _ ← unescape frag encodeFragment; Some url
  end.

(** One [key=value] setting of [parseQuery]: skipped when it holds a
    semicolon, when it is empty, or when the key or the value is badly
    escaped; otherwise appended to the values of its key. The values are
    kept in the order they come in. *)
Definition parseSetting (m : list (string * string)) (setting : string)
    : list (string * string) :=
  if Strings.Contains setting ";" then m
  else if String.eqb setting "" then m
  else
    let '(key, value) :=
      match Strings.Cut setting "=" with
      | Some (k, v) => (k, v)
      | None => (setting, EmptyString)
      end in
    match QueryUnescape key, QueryUnescape value with
    | Some key, Some value => m ++ [(key, value)]
    | _, _ => m
    end.

(** [u.Query()]: [ParseQuery(u.RawQuery)] with its error dropped; the
    settings are the pieces between the [&]. *)
Definition Query (u : URL) : list (string * string) :=
  foldl parseSetting [] (Strings.Split (RawQuery u) "&").

(** [Values.Get]: the first value of the key, or the empty string. *)
Definition Get (v : list (string * string)) (key : string) : string :=
  match List.find (fun kv => String.eqb kv.1 key) v with
  | Some kv => kv.2
  | None => EmptyString
  end.

End Url.

(** ** The content source (package [notionapi])

    Only what [page.go] reads of the collaborator's types. An inline run
    carries its text and whether it is plain ([IsPlain()]: no formatting,
    link, user or date attached). A block carries its identifier, its type
    tag, its inline runs, the display source of its embed format, and, when
    it is the root of a page, the blocks of the page ([Content], a slice of
    block pointers) with their identifiers ([ContentIDs]). An embed block
    is taken to carry its format. The field [Type] is [Type_] here, the
    field [FormatEmbed] is [Format], and the [ID] of a page is [PageID]. *)

Module notionapi.

Definition BlockText : string := "text".
Definition BlockPage : string := "page".
Definition BlockEmbed : string := "embed".

Record InlineBlock : Type := mkInlineBlock {
  Text : string;
  IsPlain : bool
}.

Record FormatEmbed : Type := mkFormatEmbed {
  DisplaySource : string
}.

#[warnings="-register-all"] Inductive Block : Type := mkBlock {
  ID : string;
  Type_ : string;
  Title : string;
  InlineContent : list InlineBlock;
  Format : FormatEmbed;
  ContentIDs : list string;
  Content : list (option Block)
}.

Record Page : Type := mkPage {
  PageID : string;
  Root : Block
}.

Definition withContent (page : Page) (blocks : list (option Block)) : Page :=
  let r := Root page in
  mkPage (PageID page)
    (mkBlock (ID r) (Type_ r) (Title r) (InlineContent r) (Format r)
       (ContentIDs r) blocks).

Definition withContentIDs (page : Page) (ids : list string) : Page :=
  let r := Root page in
  mkPage (PageID page)
    (mkBlock (ID r) (Type_ r) (Title r) (InlineContent r) (Format r)
       ids (Content r)).

End notionapi.

Import notionapi.

(** ** Block removal *)

(** [toRemove[i]] of a [map[int]bool]: [false] for a key that is absent. *)
Definition marked (toRemove : gmap Z bool) (i : nat) : bool :=
  default false (toRemove !! Z.of_nat i).

(** One turn of [for i, el := range arr { if toRemove[i] { continue };
    arr[n] = el; n++ }]: [el] is read from the array as it is at turn [i]. *)
Definition compactStep {A} (toRemove : gmap Z bool) (st : list A * nat) (i : nat)
    : list A * nat :=
  match st.1 !! i with
  | None => st
  | Some el =>
      if marked toRemove i then st else (<[st.2 := el]> st.1, S st.2)
  end.

(** The whole loop: the array after it and the final [n]. The bounds of the
    range are those of the slice when the loop starts. *)
Definition compact {A} (toRemove : gmap Z bool) (arr : list A) : list A * nat :=
  foldl (compactStep toRemove) (arr, 0%nat) (seq 0 (length arr)).

(** [removeBlocks]: the blocks are compacted and cut to the survivors
    ([blocks[:n]]); the identifiers are compacted and assigned whole. *)
Definition removeBlocks (page : Page) (toRemove : gmap Z bool) : Page :=
  if decide (size toRemove = 0%nat) then page
  else
    let blocks := compact toRemove (Content (Root page)) in
    let page := withContent page (take blocks.2 blocks.1) in
    let ids := compact toRemove (ContentIDs (Root page)) in
    withContentIDs page ids.1.

(** The elements of [l] whose index, counted from [i], is not marked. *)
Fixpoint survivorsFrom {A} (toRemove : gmap Z bool) (i : nat) (l : list A) : list A :=
  match l with
  | [] => []
  | x :: l' =>
      if marked toRemove i then survivorsFrom toRemove (S i) l'
      else x :: survivorsFrom toRemove (S i) l'
  end.

Definition survivors {A} (toRemove : gmap Z bool) (l : list A) : list A :=
  survivorsFrom toRemove 0 l.

(** The number of indices of [l], counted from [i], that are marked. *)
Fixpoint markedFrom {A} (toRemove : gmap Z bool) (i : nat) (l : list A) : nat :=
  match l with
  | [] => 0
  | _ :: l' =>
      ((if marked toRemove i then 1 else 0) + markedFrom toRemove (S i) l')%nat
  end.

(** ** The pages of a book (package [main]) *)

(** Modelled from the spec: the declaration of [EmbeddedSourceFile] is not
    in [page.go]; its fields are those of the data model, the ones
    [page.go] assigns. *)
Record EmbeddedSourceFile : Type := mkEmbeddedSourceFile {
  EmbedURL : string;
  FileName : string;
  Path : string;
  Lines : list string;
  FileExists : bool
}.

(** [Page]: the fields that extraction reads or assigns. ([Parent], [Pages],
    [Siblings], [IsCurrent] and [BodyHTML] belong to the tree builder and
    the renderer.) *)
Record Page : Type := mkBookPage {
  NotionPage : notionapi.Page;
  Title : string;
  NotionID : string;
  ID : string;
  StackOverflowID : string;
  Search : list string;
  SourceFiles : list EmbeddedSourceFile
}.

Definition withNotionPage (p : Page) (page : notionapi.Page) : Page :=
  mkBookPage page (Title p) (NotionID p) (ID p) (StackOverflowID p) (Search p)
    (SourceFiles p).

Definition withID (p : Page) (v : string) : Page :=
  mkBookPage (NotionPage p) (Title p) (NotionID p) v (StackOverflowID p)
    (Search p) (SourceFiles p).

Definition withStackOverflowID (p : Page) (v : string) : Page :=
  mkBookPage (NotionPage p) (Title p) (NotionID p) (ID p) v (Search p)
    (SourceFiles p).

Definition withSearch (p : Page) (v : list string) : Page :=
  mkBookPage (NotionPage p) (Title p) (NotionID p) (ID p) (StackOverflowID p) v
    (SourceFiles p).

Definition withSourceFiles (p : Page) (v : list EmbeddedSourceFile) : Page :=
  mkBookPage (NotionPage p) (Title p) (NotionID p) (ID p) (StackOverflowID p)
    (Search p) v.

(** [MetaValue] represents a single [key: value] meta-value. *)
Record MetaValue : Type := mkMetaValue {
  Key : string;
  Value : string
}.

(** Modelled from the spec: [panicIf] is declared in another file of the
    package. Fatal conditions "abort immediately, include identifying
    context": when the condition holds the run panics with the formatted
    message, otherwise it goes on. The message is the format of the call
    with each [%s] replaced by its argument. *)
Definition panicIf (cond : bool) (msg : string) : Result unit :=
  if cond then Panic msg else OK tt.

(** Modelled from the spec: [panicIfErr], declared in another file of the
    package, aborts with the error when there is one. *)
Definition panicIfErr (err : option string) : Result unit :=
  match err with
  | Some e => Panic e
  | None => OK tt
  end.

(** ["unknown key '%s' in page with id %s"] *)
Definition unknownKeyMessage (key id : string) : string :=
  "unknown key '" +:+ key +:+ "' in page with id " +:+ id.

(** ["no sub page for id %s"] *)
Definition noSubPageMessage (id : string) : string :=
  "no sub page for id " +:+ id.

(** A [for ... range] loop over the indices or the elements [l], threading
    the state, stopped by the first panic. *)
Fixpoint forEach {A St : Type} (body : A -> St -> Result St) (l : list A) (st : St)
    : Result St :=
  match l with
  | [] => OK st
  | x :: rest => st' ← body x st; forEach body rest st'
  end.

(** [for idx, x := range l] with a body that does not write [l]: the
    index counts from [idx]. *)
Fixpoint forRange {A St : Type} (body : nat -> A -> St -> Result St) (idx : nat)
    (l : list A) (st : St) : Result St :=
  match l with
  | [] => OK st
  | x :: rest => st' ← body idx x st; forRange body (S idx) rest st'
  end.

(** [findSourceFileForEmbedURL]: the loop over [page.SourceFiles]. *)
Fixpoint findSourceFile (files : list EmbeddedSourceFile) (uri : string)
    : option EmbeddedSourceFile :=
  match files with
  | [] => None
  | f :: rest =>
      if String.eqb (EmbedURL f) uri then
        if FileExists f then Some f else None
      else findSourceFile rest uri
  end.

Definition findSourceFileForEmbedURL (page : Page) (uri : string)
    : option EmbeddedSourceFile :=
  findSourceFile (SourceFiles page) uri.

(** A [*notionapi.Page] held by [pageIDToPage] is compared with nil and
    handed on, never read: an address, [None] for nil. Indexing the map with
    a key that is absent gives nil as well. *)
Definition PagePtr : Type := option positive.

Definition pageOf (pageIDToPage : gmap string PagePtr) (id : string) : PagePtr :=
  default None (pageIDToPage !! id).

(** [gitoembedToRelativePath] turns
    [https://www.onlinetool.io/gitoembed/widget?url=https%3A%2F%2Fgithub.com%2Fessentialbooks%2Fbooks%2Fblob%2Fmaster%2Fbooks%2Fgo%2F0020-basic-types%2Fbooleans.go]
    into [books/go/0020-basic-types/booleans.go], and returns the empty
    string for what does not conform. The error of the second [url.Parse]
    is assigned and not looked at: when there is one, [parsed] is nil and
    reading [parsed.Host] panics. *)
Definition gitoembedToRelativePath (uri : string) : Result string :=
  match Url.Parse uri with
  | None => OK ""
  | Some parsed =>
      if negb (String.eqb (Url.Host parsed) "www.onlinetool.io"
               || String.eqb (Url.Host parsed) "onlinetool.io")
      then OK ""
      else if negb (String.eqb (Url.Path parsed) "/gitoembed/widget") then OK ""
      else
        let uri := Url.Get (Url.Query parsed) "url" in
        match Url.Parse uri with
        | None => Panic nilDereference
        | Some parsed =>
            if negb (String.eqb (Url.Host parsed) "github.com") then OK ""
            else
              let path := Strings.TrimPrefix (Url.Path parsed) "/essentialbooks/books/" in
              if String.eqb path (Url.Path parsed) then OK ""
              else
                let path := Strings.TrimPrefix path "blob/" in
                let path := Strings.TrimPrefix path "master/" in
                let path := Strings.TrimPrefix path "notion/" in
                OK path
        end
  end.

Section Extraction.

(** The collaborators of the extraction, and the parts of Go's library that
    are taken as they come: the Unicode lower-casing of [strings.ToLower]
    on a string that is not ASCII, the identifier normalizer, the working
    directory, the file reader with its filter, and [filepath.Base] and
    [filepath.Join]. [os.Getwd] and [readFilteredSourceFile] return a value
    and an error, [None] for no error. *)
Variable unicodeLower : string -> string.
Variable normalizeID : string -> string.
Variable Getwd : string * option string.
Variable readFilteredSourceFile : string -> list string * option string.
Variable filepathBase : string -> string.
Variable filepathJoin : string -> string -> string.

(** [extractMetaValueFromBlock] returns nil ([None]) if this is not a
    meta-value block; a meta-value block is a plain text block in format
    [$key: value]. The block is a pointer: reading the type of a nil block
    panics. *)
Definition extractMetaValueFromBlock (block : option Block)
    : Result (option MetaValue) :=
  match block with
  | None => Panic nilDereference
  | Some block =>
      if negb (String.eqb (Type_ block) BlockText) then OK None
      else match InlineContent block with
      | [inline] =>
          if negb (IsPlain inline) then OK None
          else
            let s := Strings.TrimSpace (Text inline) in
            if Strings.len s <? 4 then OK None
            else if negb (bool_decide (String.get 0 s = Some "$"%char)) then OK None
            else
              match Strings.SplitN s ":" 2 with
              | [part0; part1] =>
                  let key := Strings.ToLower unicodeLower (Strings.TrimSpace part0) in
                  let value := Strings.TrimSpace part1 in
                  OK (Some (mkMetaValue key value))
              | _ => OK None
              end
      | _ => OK None
      end
  end.

(** [page.Root.Content[idx] = nil] *)
Definition clearBlock (p : Page) (idx : nat) : Page :=
  withNotionPage p
    (withContent (NotionPage p) (<[idx := None]> (Content (Root (NotionPage p))))).

(** The body of the loop of [extractMeta] at index [idx]; the state is the
    page and [toRemove]. *)
Definition extractMetaBody (idx : nat) (st : Page * gmap Z bool)
    : Result (Page * gmap Z bool) :=
  let p := st.1 in
  let toRemove := st.2 in
  match Content (Root (NotionPage p)) !! idx with
  | None => OK st
  | Some block =>
      mv ← extractMetaValueFromBlock block;
      match mv with
      | None => OK st
      | Some mv =>
          let toRemove := <[Z.of_nat idx := true]> toRemove in
          let p := clearBlock p idx in
          if String.eqb (Key mv) "$id" then OK (withID p (Value mv), toRemove)
          else if String.eqb (Key mv) "$soid" then
            OK (withStackOverflowID p (Value mv), toRemove)
          else if String.eqb (Key mv) "$search" then
            OK (withSearch p (map Strings.TrimSpace (Strings.Split (Value mv) ",")),
                toRemove)
          else if String.eqb (Key mv) "$score" then OK (p, toRemove)
          else
            _ ← panicIf true
                  (unknownKeyMessage (Key mv) (normalizeID (PageID (NotionPage p))));
            OK (p, toRemove)
      end
  end.

(** [extractMeta] extracts the meta values of the page and removes the
    blocks that contained them. *)
Definition extractMeta (p : Page) : Result Page :=
  st ← forEach extractMetaBody
         (seq 0 (length (Content (Root (NotionPage p))))) (p, ∅);
  OK (withNotionPage st.1 (removeBlocks (NotionPage st.1) st.2)).

(** The body of the loop of [getSubPages] for the block at index [idx];
    the state is [res] and [toRemove]. Reading the type of a nil block
    panics. *)
Definition getSubPagesBody (pageIDToPage : gmap string PagePtr)
    (idx : nat) (block : option Block) (st : list PagePtr * gmap Z bool)
    : Result (list PagePtr * gmap Z bool) :=
  match block with
  | None => Panic nilDereference
  | Some block =>
      if negb (String.eqb (Type_ block) BlockPage) then OK st
      else
        let toRemove := <[Z.of_nat idx := true]> st.2 in
        let id := normalizeID (notionapi.ID block) in
        let subPage := pageOf pageIDToPage id in
        _ ← panicIf (bool_decide (subPage = None)) (noSubPageMessage id);
        OK ((st.1 ++ [subPage])%list, toRemove)
  end.

(** [getSubPages] extracts the sub pages and removes the blocks that
    contain this info: the result and the page as it is left. The page is
    not written before the loop ends. *)
Definition getSubPages (page : notionapi.Page) (pageIDToPage : gmap string PagePtr)
    : Result (list PagePtr * notionapi.Page) :=
  st ← forRange (getSubPagesBody pageIDToPage) 0 (Content (Root page)) ([], ∅);
  OK (st.1, removeBlocks page st.2).

(** [f.X = v] for the file that was appended at index [i] of
    [p.SourceFiles]: the slice holds a pointer to it. *)
Definition setSourceFile (p : Page) (i : nat) (f : EmbeddedSourceFile) : Page :=
  withSourceFiles p (<[i := f]> (SourceFiles p)).

(** The body of the loop of [extractEmbeddedSourceFiles]. The two
    [fmt.Printf] write a diagnostic to the standard output, which is not
    part of the state. *)
Definition extractEmbeddedSourceFilesBody (wd : string) (block : option Block) (p : Page)
    : Result Page :=
  match block with
  | None => Panic nilDereference
  | Some block =>
      if negb (String.eqb (Type_ block) BlockEmbed) then OK p
      else
        let uri := DisplaySource (Format block) in
        let f := mkEmbeddedSourceFile uri "" "" [] false in
        let i := length (SourceFiles p) in
        let p := withSourceFiles p (SourceFiles p ++ [f])%list in
        relativePath ← gitoembedToRelativePath uri;
        if String.eqb relativePath "" then OK p
        else
          let fileName := filepathBase relativePath in
          let path := filepathJoin wd relativePath in
          let read := readFilteredSourceFile path in
          match read.2 with
          | Some _ => OK (setSourceFile p i (mkEmbeddedSourceFile uri fileName path read.1 false))
          | None => OK (setSourceFile p i (mkEmbeddedSourceFile uri fileName path read.1 true))
          end
  end.

Definition extractEmbeddedSourceFiles (p : Page) : Result Page :=
  _ ← panicIfErr Getwd.2;
  forEach (extractEmbeddedSourceFilesBody Getwd.1)
    (Content (Root (NotionPage p))) p.

(** *** What the properties are stated with *)

(** The keys that [extractMeta] knows. *)
Definition knownKey (key : string) : bool :=
  String.eqb key "$id" || String.eqb key "$soid" || String.eqb key "$search"
  || String.eqb key "$score".

(** The assignment that the [switch] of [extractMeta] makes for a meta
    value with a known key. *)
Definition assignMeta (p : Page) (mv : MetaValue) : Page :=
  if String.eqb (Key mv) "$id" then withID p (Value mv)
  else if String.eqb (Key mv) "$soid" then withStackOverflowID p (Value mv)
  else if String.eqb (Key mv) "$search" then
    withSearch p (map Strings.TrimSpace (Strings.Split (Value mv) ","))
  else p.

(** The directive-block predicate: [extractMetaValueFromBlock] finds a meta
    value in the block. *)
Definition isDirective (block : option Block) : bool :=
  match extractMetaValueFromBlock block with
  | OK (Some _) => true
  | _ => false
  end.

(** The block is there and holds no meta value: it stays in the page. *)
Definition keeps (block : option Block) : bool :=
  match extractMetaValueFromBlock block with
  | OK None => true
  | _ => false
  end.

(** The loop of [extractMeta] goes on after the block. *)
Definition passes (block : option Block) : bool :=
  match extractMetaValueFromBlock block with
  | OK None => true
  | OK (Some mv) => knownKey (Key mv)
  | Panic _ => false
  end.

(** The meta values of the blocks, in block order. *)
Definition metaValues (blocks : list (option Block)) : list MetaValue :=
  omap (fun block =>
          match extractMetaValueFromBlock block with
          | OK (Some mv) => Some mv
          | _ => None
          end) blocks.

(** What the loop leaves at the index of a block: nil for a directive. *)
Definition cleared (block : option Block) : option Block :=
  if keeps block then block else None.

(** The loop of [extractMeta] from index [idx] on, as a recursion over the
    blocks [blocks] that the range is still to read
    ([forEach_extractMetaFrom] below). *)
Fixpoint extractMetaFrom (blocks : list (option Block)) (idx : nat)
    (st : Page * gmap Z bool) : Result (Page * gmap Z bool) :=
  match blocks with
  | [] => OK st
  | block :: rest =>
      mv ← extractMetaValueFromBlock block;
      match mv with
      | None => extractMetaFrom rest (S idx) st
      | Some mv =>
          if knownKey (Key mv) then
            extractMetaFrom rest (S idx)
              (assignMeta (clearBlock st.1 idx) mv, <[Z.of_nat idx := true]> st.2)
          else
            Panic (unknownKeyMessage (Key mv) (normalizeID (PageID (NotionPage st.1))))
      end
  end.

(** A page-link block. *)
Definition isPageLink (block : option Block) : bool :=
  match block with
  | Some block => String.eqb (Type_ block) BlockPage
  | None => false
  end.

(** An embed block. *)
Definition isEmbed (block : option Block) : bool :=
  match block with
  | Some block => String.eqb (Type_ block) BlockEmbed
  | None => false
  end.

(** The node that the mapping gives for a page-link block. *)
Definition subPageOf (pageIDToPage : gmap string PagePtr) (block : option Block)
    : PagePtr :=
  match block with
  | Some block => pageOf pageIDToPage (normalizeID (notionapi.ID block))
  | None => None
  end.

(** The entry that [extractEmbeddedSourceFiles] records for an embed block
    with the display source [uri], when the working directory is [wd]. *)
Definition sourceFileOf (wd uri : string) : Result EmbeddedSourceFile :=
  relativePath ← gitoembedToRelativePath uri;
  if String.eqb relativePath "" then OK (mkEmbeddedSourceFile uri "" "" [] false)
  else
    let path := filepathJoin wd relativePath in
    let read := readFilteredSourceFile path in
    OK (mkEmbeddedSourceFile uri (filepathBase relativePath) path read.1
          (match read.2 with Some _ => false | None => true end)).

(** The display source of a block. *)
Definition displaySourceOf (block : option Block) : string :=
  match block with
  | Some block => DisplaySource (Format block)
  | None => EmptyString
  end.

(** A block on which the loop of [getSubPages] goes on: it is there, and
    when it is a page link its identifier is mapped to a node. *)
Definition resolves (pageIDToPage : gmap string PagePtr) (block : option Block) : Prop :=
  block <> None
  /\ (isPageLink block = true -> subPageOf pageIDToPage block <> None).

End Extraction.

(** ** The directive block of the specification

    The specification (4.1) calls a block a directive block when it is
    (a) a plain-text block, (b) with exactly one inline run, (c) that run
    being unformatted plain text, and (d) the trimmed text has length at
    least 4 and starts with [$]. The two definitions below follow these
    words, not the code: [specDirectiveText] gives the trimmed text of such
    a block, and the colon is no part of the predicate. *)
Definition specDirectiveText (block : option Block) : option string :=
  match block with
  | Some b =>
      if String.eqb (Type_ b) BlockText then
        match InlineContent b with
        | [inline] =>
            if IsPlain inline then
              let text := Strings.TrimSpace (Text inline) in
              if (4 <=? Strings.len text) && Strings.HasPrefix text "$"
              then Some text
              else None
            else None
        | _ => None
        end
      else None
  | None => None
  end.

Definition specDirective (block : option Block) : bool :=
  match specDirectiveText block with
  | Some _ => true
  | None => false
  end.

(** A directive block of the specification whose trimmed text holds a
    colon. *)
Definition colonDirective (block : option Block) : bool :=
  match specDirectiveText block with
  | Some text => Strings.Contains text ":"
  | None => false
  end.

(** ** Sample pages

    Small inputs on which the code is run below. *)

(** A text block with one plain inline run. *)
Definition textBlock (text : string) : option Block :=
  Some (mkBlock "t" BlockText "" [mkInlineBlock text true] (mkFormatEmbed "") [] []).

(** A page-link block that refers to the page [id]. *)
Definition linkBlock (id : string) : option Block :=
  Some (mkBlock id BlockPage "" [] (mkFormatEmbed "") [] []).

(** An embed block with the display source [uri]. *)
Definition embedBlock (uri : string) : option Block :=
  Some (mkBlock "e" BlockEmbed "" [] (mkFormatEmbed uri) [] []).

Definition samplePage (ids : list string) (blocks : list (option Block))
    : notionapi.Page :=
  mkPage "0fa8-d386" (mkBlock "0fa8-d386" BlockPage "Sample" [] (mkFormatEmbed "") ids blocks).

(** The page of a book as [bookPageFromNotionPage] sets it up before the
    extraction: [res := &Page{}; res.NotionPage = page;
    res.Title = page.Root.Title]. *)
Definition newPage (page : notionapi.Page) : Page :=
  mkBookPage page (notionapi.Title (Root page)) "" "" "" [] [].

(** An identifier normalizer: the dashes of the identifier are dropped. *)
Fixpoint dashless (s : string) : string :=
  match s with
  | EmptyString => EmptyString
  | String c s' => if Ascii.eqb c "-" then dashless s' else String c (dashless s')
  end.

(** A Unicode lower-casing that leaves what is not ASCII as it is. *)
Definition sameCase (s : string) : string := s.

(** A working directory and a reader that finds no file but [booleans.go]. *)
Definition sampleGetwd : string * option string := ("/home/books", None).

Definition sampleReader (path : string) : list string * option string :=
  if String.eqb path "/home/books/books/go/0020-basic-types/booleans.go"
  then (["package main"], None)
  else ([], Some "no such file or directory").

Definition sampleBase (path : string) : string :=
  match Url.CutLast path "/" with
  | Some (_, name) => name
  | None => path
  end.

Definition sampleJoin (dir path : string) : string := dir +:+ "/" +:+ path.

Definition booleansURL : string :=
  "https://onlinetool.io/gitoembed/widget?url=https%3A%2F%2Fgithub.com%2Fessentialbooks%2Fbooks%2Fblob%2Fmaster%2Fbooks%2Fgo%2F0020-basic-types%2Fbooleans.go".

(** A widget URL of the viewer whose inner URL is a lone colon, which
    [url.Parse] refuses ([missing protocol scheme]). *)
Definition colonURL : string := "https://onlinetool.io/gitoembed/widget?url=:".

(** A page with two directives, a directive-like line without colon, and
    ordinary text. *)
Definition metaPage : Page :=
  newPage (samplePage ["i1"; "i2"; "i3"; "i4"]
             [textBlock "$Id: 59"; textBlock "hello";
              textBlock " $search: a, b , c "; textBlock "$abc"]).

(** The page that [extractMeta] makes of [metaPage]. *)
Definition metaPageExtracted : Page :=
  match extractMeta sameCase dashless metaPage with
  | OK p => p
  | Panic _ => metaPage
  end.

Definition noColonPage : Page :=
  newPage (samplePage ["i1"] [textBlock "$abc"]).

Definition bogusPage : Page :=
  newPage (samplePage ["i1"; "i2"] [textBlock "intro"; textBlock "$bogus: x"]).

Definition searchPage : Page :=
  newPage (samplePage ["i1"] [textBlock "$search: a, b , c"]).

Definition linksPage : notionapi.Page :=
  samplePage ["i1"; "i2"; "i3"; "i4"]
    [textBlock "hello"; linkBlock "aa-01"; textBlock "bye"; linkBlock "aa-02"].

Definition sampleMapping : gmap string PagePtr :=
  {[ "aa01" := Some 1%positive; "aa02" := Some 2%positive ]}.

Definition twoBlocksPage : notionapi.Page :=
  samplePage ["i1"; "i2"] [textBlock "first"; textBlock "second"].

Definition embedsPage : Page :=
  newPage (samplePage ["i1"; "i2"] [embedBlock colonURL; embedBlock booleansURL]).

Definition filesPage : Page :=
  mkBookPage (samplePage [] []) "Sample" "" "" "" []
    [mkEmbeddedSourceFile "u1" "" "" [] false;
     mkEmbeddedSourceFile "u2" "" "" [] false;
     mkEmbeddedSourceFile "u2" "b.go" "/home/books/b.go" ["package main"] true].

(** ** The tree builder

    The pages of the content source are reached through pointers that the
    mapping, the callers and the pages of the book share, and the
    extraction writes them in place: the pages live in a heap, from
    addresses to pages. [bookPageFromNotionPage] calls itself on the sub
    pages it finds; the recursion is bounded by [fuel], the depth of calls
    that is allowed. *)

Abbreviation Heap := (gmap positive notionapi.Page).

(** The page behind a pointer; a read through nil panics. In Go a pointer
    that is not nil points to a page: an address outside the heap does not
    come up, and the model stops there as it does for nil. *)
Definition deref (h : Heap) (ptr : PagePtr) : Result notionapi.Page :=
  match ptr with
  | None => Panic nilDereference
  | Some l =>
      match h !! l with
      | Some page => OK page
      | None => Panic nilDereference
      end
  end.

(** A page of the book with its sub pages ([Pages]): the address its
    [NotionPage] points to, the fields of [Page] (whose [NotionPage] is
    the page as the extraction of this very page left it), and the pages
    built for the sub pages. *)
#[warnings="-register-all"] Inductive BookPage : Type :=
| BookNode (ptr : positive) (page : Page) (Pages : list BookPage).

Definition nodePtr (node : BookPage) : positive :=
  match node with BookNode ptr _ _ => ptr end.

Definition nodePage (node : BookPage) : Page :=
  match node with BookNode _ page _ => page end.

Definition nodePages (node : BookPage) : list BookPage :=
  match node with BookNode _ _ pages => pages end.

(** A run under a bound on the depth of calls: it returns, panics, or
    needs more than the bound. *)
Inductive Run (A : Type) : Type :=
| Done (a : A)
| Aborted (msg : string)
| OutOfFuel.
Arguments Done {A} a.
Arguments Aborted {A} msg.
Arguments OutOfFuel {A}.

#[global] Instance Run_ret : MRet Run := fun A a => Done a.
#[global] Instance Run_bind : MBind Run := fun A B k r =>
  match r with
  | Done a => k a
  | Aborted msg => Aborted msg
  | OutOfFuel => OutOfFuel
  end.

Definition run {A} (r : Result A) : Run A :=
  match r with
  | OK a => Done a
  | Panic msg => Aborted msg
  end.

(** A [for ... range] loop whose body may call on. *)
Fixpoint forEachRun {A St : Type} (body : A -> St -> Run St) (l : list A) (st : St)
    : Run St :=
  match l with
  | [] => Done st
  | x :: rest => st' ← body x st; forEachRun body rest st'
  end.

(** Modelled from the spec: the declaration of [Book] is not in [page.go];
    its fields are those that [bookFromPages] reads and assigns. *)
Module Book.

Record Book : Type := mkBook {
  NotionStartPageID : string;
  pageIDToPage : gmap string PagePtr;
  Title : string;
  RootPage : option BookPage
}.

End Book.

(** ["start block is of type '%s' and not '%s'"] *)
Definition startBlockMessage (type expected : string) : string :=
  "start block is of type '" +:+ type +:+ "' and not '" +:+ expected +:+ "'".

Section TreeBuilder.

Variable unicodeLower : string -> string.
Variable normalizeID : string -> string.
Variable Getwd : string * option string.
Variable readFilteredSourceFile : string -> list string * option string.
Variable filepathBase : string -> string.
Variable filepathJoin : string -> string -> string.

(** The entries that the loop of [extractEmbeddedSourceFiles] appends for
    the blocks, in block order; it panics on a nil block and where the
    resolver panics. *)
Fixpoint embedEntries (wd : string) (blocks : list (option Block))
    : Result (list EmbeddedSourceFile) :=
  match blocks with
  | [] => OK []
  | None :: _ => Panic nilDereference
  | Some block :: rest =>
      if String.eqb (Type_ block) BlockEmbed then
        f ← sourceFileOf readFilteredSourceFile filepathBase filepathJoin wd
              (DisplaySource (Format block));
        files ← embedEntries wd rest;
        OK (f :: files)
      else embedEntries wd rest
  end.

(** [bookPageFromNotionPage]: the page of the book for the page behind
    [ptr], and the heap as the extraction leaves it. [extractMeta] and
    [getSubPages] write the page behind [ptr]; the page of the book points
    to it. *)
Fixpoint bookPageFromNotionPage (fuel : nat) (pageIDToPage : gmap string PagePtr)
    (h : Heap) (ptr : PagePtr) : Run (BookPage * Heap) :=
  match fuel with
  | O => OutOfFuel
  | S fuel =>
      match ptr with
      | None => Aborted nilDereference
      | Some l =>
          page ← run (deref h (Some l));
          let res := newPage page in
          res ← run (extractMeta unicodeLower normalizeID res);
          let h := <[l := NotionPage res]> h in
          res ← run (extractEmbeddedSourceFiles Getwd readFilteredSourceFile
                       filepathBase filepathJoin res);
          sub ← run (getSubPages normalizeID (NotionPage res) pageIDToPage);
          let res := withNotionPage res sub.2 in
          let h := <[l := sub.2]> h in
          st ← forEachRun
                 (fun subPage (st : list BookPage * Heap) =>
                    built ← bookPageFromNotionPage fuel pageIDToPage st.2 subPage;
                    Done ((st.1 ++ [built.1])%list, built.2))
                 sub.1 ([], h);
          Done (BookNode l res st.1, st.2)
      end
  end.

(** [bookFromPages]: the start page is looked up by the identifier as the
    book has it, its root must be a page block, and the book gets its
    title and the tree of its pages. *)
Definition bookFromPages (fuel : nat) (book : Book.Book) (h : Heap)
    : Run (Book.Book * Heap) :=
  let startPageID := Book.NotionStartPageID book in
  let ptr := pageOf (Book.pageIDToPage book) startPageID in
  page ← run (deref h ptr);
  _ ← run (panicIf (negb (String.eqb (Type_ (Root page)) BlockPage))
             (startBlockMessage (Type_ (Root page)) BlockPage));
  let title := notionapi.Title (Root page) in
  built ← bookPageFromNotionPage fuel (Book.pageIDToPage book) h ptr;
  Done (Book.mkBook (Book.NotionStartPageID book) (Book.pageIDToPage book) title
          (Some built.1),
        built.2).

(** The block stays in the page through the whole extraction: it is
    there, holds no meta value and is no page link. *)
Definition stays (block : option Block) : bool :=
  keeps unicodeLower block && negb (isPageLink block).

(** A page that the extraction has nothing to take from. *)
Definition extracted (page : notionapi.Page) : bool :=
  forallb stays (Content (Root page)).

End TreeBuilder.

(** The number of page links of a page, and of all pages of a heap. *)
Definition linkCount (page : notionapi.Page) : nat :=
  length (List.filter isPageLink (Content (Root page))).

Definition links (h : Heap) : nat :=
  map_fold (fun _ page n => (linkCount page + n)%nat) 0%nat h.

(** ** More sample pages *)

(** Marks that touch no index of [twoBlocksPage]. *)
Definition idleMarks : gmap Z bool := {[ (-1) := true; 0 := false; 7 := true ]}.

Definition twoIdsPage : Page :=
  newPage (samplePage ["i1"; "i2"; "i3"]
             [textBlock "$id: 1"; textBlock "between"; textBlock "$ID: 2"]).

Definition twoIdsPageExtracted : Page :=
  match extractMeta sameCase dashless twoIdsPage with
  | OK p => p
  | Panic _ => twoIdsPage
  end.

Definition scorePage : Page :=
  newPage (samplePage ["i1"; "i2"] [textBlock "$score: 5"; textBlock "text"]).

Definition scorePageExtracted : Page :=
  match extractMeta sameCase dashless scorePage with
  | OK p => p
  | Panic _ => scorePage
  end.

Definition linksPageLeft : notionapi.Page :=
  match getSubPages dashless linksPage sampleMapping with
  | OK r => r.2
  | Panic _ => linksPage
  end.

(** A page with an embed outside the convention and the embed of
    [booleans.go]. *)
Definition resolvedPage : Page :=
  newPage (samplePage ["i1"; "i2"]
             [embedBlock "https://example.com/x"; embedBlock booleansURL]).

Definition resolvedPageExtracted : Page :=
  match extractEmbeddedSourceFiles sampleGetwd sampleReader sampleBase sampleJoin
          resolvedPage with
  | OK p => p
  | Panic _ => resolvedPage
  end.

Definition booleansFile : EmbeddedSourceFile :=
  mkEmbeddedSourceFile booleansURL "booleans.go"
    "/home/books/books/go/0020-basic-types/booleans.go" ["package main"] true.

(** A heap of two pages that link to each other: the root links to the
    chapter and to itself, the chapter links back to the root. *)
Definition rootPage : notionapi.Page :=
  mkPage "r-1"
    (mkBlock "r-1" BlockPage "Book" [] (mkFormatEmbed "") []
       [textBlock "$id: 7"; linkBlock "c-2"; textBlock "intro"; linkBlock "r-1"]).

Definition chapterPage : notionapi.Page :=
  mkPage "c-2"
    (mkBlock "c-2" BlockPage "Chapter" [] (mkFormatEmbed "") []
       [textBlock "$soid: 9"; linkBlock "r-1"; embedBlock booleansURL]).

Definition circleHeap : Heap := {[ 1%positive := rootPage; 2%positive := chapterPage ]}.

Definition circleMapping : gmap string PagePtr :=
  {[ "r1" := Some 1%positive; "c2" := Some 2%positive ]}.

Definition circleBuild (fuel : nat) : Run (BookPage * Heap) :=
  bookPageFromNotionPage sameCase dashless sampleGetwd sampleReader sampleBase
    sampleJoin fuel circleMapping circleHeap (Some 1%positive).

Definition circleTree : BookPage :=
  match circleBuild 4 with
  | Done r => r.1
  | _ => BookNode 1%positive (newPage rootPage) []
  end.

Definition circleHeapLeft : Heap :=
  match circleBuild 4 with
  | Done r => r.2
  | _ => circleHeap
  end.

Definition circleBook : Book.Book := Book.mkBook "r1" circleMapping "" None.

Definition circleBookBuilt : Book.Book :=
  match bookFromPages sameCase dashless sampleGetwd sampleReader sampleBase sampleJoin
          4 circleBook circleHeap with
  | Done r => r.1
  | _ => circleBook
  end.

(** ** Directive lines as an author writes them *)

(** A byte of printable ASCII that is no space. *)
Definition printable (c : ascii) : bool :=
  (0x21 <=? byte c)%N && (byte c <=? 0x7E)%N.

(** The string starts, or ends, with such a byte. *)
Definition startsPrintable (s : string) : Prop :=
  exists c rest, s = String c rest /\ printable c = true.

Definition endsPrintable (s : string) : Prop :=
  exists c rest, Strings.reverse s = String c rest /\ printable c = true.

(** The line [$key: value]. *)
Definition directiveLine (key value : string) : string :=
  "$" +:+ key +:+ ": " +:+ value.

(** * Properties *)

(** ** Sequencing and loops *)

Lemma bind_OK_inv {A B} (r : Result A) (k : A -> Result B) (b : B) :
  r ≫= k = OK b -> exists a, r = OK a /\ k a = OK b.
Proof. destruct r as [a|msg]; simpl; [eauto | discriminate]. Qed.

Lemma forEach_app {A S} (body : A -> S -> Result S) (l1 l2 : list A) (st : S) :
  forEach body (l1 ++ l2)%list st = forEach body l1 st ≫= forEach body l2.
Proof.
  revert st. induction l1 as [|x l1 IH]; intros st; simpl; [reflexivity|].
  destruct (body x st) as [st'|msg]; simpl; [apply IH | reflexivity].
Qed.

Lemma forRange_app {A S} (body : nat -> A -> S -> Result S) (idx : nat)
    (l1 l2 : list A) (st : S) :
  forRange body idx (l1 ++ l2)%list st =
  forRange body idx l1 st ≫= forRange body (idx + length l1) l2.
Proof.
  revert idx st. induction l1 as [|x l1 IH]; intros idx st; simpl.
  - rewrite Nat.add_0_r. reflexivity.
  - destruct (body idx x st) as [st'|msg]; simpl; [|reflexivity].
    rewrite IH, Nat.add_succ_comm. reflexivity.
Qed.

(** ** Block removal *)

Section Removal.

Context {A : Type}.
Variable toRemove : gmap Z bool.

Lemma survivorsFrom_snoc (j : nat) (l : list A) (x : A) :
  survivorsFrom toRemove j (l ++ [x])%list =
  (survivorsFrom toRemove j l
     ++ (if marked toRemove (j + length l) then [] else [x]))%list.
Proof.
  revert j. induction l as [|y l IH]; intros j; simpl.
  - rewrite Nat.add_0_r. destruct (marked toRemove j); reflexivity.
  - rewrite IH, <- Nat.add_succ_comm.
    destruct (marked toRemove j); reflexivity.
Qed.

Lemma survivorsFrom_length_le (j : nat) (l : list A) :
  (length (survivorsFrom toRemove j l) <= length l)%nat.
Proof.
  revert j. induction l as [|y l IH]; intros j; simpl; [lia|].
  specialize (IH (S j)). destruct (marked toRemove j); simpl; lia.
Qed.

(** The survivors and the marked indices share out the list. *)
Lemma survivorsFrom_length (j : nat) (l : list A) :
  (length (survivorsFrom toRemove j l) + markedFrom toRemove j l = length l)%nat.
Proof.
  revert j. induction l as [|y l IH]; intros j; simpl; [reflexivity|].
  specialize (IH (S j)). destruct (marked toRemove j); simpl; lia.
Qed.

(** The survivors keep the order they have in the list. *)
Lemma survivorsFrom_sublist (j : nat) (l : list A) :
  sublist (survivorsFrom toRemove j l) l.
Proof.
  revert j. induction l as [|y l IH]; intros j; simpl; [constructor|].
  destruct (marked toRemove j); [apply sublist_cons | apply sublist_skip]; apply IH.
Qed.

Lemma elem_of_survivorsFrom (j : nat) (l : list A) (x : A) :
  x ∈ survivorsFrom toRemove j l <->
  exists i, l !! i = Some x /\ marked toRemove (j + i) = false.
Proof.
  revert j. induction l as [|y l IH]; intros j; simpl.
  - split; [intros H; inversion H | intros (i & H & _); discriminate].
  - destruct (marked toRemove j) eqn:Hj.
    + rewrite IH. split.
      * intros (i & Hi & Hm). exists (S i). rewrite <- Nat.add_succ_comm. auto.
      * intros ([|i] & Hi & Hm); simpl in Hi.
        -- rewrite Nat.add_0_r in Hm. congruence.
        -- exists i. rewrite <- Nat.add_succ_comm in Hm. auto.
    + rewrite elem_of_cons, IH. split.
      * intros [->|(i & Hi & Hm)].
        -- exists 0%nat. rewrite Nat.add_0_r. auto.
        -- exists (S i). rewrite <- Nat.add_succ_comm. auto.
      * intros ([|i] & Hi & Hm); simpl in Hi.
        -- left. congruence.
        -- right. exists i. rewrite <- Nat.add_succ_comm in Hm. auto.
Qed.

(** The compaction loop after [k] turns: the survivors of the first [k]
    elements, then the array as it was from there on. *)
Lemma compact_turns (arr : list A) (k : nat) :
  (k <= length arr)%nat ->
  foldl (compactStep toRemove) (arr, 0%nat) (seq 0 k) =
  ((survivors toRemove (take k arr)
      ++ drop (length (survivors toRemove (take k arr))) arr)%list,
   length (survivors toRemove (take k arr))).
Proof.
  induction k as [|k IH]; intros Hk.
  - simpl. rewrite drop_0. reflexivity.
  - rewrite seq_S, foldl_app, IH by lia. simpl.
    destruct (lookup_lt_is_Some_2 arr k) as [el Hel]; [lia|].
    set (sv := survivors toRemove (take k arr)).
    assert (Hn : (length sv <= k)%nat).
    { unfold sv, survivors.
      etransitivity; [apply survivorsFrom_length_le|].
      rewrite length_take. lia. }
    unfold compactStep; simpl.
    rewrite lookup_app_r by lia.
    rewrite lookup_drop.
    replace (length sv + (k - length sv))%nat with k by lia.
    rewrite Hel.
    rewrite (take_S_r arr k el Hel).
    unfold survivors at 1 2 3. rewrite survivorsFrom_snoc.
    rewrite length_take, Nat.min_l by lia. simpl.
    fold (survivors toRemove (take k arr)). fold sv.
    destruct (marked toRemove k).
    + rewrite app_nil_r. reflexivity.
    + rewrite length_app. simpl.
      destruct (lookup_lt_is_Some_2 arr (length sv)) as [y Hy]; [lia|].
      rewrite insert_app_r_alt by lia.
      rewrite Nat.sub_diag.
      rewrite (drop_S arr y (length sv) Hy). simpl.
      rewrite <- app_assoc. simpl.
      replace (length sv + 1)%nat with (S (length sv)) by lia.
      reflexivity.
Qed.

(** Where the marks are the complement of [f], the survivors are the
    elements that satisfy [f]. *)
Lemma survivorsFrom_filter (f : A -> bool) (j : nat) (l : list A) :
  (forall i x, l !! i = Some x -> marked toRemove (j + i) = negb (f x)) ->
  survivorsFrom toRemove j l = List.filter f l.
Proof.
  revert j. induction l as [|x l IH]; intros j Hm; simpl; [reflexivity|].
  rewrite (IH (S j)).
  2:{ intros i y Hi. rewrite <- (Hm (S i) y Hi). f_equal. lia. }
  specialize (Hm 0%nat x eq_refl). rewrite Nat.add_0_r in Hm. rewrite Hm.
  destruct (f x); reflexivity.
Qed.

Lemma compact_spec (arr : list A) :
  compact toRemove arr =
  ((survivors toRemove arr ++ drop (length (survivors toRemove arr)) arr)%list,
   length (survivors toRemove arr)).
Proof.
  unfold compact. rewrite compact_turns by lia.
  rewrite firstn_all. reflexivity.
Qed.

End Removal.

Lemma marked_empty (i : nat) : marked ∅ i = false.
Proof. unfold marked. rewrite lookup_empty. reflexivity. Qed.

Lemma marked_insert (toRemove : gmap Z bool) (j i : nat) :
  marked (<[Z.of_nat j := true]> toRemove) i =
  if decide (i = j) then true else marked toRemove i.
Proof.
  unfold marked. destruct (decide (i = j)) as [->|Hne].
  - rewrite lookup_insert_eq. reflexivity.
  - rewrite lookup_insert_ne by lia. reflexivity.
Qed.

Lemma survivorsFrom_unmarked {A} (toRemove : gmap Z bool) (j : nat) (l : list A) :
  (forall i, marked toRemove i = false) -> survivorsFrom toRemove j l = l.
Proof.
  intros H. revert j. induction l as [|x l IH]; intros j; simpl; [reflexivity|].
  rewrite H, IH. reflexivity.
Qed.

(** The blocks after [removeBlocks] are the survivors, in their order. *)
Lemma removeBlocks_Content (page : notionapi.Page) (toRemove : gmap Z bool) :
  Content (Root (removeBlocks page toRemove)) =
  survivors toRemove (Content (Root page)).
Proof.
  unfold removeBlocks. destruct (decide (size toRemove = 0%nat)) as [Hz|Hnz].
  - apply map_size_empty_inv in Hz. subst toRemove.
    unfold survivors. rewrite survivorsFrom_unmarked; [reflexivity|].
    apply marked_empty.
  - simpl. rewrite compact_spec. simpl.
    rewrite take_app_length. reflexivity.
Qed.

(** The identifiers after [removeBlocks]: the survivors, followed by what
    the slice held behind them before. *)
Lemma removeBlocks_ContentIDs (page : notionapi.Page) (toRemove : gmap Z bool) :
  ContentIDs (Root (removeBlocks page toRemove)) =
  (survivors toRemove (ContentIDs (Root page))
     ++ drop (length (survivors toRemove (ContentIDs (Root page))))
          (ContentIDs (Root page)))%list.
Proof.
  unfold removeBlocks. destruct (decide (size toRemove = 0%nat)) as [Hz|Hnz].
  - apply map_size_empty_inv in Hz. subst toRemove.
    unfold survivors. rewrite survivorsFrom_unmarked by apply marked_empty.
    rewrite drop_all, app_nil_r. reflexivity.
  - simpl. rewrite compact_spec. reflexivity.
Qed.

Lemma removeBlocks_ContentIDs_length (page : notionapi.Page) (toRemove : gmap Z bool) :
  length (ContentIDs (Root (removeBlocks page toRemove))) =
  length (ContentIDs (Root page)).
Proof.
  rewrite removeBlocks_ContentIDs, length_app, length_drop.
  pose proof (survivorsFrom_length_le toRemove 0 (ContentIDs (Root page))).
  unfold survivors. lia.
Qed.

(** The block list gets shorter by the number of marked indices, and keeps
    the order of the blocks that stay. *)
Lemma removeBlocks_Content_length (page : notionapi.Page) (toRemove : gmap Z bool) :
  (length (Content (Root (removeBlocks page toRemove)))
   + markedFrom toRemove 0 (Content (Root page)) = length (Content (Root page)))%nat
  /\ sublist (Content (Root (removeBlocks page toRemove))) (Content (Root page)).
Proof.
  rewrite removeBlocks_Content. split.
  - apply survivorsFrom_length.
  - apply survivorsFrom_sublist.
Qed.

(** Once a block is removed, the two lists of a page that had as many
    identifiers as blocks are out of step. *)
Lemma removeBlocks_out_of_step (page : notionapi.Page) (toRemove : gmap Z bool) :
  length (ContentIDs (Root page)) = length (Content (Root page)) ->
  (0 < markedFrom toRemove 0 (Content (Root page)))%nat ->
  (length (Content (Root (removeBlocks page toRemove)))
   < length (ContentIDs (Root (removeBlocks page toRemove))))%nat.
Proof.
  intros Hlen Hmarked.
  destruct (removeBlocks_Content_length page toRemove) as [Hc _].
  rewrite removeBlocks_ContentIDs_length. lia.
Qed.

Lemma removeBlocks_PageID (page : notionapi.Page) (toRemove : gmap Z bool) :
  PageID (removeBlocks page toRemove) = PageID page.
Proof.
  unfold removeBlocks. destruct (decide (size toRemove = 0%nat)); reflexivity.
Qed.

Lemma removeBlocks_empty (page : notionapi.Page) : removeBlocks page ∅ = page.
Proof. reflexivity. Qed.

(** ** Strings *)

Example TrimSpace_ascii : Strings.TrimSpace "   $Id: 59  " = "$Id: 59".
Proof. reflexivity. Qed.

Example SplitN_first_colon : Strings.SplitN "$a:b:c" ":" 2 = ["$a"; "b:c"].
Proof. reflexivity. Qed.

Example Split_commas : Strings.Split "a, b , c" "," = ["a"; " b "; " c"].
Proof. reflexivity. Qed.

Example Split_empty : Strings.Split "" "," = [""].
Proof. reflexivity. Qed.

Example TrimSpace_unicode :
  Strings.TrimSpace (String (ascii_of_N 0xC2) (String (ascii_of_N 0xA0) "$a: b")
                     +:+ String (ascii_of_N 0xE2) (String (ascii_of_N 0x80)
                           (String (ascii_of_N 0xA8) ""))) = "$a: b".
Proof. reflexivity. Qed.

Example ToLower_ascii : Strings.ToLower sameCase "$SoID" = "$soid".
Proof. reflexivity. Qed.

Example Parse_missing_scheme : Url.Parse ":" = None.
Proof. reflexivity. Qed.

Example Parse_host_port :
  Url.Parse "http://user:pw@Example.com:80/a%20b?x=1&y=2#top"
  = Some (Url.mkURL "http" "" "Example.com:80" "/a b" "x=1&y=2").
Proof. vm_compute. reflexivity. Qed.

Example Parse_colon_in_first_segment : Url.Parse "1a:b/c" = None.
Proof. vm_compute. reflexivity. Qed.

Example Parse_space_in_host : Url.Parse "http://a b/" = None.
Proof. vm_compute. reflexivity. Qed.

Example Query_Get_first :
  Url.Get (Url.Query (Url.mkURL "" "" "" "" "a=1&url=x+y&url=z;q&b")) "url" = "x y".
Proof. vm_compute. reflexivity. Qed.


Lemma Cut_byte_None (c : ascii) (s : string) :
  ~ Strings.hasByte c s -> Strings.Cut s (String c EmptyString) = None.
Proof.
  induction s as [|a s IH]; intros Hc; simpl; [reflexivity|].
  destruct (ascii_dec c a) as [->|Hne].
  - exfalso. apply Hc. exists 0%nat. reflexivity.
  - rewrite IH; [reflexivity|].
    intros [i Hi]. apply Hc. exists (S i). exact Hi.
Qed.

Lemma Cut_byte_None_inv (c : ascii) (s : string) :
  Strings.Cut s (String c EmptyString) = None -> ~ Strings.hasByte c s.
Proof.
  induction s as [|a s IH]; intros Hcut [i Hi].
  - destruct i; discriminate.
  - simpl in Hcut. destruct (ascii_dec c a) as [->|Hne].
    + destruct s; discriminate.
    + destruct (Strings.Cut s (String c EmptyString)) as [[? ?]|]; [discriminate|].
      destruct i as [|i]; simpl in Hi; [congruence|].
      apply IH; [reflexivity|]. exists i. exact Hi.
Qed.

Lemma Cut_byte_Some (c : ascii) (s before after : string) :
  Strings.Cut s (String c EmptyString) = Some (before, after) ->
  s = before +:+ String c after
  /\ ~ Strings.hasByte c before
  /\ (String.length after < String.length s)%nat.
Proof.
  revert before. induction s as [|a s IH]; intros before; simpl; [discriminate|].
  destruct (ascii_dec c a) as [->|Hne].
  - destruct s; simpl; intros [= <- <-]; (split; [reflexivity|split; [|simpl; lia]]);
      intros [i Hi]; destruct i; discriminate.
  - destruct (Strings.Cut s (String c EmptyString)) as [[b a']|] eqn:Hcut;
      [|discriminate].
    intros [= <- <-]. destruct (IH b eq_refl) as (-> & Hb & Hlen).
    split; [reflexivity|split; [|simpl; lia]].
    intros [[|i] Hi]; simpl in Hi; [congruence|].
    apply Hb. exists i. exact Hi.
Qed.

(** The pieces of a split on one byte, joined again, are the string. *)
Lemma splitLoop_Join (c : ascii) (cuts : nat) (s : string) :
  Strings.Join (Strings.splitLoop cuts s (String c EmptyString)) (String c EmptyString) = s.
Proof.
  revert s. induction cuts as [|cuts IH]; intros s; simpl; [reflexivity|].
  destruct (Strings.Cut s (String c EmptyString)) as [[b a]|] eqn:Hcut; [|reflexivity].
  apply Cut_byte_Some in Hcut. destruct Hcut as (-> & _ & _).
  specialize (IH a).
  change (Strings.Join (b :: Strings.splitLoop cuts a (String c EmptyString))
            (String c EmptyString) = b +:+ String c a).
  destruct (Strings.splitLoop cuts a (String c EmptyString)) as [|x rest] eqn:Hs.
  - destruct cuts; simpl in Hs; [discriminate|].
    destruct (Strings.Cut a (String c EmptyString)) as [[? ?]|]; discriminate.
  - change (b +:+ String c EmptyString +:+ Strings.Join (x :: rest) (String c EmptyString)
            = b +:+ String c a).
    rewrite IH. reflexivity.
Qed.

(** With as many cuts allowed as the string has bytes, no piece holds the
    separator. *)
Lemma splitLoop_pieces (c : ascii) (cuts : nat) (s : string) :
  (String.length s <= cuts)%nat ->
  Forall (fun piece => ~ Strings.hasByte c piece)
    (Strings.splitLoop cuts s (String c EmptyString)).
Proof.
  revert s. induction cuts as [|cuts IH]; intros s Hlen; simpl.
  - destruct s; [|simpl in Hlen; lia].
    constructor; [|constructor]. intros [i Hi]. destruct i; discriminate.
  - destruct (Strings.Cut s (String c EmptyString)) as [[b a]|] eqn:Hcut.
    + apply Cut_byte_Some in Hcut. destruct Hcut as (_ & Hb & Ha).
      constructor; [exact Hb|]. apply IH. lia.
    + constructor; [|constructor]. apply Cut_byte_None_inv. exact Hcut.
Qed.

(** [Split] on one byte: the pieces hold no separator and join to the
    string. *)
Lemma Split_byte (c : ascii) (s : string) :
  Strings.Join (Strings.Split s (String c EmptyString)) (String c EmptyString) = s
  /\ Forall (fun piece => ~ Strings.hasByte c piece)
       (Strings.Split s (String c EmptyString)).
Proof.
  split; [apply splitLoop_Join | apply splitLoop_pieces; lia].
Qed.

(** ** Meta extraction *)

Section MetaExtraction.

Variable unicodeLower : string -> string.
Variable normalizeID : string -> string.

Local Abbreviation extractValue := (extractMetaValueFromBlock unicodeLower).
Local Abbreviation body := (extractMetaBody unicodeLower normalizeID).
Local Abbreviation loopFrom := (extractMetaFrom unicodeLower normalizeID).
Local Abbreviation keeps' := (keeps unicodeLower).
Local Abbreviation passes' := (passes unicodeLower).
Local Abbreviation values := (metaValues unicodeLower).
Local Abbreviation cleared' := (cleared unicodeLower).

Local Abbreviation blocksOf p := (Content (Root (NotionPage p))).

(** One turn of the loop on the block that the page holds at [idx]. *)
Lemma extractMetaBody_turn (idx : nat) (st : Page * gmap Z bool) (block : option Block) :
  blocksOf st.1 !! idx = Some block ->
  body idx st =
  mv ← extractValue block;
  match mv with
  | None => OK st
  | Some mv =>
      if knownKey (Key mv) then
        OK (assignMeta (clearBlock st.1 idx) mv, <[Z.of_nat idx := true]> st.2)
      else Panic (unknownKeyMessage (Key mv) (normalizeID (PageID (NotionPage st.1))))
  end.
Proof.
  intros Hb. unfold extractMetaBody. rewrite Hb.
  destruct (extractValue block) as [[mv|]|msg]; simpl; try reflexivity.
  unfold knownKey, assignMeta.
  destruct (String.eqb (Key mv) "$id"); [reflexivity|].
  destruct (String.eqb (Key mv) "$soid"); [reflexivity|].
  destruct (String.eqb (Key mv) "$search"); [reflexivity|].
  destruct (String.eqb (Key mv) "$score"); reflexivity.
Qed.

Lemma assignMeta_NotionPage (p : Page) (mv : MetaValue) :
  NotionPage (assignMeta p mv) = NotionPage p.
Proof.
  unfold assignMeta.
  repeat match goal with |- context [if ?b then _ else _] => destruct b end;
    reflexivity.
Qed.

Lemma assignMeta_withNotionPage (p : Page) (mv : MetaValue) (page : notionapi.Page) :
  withNotionPage (assignMeta p mv) page = assignMeta (withNotionPage p page) mv.
Proof.
  unfold assignMeta.
  repeat match goal with |- context [if ?b then _ else _] => destruct b end;
    reflexivity.
Qed.

Lemma foldl_assignMeta_withNotionPage (mvs : list MetaValue) (p : Page)
    (page : notionapi.Page) :
  withNotionPage (foldl assignMeta p mvs) page =
  foldl assignMeta (withNotionPage p page) mvs.
Proof.
  revert p. induction mvs as [|mv mvs IH]; intros p; simpl; [reflexivity|].
  rewrite IH, assignMeta_withNotionPage. reflexivity.
Qed.

Lemma foldl_assignMeta_NotionPage (mvs : list MetaValue) (p : Page) :
  NotionPage (foldl assignMeta p mvs) = NotionPage p.
Proof.
  revert p. induction mvs as [|mv mvs IH]; intros p; simpl; [reflexivity|].
  rewrite IH. apply assignMeta_NotionPage.
Qed.

(** The loop reads each block before it writes its index, and never writes
    an index that is still to come: it is a recursion over the blocks. *)
Lemma forEach_extractMetaFrom (l pre : list (option Block)) (st : Page * gmap Z bool) :
  blocksOf st.1 = (pre ++ l)%list ->
  forEach body (seq (length pre) (length l)) st = loopFrom l (length pre) st.
Proof.
  revert pre st. induction l as [|block l IH]; intros pre st Hc; simpl; [reflexivity|].
  rewrite (extractMetaBody_turn _ _ block).
  2:{ rewrite Hc, lookup_app_r, Nat.sub_diag by lia. reflexivity. }
  destruct (extractValue block) as [[mv|]|msg]; simpl; [| |reflexivity].
  - destruct (knownKey (Key mv)); simpl; [|reflexivity].
    replace (S (length pre)) with (length (pre ++ [None : option Block])%list)
      by (rewrite length_app; simpl; lia).
    apply IH. simpl. rewrite assignMeta_NotionPage. simpl.
    rewrite Hc, insert_app_r_alt, Nat.sub_diag by lia. simpl.
    rewrite <- app_assoc. reflexivity.
  - replace (S (length pre)) with (length (pre ++ [block])%list)
      by (rewrite length_app; simpl; lia).
    apply IH. rewrite Hc, <- app_assoc. reflexivity.
Qed.

(** The loop returns exactly when every block passes. *)
Lemma extractMetaFrom_returned (l : list (option Block)) (idx : nat)
    (st : Page * gmap Z bool) :
  returned (loopFrom l idx st) = forallb passes' l.
Proof.
  revert idx st. induction l as [|block l IH]; intros idx st; simpl; [reflexivity|].
  unfold passes at 1.
  destruct (extractValue block) as [[mv|]|msg]; simpl; [| apply IH | reflexivity].
  destruct (knownKey (Key mv)); simpl; [apply IH | reflexivity].
Qed.

Lemma metaValues_cons (block : option Block) (l : list (option Block)) :
  values (block :: l) =
  match extractValue block with
  | OK (Some mv) => mv :: values l
  | _ => values l
  end.
Proof.
  unfold metaValues. simpl.
  destruct (extractValue block) as [[mv|]|msg]; reflexivity.
Qed.

(** The state after the loop: the directives are cleared and marked, the
    meta values are assigned in block order, nothing else is touched. *)
Lemma extractMetaFrom_OK (l pre : list (option Block)) (p q : Page)
    (toRemove toRemove' : gmap Z bool) :
  blocksOf p = (pre ++ l)%list ->
  loopFrom l (length pre) (p, toRemove) = OK (q, toRemove') ->
  q = foldl assignMeta
        (withNotionPage p (withContent (NotionPage p) (pre ++ map cleared' l)%list))
        (values l)
  /\ (forall i block, l !! i = Some block ->
        marked toRemove' (length pre + i) =
        negb (keeps' block) || marked toRemove (length pre + i))
  /\ (forall i, (i < length pre)%nat \/ (length pre + length l <= i)%nat ->
        marked toRemove' i = marked toRemove i).
Proof.
  revert pre p toRemove. induction l as [|block l IH]; intros pre p toRemove Hc.
  - simpl. intros [= <- <-]. rewrite app_nil_r in Hc |- *. rewrite <- Hc. split; [|split].
    + destruct p as [[pid []] ? ? ? ? ? ?]. reflexivity.
    + intros i block Hi. discriminate.
    + reflexivity.
  - rewrite metaValues_cons. simpl. unfold cleared at 1, keeps at 1.
    destruct (extractValue block) as [[mv|]|msg] eqn:Hv; simpl; [| |discriminate].
    + destruct (knownKey (Key mv)); simpl; [|discriminate].
      replace (S (length pre)) with (length (pre ++ [None : option Block])%list)
        by (rewrite length_app; simpl; lia).
      intros Hl. apply IH in Hl.
      2:{ simpl. rewrite assignMeta_NotionPage. simpl.
          rewrite Hc, insert_app_r_alt, Nat.sub_diag by lia. simpl.
          rewrite <- app_assoc. reflexivity. }
      destruct Hl as (Hq & Hm & Ho). split; [|split].
      * rewrite Hq. f_equal.
        rewrite assignMeta_NotionPage, assignMeta_withNotionPage.
        rewrite <- app_assoc. simpl.
        destruct p as [[pid []] ? ? ? ? ? ?]. reflexivity.
      * intros [|i] b Hi; simpl in Hi.
        -- injection Hi as <-. rewrite Nat.add_0_r, Ho by (rewrite length_app; simpl; lia).
           rewrite marked_insert, decide_True by reflexivity.
           unfold keeps. rewrite Hv. reflexivity.
        -- replace (length pre + S i)%nat
             with (length (pre ++ [None : option Block])%list + i)%nat
             by (rewrite length_app; simpl; lia).
           rewrite (Hm i b Hi), marked_insert, decide_False
             by (rewrite length_app; simpl; lia).
           reflexivity.
      * intros i Hi. rewrite Ho by (rewrite length_app; simpl in *; lia).
        rewrite marked_insert, decide_False by lia. reflexivity.
    + replace (S (length pre)) with (length (pre ++ [block])%list)
        by (rewrite length_app; simpl; lia).
      intros Hl. apply IH in Hl; [|rewrite Hc, <- app_assoc; reflexivity].
      destruct Hl as (Hq & Hm & Ho). split; [|split].
      * rewrite Hq, <- app_assoc. reflexivity.
      * intros [|i] b Hi; simpl in Hi.
        -- injection Hi as <-. rewrite Nat.add_0_r, Ho by (rewrite length_app; simpl; lia).
           unfold keeps. rewrite Hv. reflexivity.
        -- replace (length pre + S i)%nat with (length (pre ++ [block])%list + i)%nat
             by (rewrite length_app; simpl; lia).
           apply (Hm i b Hi).
      * intros i Hi. apply Ho. rewrite length_app. simpl in *. lia.
Qed.

Lemma extractMetaFrom_app (l1 l2 : list (option Block)) (idx : nat)
    (st : Page * gmap Z bool) :
  loopFrom (l1 ++ l2)%list idx st =
  loopFrom l1 idx st ≫= loopFrom l2 (idx + length l1).
Proof.
  revert idx st. induction l1 as [|block l1 IH]; intros idx st; simpl.
  - rewrite Nat.add_0_r. reflexivity.
  - destruct (extractValue block) as [[mv|]|msg]; simpl; [| |reflexivity].
    + destruct (knownKey (Key mv)); simpl; [|reflexivity].
      rewrite IH, Nat.add_succ_comm. reflexivity.
    + rewrite IH, Nat.add_succ_comm. reflexivity.
Qed.

(** On blocks that hold no meta value the loop changes nothing. *)
Lemma extractMetaFrom_keeps (l : list (option Block)) (idx : nat)
    (st : Page * gmap Z bool) :
  forallb keeps' l = true -> loopFrom l idx st = OK st.
Proof.
  revert idx. induction l as [|block l IH]; intros idx; simpl; [reflexivity|].
  unfold keeps at 1.
  destruct (extractValue block) as [[mv|]|msg]; simpl; try discriminate.
  apply IH.
Qed.

(** Where the marks are those of the directives, the survivors of the
    cleared blocks are the blocks that hold no meta value. *)
Lemma survivorsFrom_cleared (toRemove : gmap Z bool) (j : nat) (l : list (option Block)) :
  (forall i block, l !! i = Some block ->
     marked toRemove (j + i) = negb (keeps' block)) ->
  survivorsFrom toRemove j (map cleared' l) = List.filter keeps' l.
Proof.
  revert j. induction l as [|block l IH]; intros j Hm; simpl; [reflexivity|].
  rewrite (IH (S j)).
  2:{ intros i b Hi. rewrite <- (Hm (S i) b Hi). f_equal. lia. }
  specialize (Hm 0%nat block eq_refl). rewrite Nat.add_0_r in Hm. rewrite Hm.
  unfold cleared. destruct (keeps' block); reflexivity.
Qed.

(** [extractMeta] is its loop over the blocks of the page, followed by the
    removal of the marked blocks. *)
Lemma extractMeta_unfold (p : Page) :
  extractMeta unicodeLower normalizeID p =
  st ← loopFrom (blocksOf p) 0 (p, ∅);
  OK (withNotionPage st.1 (removeBlocks (NotionPage st.1) st.2)).
Proof.
  unfold extractMeta.
  rewrite (forEach_extractMetaFrom (blocksOf p) [] (p, ∅)); reflexivity.
Qed.

Lemma extractMeta_returned (p : Page) :
  returned (extractMeta unicodeLower normalizeID p) = forallb passes' (blocksOf p).
Proof.
  rewrite extractMeta_unfold, <- (extractMetaFrom_returned _ 0 (p, ∅)).
  destruct (loopFrom (blocksOf p) 0 (p, ∅)); reflexivity.
Qed.

(** The page that [extractMeta] returns: the blocks that hold no meta
    value, in their order; the meta values assigned in block order; the
    same page identifier. *)
Lemma extractMeta_OK (p p' : Page) :
  extractMeta unicodeLower normalizeID p = OK p' ->
  blocksOf p' = List.filter keeps' (blocksOf p)
  /\ withNotionPage p' (NotionPage p) = foldl assignMeta p (values (blocksOf p))
  /\ PageID (NotionPage p') = PageID (NotionPage p).
Proof.
  rewrite extractMeta_unfold. intros H.
  apply bind_OK_inv in H. destruct H as ([q toRemove] & Hloop & [= <-]).
  apply (extractMetaFrom_OK _ []) in Hloop; [|reflexivity].
  simpl in Hloop. destruct Hloop as (Hq & Hm & _).
  assert (HN : NotionPage q = withContent (NotionPage p) (map cleared' (blocksOf p))).
  { rewrite Hq, foldl_assignMeta_NotionPage. reflexivity. }
  simpl. split; [|split].
  - rewrite removeBlocks_Content, HN. simpl.
    apply survivorsFrom_cleared. intros i block Hi. simpl.
    rewrite (Hm i block Hi), marked_empty, orb_false_r. reflexivity.
  - change (withNotionPage q (NotionPage p)
            = foldl assignMeta p (values (blocksOf p))).
    rewrite Hq, foldl_assignMeta_withNotionPage. f_equal.
    destruct p as [[pid []] ? ? ? ? ? ?]. reflexivity.
  - rewrite removeBlocks_PageID, HN. reflexivity.
Qed.

(** The loop keeps the identifier of the page. *)
Lemma extractMetaFrom_PageID (l : list (option Block)) (idx : nat)
    (st st' : Page * gmap Z bool) :
  loopFrom l idx st = OK st' ->
  PageID (NotionPage st'.1) = PageID (NotionPage st.1).
Proof.
  revert idx st. induction l as [|block l IH]; intros idx st; simpl.
  - intros [= <-]. reflexivity.
  - destruct (extractValue block) as [[mv|]|msg]; simpl; [| apply IH | discriminate].
    destruct (knownKey (Key mv)); [|discriminate].
    intros H. apply IH in H. rewrite H. simpl.
    rewrite assignMeta_NotionPage. reflexivity.
Qed.

Lemma knownKey_false (key : string) :
  key <> "$id" -> key <> "$soid" -> key <> "$search" -> key <> "$score" ->
  knownKey key = false.
Proof.
  intros H1 H2 H3 H4. unfold knownKey.
  apply String.eqb_neq in H1, H2, H3, H4. rewrite H1, H2, H3, H4. reflexivity.
Qed.

Lemma Search_foldl_assignMeta (mvs : list MetaValue) (p : Page) :
  Forall (fun mv => Key mv <> "$search") mvs ->
  Search (foldl assignMeta p mvs) = Search p.
Proof.
  intros H. revert p. induction H as [|mv mvs Hmv _ IH]; intros p; simpl; [reflexivity|].
  rewrite IH. unfold assignMeta. apply String.eqb_neq in Hmv. rewrite Hmv.
  destruct (String.eqb (Key mv) "$id"); [reflexivity|].
  destruct (String.eqb (Key mv) "$soid"); reflexivity.
Qed.

Lemma metaValues_app (l1 l2 : list (option Block)) :
  values (l1 ++ l2)%list = (values l1 ++ values l2)%list.
Proof.
  induction l1 as [|block l1 IH]; [reflexivity|].
  change ((block :: l1) ++ l2)%list with (block :: (l1 ++ l2))%list.
  rewrite !metaValues_cons, IH.
  destruct (extractValue block) as [[mv|]|msg]; reflexivity.
Qed.

Lemma metaValues_Forall (P : MetaValue -> Prop) (l : list (option Block)) :
  (forall block mv, block ∈ l -> extractValue block = OK (Some mv) -> P mv) ->
  Forall P (values l).
Proof.
  induction l as [|block l IH]; intros H; [constructor|].
  rewrite metaValues_cons.
  assert (Hl : Forall P (values l)).
  { apply IH. intros b mv Hb. apply H. right. exact Hb. }
  destruct (extractValue block) as [[mv|]|msg] eqn:Hv; try exact Hl.
  constructor; [|exact Hl]. apply (H block); [left|exact Hv].
Qed.

(** A string starts with [$] when its first byte is [$]. *)
Lemma HasPrefix_dollar (s : string) :
  Strings.HasPrefix s "$" = bool_decide (String.get 0 s = Some "$"%char).
Proof.
  unfold Strings.HasPrefix. destruct s as [|c s]; [reflexivity|].
  change (String.prefix "$" (String c s))
    with (if ascii_dec "$" c then String.prefix "" s else false).
  change (String.get 0 (String c s)) with (Some c).
  destruct (ascii_dec "$" c) as [<-|Hne].
  - rewrite bool_decide_eq_true_2 by reflexivity. destruct s; reflexivity.
  - symmetry. apply bool_decide_eq_false_2. congruence.
Qed.

(** The code against the specification: [extractMetaValueFromBlock] finds
    a meta value in a block exactly when the block is a directive block
    of the specification and its trimmed text holds a colon. *)
Lemma keeps_colonDirective (b : Block) :
  keeps' (Some b) = negb (colonDirective (Some b)).
Proof.
  unfold keeps, colonDirective, specDirectiveText, extractMetaValueFromBlock.
  destruct (String.eqb (Type_ b) BlockText); [|reflexivity]. simpl.
  destruct (InlineContent b) as [|inline [|? ?]]; try reflexivity.
  destruct (IsPlain inline); [|reflexivity]. simpl.
  rewrite HasPrefix_dollar, Z.leb_antisym.
  destruct (Strings.len (Strings.TrimSpace (Text inline)) <? 4); [reflexivity|].
  simpl.
  destruct (bool_decide (String.get 0 (Strings.TrimSpace (Text inline)) = Some "$"%char));
    [|reflexivity].
  simpl. unfold Strings.Contains.
  change (Strings.SplitN (Strings.TrimSpace (Text inline)) ":" 2)
    with (match Strings.Cut (Strings.TrimSpace (Text inline)) ":" with
          | Some (before, after) => [before; after]
          | None => [Strings.TrimSpace (Text inline)]
          end).
  destruct (Strings.Cut (Strings.TrimSpace (Text inline)) ":") as [[before after]|];
    reflexivity.
Qed.

(** C3, as the code has it. When [extractMeta] returns, the blocks that
    remain are the blocks of the page that are no directive block of the
    specification with a colon in its trimmed text, in their order. So
    [extractMetaValueFromBlock] finds a meta value in none of them, and a
    block that remains and satisfies the directive predicate (a)-(d) of
    the specification holds no colon. A second run returns the page as it
    is: its blocks, identifiers, [ID], [StackOverflowID] and [Search] are
    those the first run left. *)
Theorem extractMeta_idempotent (p p' : Page) :
  extractMeta unicodeLower normalizeID p = OK p' ->
  blocksOf p' = List.filter (fun block => negb (colonDirective block)) (blocksOf p)
  /\ (forall block, block ∈ blocksOf p' ->
        extractValue block = OK None
        /\ (forall text, specDirectiveText block = Some text ->
              Strings.Contains text ":" = false))
  /\ extractMeta unicodeLower normalizeID p' = OK p'.
Proof.
  intros H.
  pose proof (extractMeta_returned p) as Hr. rewrite H in Hr. simpl in Hr.
  symmetry in Hr. rewrite forallb_forall in Hr.
  apply extractMeta_OK in H. destruct H as (Hc & _ & _).
  assert (Hk : forall block, block ∈ blocksOf p' -> keeps' block = true).
  { intros block Hb. rewrite Hc in Hb.
    apply list_elem_of_In, filter_In in Hb. apply Hb. }
  split; [|split].
  - rewrite Hc. apply filter_ext_in. intros [b|] Hb.
    + apply keeps_colonDirective.
    + specialize (Hr None Hb). discriminate.
  - intros block Hb. specialize (Hk block Hb). split.
    + unfold keeps in Hk.
      destruct (extractValue block) as [[mv|]|msg]; congruence.
    + intros text Ht. destruct block as [b|]; [|discriminate].
      rewrite keeps_colonDirective in Hk. unfold colonDirective in Hk.
      rewrite Ht in Hk. destruct (Strings.Contains text ":"); [discriminate|reflexivity].
  - rewrite extractMeta_unfold, extractMetaFrom_keeps.
    + simpl. destruct p'. reflexivity.
    + apply forallb_forall. intros block Hb. apply Hk, list_elem_of_In, Hb.
Qed.

(** C2, as the code has it. A plain-text block whose single unformatted
    inline run, trimmed, has at least 4 bytes, starts with [$] and holds no
    [:] is no meta-value block: [extractMetaValueFromBlock] returns nil for
    it, and [extractMeta], run on a page whose other blocks it passes,
    returns with the block still among the blocks of the page. *)
Theorem extractMeta_no_colon_skipped (p : Page) (b : Block) (inline : InlineBlock) :
  Type_ b = BlockText ->
  InlineContent b = [inline] ->
  IsPlain inline = true ->
  4 <= Strings.len (Strings.TrimSpace (Text inline)) ->
  String.get 0 (Strings.TrimSpace (Text inline)) = Some "$"%char ->
  ~ Strings.hasByte ":" (Strings.TrimSpace (Text inline)) ->
  extractValue (Some b) = OK None
  /\ (Some b ∈ blocksOf p ->
      (forall block, block ∈ blocksOf p -> block <> Some b -> passes' block = true) ->
      exists p', extractMeta unicodeLower normalizeID p = OK p'
                 /\ Some b ∈ blocksOf p').
Proof.
  intros Ht Hi Hp Hlen Hd Hc.
  assert (Hv : extractValue (Some b) = OK None).
  { unfold extractMetaValueFromBlock. rewrite Ht, Hi, Hp. simpl.
    destruct (Z.ltb_spec (Strings.len (Strings.TrimSpace (Text inline))) 4); [lia|].
    rewrite bool_decide_eq_true_2 by exact Hd. simpl.
    unfold Strings.SplitN. simpl.
    rewrite (Cut_byte_None _ _ Hc). reflexivity. }
  split; [exact Hv|]. intros Hin Hothers.
  destruct (extractMeta unicodeLower normalizeID p) as [p'|msg] eqn:He.
  - exists p'. split; [reflexivity|].
    apply extractMeta_OK in He. destruct He as (-> & _ & _).
    apply list_elem_of_In, filter_In. split; [apply list_elem_of_In, Hin|].
    unfold keeps. rewrite Hv. reflexivity.
  - exfalso. pose proof (extractMeta_returned p) as Hr. rewrite He in Hr.
    simpl in Hr. symmetry in Hr. apply not_true_iff_false in Hr. apply Hr.
    apply forallb_forall. intros block Hb.
    destruct (passes' block) eqn:Hpass; [reflexivity|].
    rewrite <- Hpass. apply Hothers; [apply list_elem_of_In, Hb|].
    intros ->. unfold passes in Hpass. rewrite Hv in Hpass. discriminate.
Qed.

(** C5. A block with a meta value whose key is none of [$id], [$soid],
    [$search], [$score] makes [extractMeta] panic; when the loop passes the
    blocks before it, the message is
    [unknown key '<key>' in page with id <normalized page id>]. *)
Theorem extractMeta_unknown_key (p : Page) (pre post : list (option Block))
    (block : option Block) (mv : MetaValue) :
  blocksOf p = (pre ++ block :: post)%list ->
  extractValue block = OK (Some mv) ->
  Key mv <> "$id" -> Key mv <> "$soid" -> Key mv <> "$search" -> Key mv <> "$score" ->
  returned (extractMeta unicodeLower normalizeID p) = false
  /\ (forallb passes' pre = true ->
      extractMeta unicodeLower normalizeID p =
      Panic ("unknown key '" +:+ Key mv +:+ "' in page with id "
             +:+ normalizeID (PageID (NotionPage p)))).
Proof.
  intros Hc Hv H1 H2 H3 H4.
  pose proof (knownKey_false _ H1 H2 H3 H4) as Hk.
  split.
  - rewrite extractMeta_returned, Hc, forallb_app. simpl.
    unfold passes at 2. rewrite Hv, Hk. apply andb_false_iff. right. reflexivity.
  - intros Hpre. rewrite extractMeta_unfold, Hc, extractMetaFrom_app.
    destruct (loopFrom pre 0 (p, ∅)) as [[q toRemove]|msg] eqn:Hl.
    + apply extractMetaFrom_PageID in Hl. simpl in Hl |- *.
      rewrite Hv. simpl. rewrite Hk, Hl. reflexivity.
    + pose proof (extractMetaFrom_returned pre 0 (p, ∅)) as Hr.
      rewrite Hl, Hpre in Hr. discriminate.
Qed.

(** C8. A block with the meta value [$search: v] makes [extractMeta], when
    it passes the other blocks and no later block is a [$search], assign to
    [Search] the pieces of [v] between its commas, each trimmed, in the
    order they have in [v]: the pieces hold no comma and, joined with
    commas, are [v]. *)
Theorem extractMeta_search (p : Page) (pre post : list (option Block))
    (block : option Block) (mv : MetaValue) :
  blocksOf p = (pre ++ block :: post)%list ->
  extractValue block = OK (Some mv) ->
  Key mv = "$search" ->
  forallb passes' pre = true ->
  forallb passes' post = true ->
  (forall later mv', later ∈ post -> extractValue later = OK (Some mv') ->
     Key mv' <> "$search") ->
  exists p' pieces,
    extractMeta unicodeLower normalizeID p = OK p'
    /\ Search p' = map Strings.TrimSpace pieces
    /\ pieces = Strings.Split (Value mv) ","
    /\ Strings.Join pieces "," = Value mv
    /\ Forall (fun piece => ~ Strings.hasByte "," piece) pieces.
Proof.
  intros Hc Hv Hkey Hpre Hpost Hlater.
  destruct (extractMeta unicodeLower normalizeID p) as [p'|msg] eqn:He.
  - exists p', (Strings.Split (Value mv) ",").
    split; [reflexivity|]. split; [|split; [reflexivity|apply Split_byte]].
    apply extractMeta_OK in He. destruct He as (_ & Hf & _).
    change (Search p') with (Search (withNotionPage p' (NotionPage p))).
    rewrite Hf, Hc, metaValues_app, metaValues_cons, Hv, foldl_app. simpl.
    rewrite Search_foldl_assignMeta by (apply metaValues_Forall; exact Hlater).
    unfold assignMeta. rewrite Hkey. reflexivity.
  - exfalso. pose proof (extractMeta_returned p) as Hr.
    rewrite He, Hc, forallb_app in Hr. simpl in Hr.
    rewrite Hpre, Hpost in Hr. unfold passes in Hr. rewrite Hv, Hkey in Hr.
    discriminate.
Qed.

End MetaExtraction.

(** ** Sub-page extraction *)

Section SubPages.

Variable normalizeID : string -> string.
Variable pageIDToPage : gmap string PagePtr.

Local Abbreviation turn := (getSubPagesBody normalizeID pageIDToPage).
Local Abbreviation nodeOf := (subPageOf normalizeID pageIDToPage).

Local Abbreviation resolves := (resolves normalizeID pageIDToPage).

Lemma getSubPagesBody_resolves (idx : nat) (block : option Block)
    (st : list PagePtr * gmap Z bool) :
  resolves block ->
  turn idx block st =
  OK (if isPageLink block
      then ((st.1 ++ [nodeOf block])%list, <[Z.of_nat idx := true]> st.2)
      else st).
Proof.
  intros [Hnil Hmap]. destruct block as [b|]; [|congruence].
  unfold getSubPagesBody. simpl in *.
  destruct (String.eqb (Type_ b) BlockPage); simpl; [|reflexivity].
  rewrite bool_decide_eq_false_2 by (apply Hmap; reflexivity). reflexivity.
Qed.

(** The loop on blocks that all resolve: the nodes of the page links are
    appended in block order, and the page links are marked. *)
Lemma getSubPages_loop (l : list (option Block)) (idx : nat)
    (res : list PagePtr) (toRemove : gmap Z bool) :
  Forall resolves l ->
  exists toRemove',
    forRange turn idx l (res, toRemove) =
    OK ((res ++ map nodeOf (List.filter isPageLink l))%list, toRemove')
    /\ (forall i block, l !! i = Some block ->
          marked toRemove' (idx + i) = isPageLink block || marked toRemove (idx + i))
    /\ (forall i, (i < idx)%nat \/ (idx + length l <= i)%nat ->
          marked toRemove' i = marked toRemove i).
Proof.
  intros H. revert idx res toRemove.
  induction H as [|block l Hb _ IH]; intros idx res toRemove; simpl.
  - exists toRemove. rewrite app_nil_r. split; [reflexivity|].
    split; [intros i block Hi; discriminate | reflexivity].
  - rewrite (getSubPagesBody_resolves _ _ _ Hb). simpl.
    destruct (isPageLink block) eqn:Hlink; simpl.
    + destruct (IH (S idx) (res ++ [nodeOf block])%list (<[Z.of_nat idx := true]> toRemove))
        as (toRemove' & Hrun & Hm & Ho).
      exists toRemove'. rewrite Hrun, <- app_assoc. split; [reflexivity|]. split.
      * intros [|i] b Hi; simpl in Hi.
        -- injection Hi as <-. rewrite Nat.add_0_r, Ho by lia.
           rewrite marked_insert, decide_True, Hlink by reflexivity. reflexivity.
        -- rewrite <- Nat.add_succ_comm, (Hm i b Hi), marked_insert, decide_False by lia.
           reflexivity.
      * intros i Hi. rewrite Ho, marked_insert, decide_False by lia. reflexivity.
    + destruct (IH (S idx) res toRemove) as (toRemove' & Hrun & Hm & Ho).
      exists toRemove'. rewrite Hrun. split; [reflexivity|]. split.
      * intros [|i] b Hi; simpl in Hi.
        -- injection Hi as <-. rewrite Nat.add_0_r, Ho, Hlink by lia. reflexivity.
        -- rewrite <- Nat.add_succ_comm. apply (Hm i b Hi).
      * intros i Hi. apply Ho. lia.
Qed.

(** C6. In a page without nil blocks: a page-link block whose normalized
    identifier the mapping gives no node for makes [getSubPages] panic,
    with the message [no sub page for id <identifier>] when the page links
    before it are mapped; and when every page link is mapped, [getSubPages]
    returns the nodes of the page links in block order, and leaves the
    other blocks, in their order, in the page. *)
Theorem getSubPages_resolution (page : notionapi.Page) :
  Forall (fun block => block <> None) (Content (Root page)) ->
  (forall pre b post,
     Content (Root page) = (pre ++ Some b :: post)%list ->
     Type_ b = BlockPage ->
     pageOf pageIDToPage (normalizeID (notionapi.ID b)) = None ->
     (forall block, block ∈ pre -> isPageLink block = true -> nodeOf block <> None) ->
     getSubPages normalizeID page pageIDToPage =
     Panic ("no sub page for id " +:+ normalizeID (notionapi.ID b)))
  /\ ((forall block, block ∈ Content (Root page) -> isPageLink block = true ->
         nodeOf block <> None) ->
      exists page',
        getSubPages normalizeID page pageIDToPage =
        OK (map nodeOf (List.filter isPageLink (Content (Root page))), page')
        /\ Content (Root page') =
           List.filter (fun block => negb (isPageLink block)) (Content (Root page))).
Proof.
  intros Hnil. split.
  - intros pre b post Hc Ht Hnone Hpre. unfold getSubPages.
    rewrite Hc, forRange_app.
    destruct (getSubPages_loop pre 0 [] ∅) as (toRemove & Hrun & _).
    { apply Forall_forall. intros block Hb. split.
      - rewrite Forall_forall in Hnil. apply Hnil. rewrite Hc.
        apply elem_of_app. left. exact Hb.
      - apply Hpre. exact Hb. }
    rewrite Hrun. simpl. unfold getSubPagesBody at 1. rewrite Ht. simpl.
    rewrite Hnone. reflexivity.
  - intros Hmap. unfold getSubPages.
    destruct (getSubPages_loop (Content (Root page)) 0 [] ∅) as (toRemove & Hrun & Hm & _).
    { apply Forall_forall. intros block Hb. split.
      - rewrite Forall_forall in Hnil. apply Hnil. exact Hb.
      - apply Hmap. exact Hb. }
    rewrite Hrun. simpl. eexists. split; [reflexivity|].
    rewrite removeBlocks_Content. apply survivorsFrom_filter.
    intros i block Hi. rewrite (Hm i block Hi), marked_empty, orb_false_r, negb_involutive.
    reflexivity.
Qed.

End SubPages.

(** ** Embed resolution *)

(** The resolver returns the empty path for a string that [url.Parse]
    refuses. *)
Lemma gitoembed_unparsed (uri : string) :
  Url.Parse uri = None -> gitoembedToRelativePath uri = OK "".
Proof. intros H. unfold gitoembedToRelativePath. rewrite H. reflexivity. Qed.

(** The resolver returns the empty path when the host is not a viewer
    host. *)
Lemma gitoembed_other_host (uri : string) (parsed : Url.URL) :
  Url.Parse uri = Some parsed ->
  Url.Host parsed <> "www.onlinetool.io" ->
  Url.Host parsed <> "onlinetool.io" ->
  gitoembedToRelativePath uri = OK "".
Proof.
  intros H H1 H2. unfold gitoembedToRelativePath. rewrite H.
  apply String.eqb_neq in H1, H2. rewrite H1, H2. reflexivity.
Qed.

(** The resolver returns the empty path when the path is not the widget
    path. *)
Lemma gitoembed_other_path (uri : string) (parsed : Url.URL) :
  Url.Parse uri = Some parsed ->
  Url.Path parsed <> "/gitoembed/widget" ->
  gitoembedToRelativePath uri = OK "".
Proof.
  intros H H1. unfold gitoembedToRelativePath. rewrite H.
  apply String.eqb_neq in H1. rewrite H1.
  destruct (negb _); reflexivity.
Qed.

Lemma TrimPrefix_without (s prefix : string) :
  Strings.HasPrefix s prefix = false -> Strings.TrimPrefix s prefix = s.
Proof. intros H. unfold Strings.TrimPrefix. rewrite H. reflexivity. Qed.

(** The resolver returns the empty path when the inner URL parses and its
    host is not [github.com] or its path is not under
    [/essentialbooks/books/]. *)
Lemma gitoembed_other_inner (uri : string) (parsed inner : Url.URL) :
  Url.Parse uri = Some parsed ->
  Url.Parse (Url.Get (Url.Query parsed) "url") = Some inner ->
  Url.Host inner <> "github.com"
  \/ Strings.HasPrefix (Url.Path inner) "/essentialbooks/books/" = false ->
  gitoembedToRelativePath uri = OK "".
Proof.
  intros H Hin Hno. unfold gitoembedToRelativePath. rewrite H, Hin.
  destruct (negb (_ || _)); [reflexivity|].
  destruct (negb (String.eqb (Url.Path parsed) _)); [reflexivity|].
  destruct Hno as [Hh|Hp].
  - apply String.eqb_neq in Hh. rewrite Hh. reflexivity.
  - rewrite (TrimPrefix_without _ _ Hp), String.eqb_refl.
    destruct (negb _); reflexivity.
Qed.

(** The resolver panics exactly when the outer URL is a widget URL of a
    viewer host and [url.Parse] refuses the inner URL. *)
Lemma gitoembed_panics (uri : string) :
  returned (gitoembedToRelativePath uri) = false <->
  exists parsed,
    Url.Parse uri = Some parsed
    /\ (Url.Host parsed = "www.onlinetool.io" \/ Url.Host parsed = "onlinetool.io")
    /\ Url.Path parsed = "/gitoembed/widget"
    /\ Url.Parse (Url.Get (Url.Query parsed) "url") = None.
Proof.
  unfold gitoembedToRelativePath.
  destruct (Url.Parse uri) as [parsed|]; simpl.
  2:{ split; [discriminate | intros (? & ? & _); discriminate]. }
  destruct (String.eqb_spec (Url.Host parsed) "www.onlinetool.io") as [H1|H1];
    destruct (String.eqb_spec (Url.Host parsed) "onlinetool.io") as [H2|H2];
    destruct (String.eqb_spec (Url.Path parsed) "/gitoembed/widget") as [H3|H3];
    simpl;
    try (split; [discriminate | intros (? & [= <-] & [?|?] & ? & _); congruence]).
  all: destruct (Url.Parse (Url.Get (Url.Query parsed) "url")) as [inner|] eqn:Hin; simpl.
  all: try (split; [intros _; exists parsed; auto | reflexivity]).
  all: split; [|intros (? & [= <-] & _ & _ & ?); congruence].
  all: destruct (negb (String.eqb (Url.Host inner) "github.com")); [discriminate|].
  all: destruct (String.eqb _ (Url.Path inner)); discriminate.
Qed.

Section EmbedExtraction.

Variable Getwd : string * option string.
Variable readFilteredSourceFile : string -> list string * option string.
Variable filepathBase : string -> string.
Variable filepathJoin : string -> string -> string.

Local Abbreviation embedTurn :=
  (extractEmbeddedSourceFilesBody readFilteredSourceFile filepathBase filepathJoin).
Local Abbreviation entryOf :=
  (sourceFileOf readFilteredSourceFile filepathBase filepathJoin).

(** One turn of the loop on an embed block: the entry of the block is
    appended, unless the resolver panics. *)
Lemma extractEmbeddedSourceFilesBody_embed (wd : string) (b : Block) (p : Page) :
  Type_ b = BlockEmbed ->
  embedTurn wd (Some b) p =
  f ← entryOf wd (DisplaySource (Format b));
  OK (withSourceFiles p (SourceFiles p ++ [f])%list).
Proof.
  intros Ht. unfold extractEmbeddedSourceFilesBody, sourceFileOf. rewrite Ht. simpl.
  destruct (gitoembedToRelativePath (DisplaySource (Format b))) as [r|msg]; simpl;
    [|reflexivity].
  destruct (String.eqb r ""); [reflexivity|].
  unfold setSourceFile. simpl.
  rewrite !insert_app_r_alt, Nat.sub_diag by lia. simpl.
  destruct (readFilteredSourceFile (filepathJoin wd r)).2; reflexivity.
Qed.

(** The entry of a display source that resolves to the empty path: no
    file name, no path, no lines, [FileExists] not set. *)
Lemma sourceFileOf_unresolved (wd uri : string) :
  gitoembedToRelativePath uri = OK "" ->
  entryOf wd uri = OK (mkEmbeddedSourceFile uri "" "" [] false).
Proof. intros H. unfold sourceFileOf. rewrite H. reflexivity. Qed.

(** When the working directory is known, no block is nil and the resolver
    returns on the display source of every embed block, the extraction
    returns, and has appended the entries of the embed blocks, one for
    each, in block order. *)
Lemma extractEmbeddedSourceFiles_entries (p : Page) :
  Getwd.2 = None ->
  Forall (fun block => block <> None) (Content (Root (NotionPage p))) ->
  (forall block, block ∈ Content (Root (NotionPage p)) -> isEmbed block = true ->
     returned (gitoembedToRelativePath (displaySourceOf block)) = true) ->
  exists p' files,
    extractEmbeddedSourceFiles Getwd readFilteredSourceFile filepathBase filepathJoin p
    = OK p'
    /\ SourceFiles p' = (SourceFiles p ++ files)%list
    /\ Forall2 (fun block f => entryOf Getwd.1 (displaySourceOf block) = OK f)
         (List.filter isEmbed (Content (Root (NotionPage p)))) files
    /\ map EmbedURL files
       = map displaySourceOf (List.filter isEmbed (Content (Root (NotionPage p)))).
Proof.
  intros Hwd Hnil Hres. unfold extractEmbeddedSourceFiles. rewrite Hwd. simpl.
  generalize dependent p.
  intros p. generalize (Content (Root (NotionPage p))) as l. intros l. revert p.
  induction l as [|block l IH]; intros p Hnil Hres.
  - exists p, []. simpl. rewrite app_nil_r. repeat split; constructor.
  - apply Forall_cons in Hnil. destruct Hnil as [Hb Hnil].
    destruct block as [b|]; [|congruence].
    change (forEach (embedTurn Getwd.1) (Some b :: l) p)
      with (embedTurn Getwd.1 (Some b) p ≫= forEach (embedTurn Getwd.1) l).
    change (List.filter isEmbed (Some b :: l))
      with (if String.eqb (Type_ b) BlockEmbed
            then Some b :: List.filter isEmbed l else List.filter isEmbed l).
    destruct (String.eqb_spec (Type_ b) BlockEmbed) as [Ht|Ht].
    + rewrite (extractEmbeddedSourceFilesBody_embed _ _ _ Ht).
      assert (Hr : returned (gitoembedToRelativePath (DisplaySource (Format b))) = true).
      { apply (Hres (Some b)); [left|]. simpl. rewrite Ht. reflexivity. }
      destruct (entryOf Getwd.1 (DisplaySource (Format b))) as [f|msg] eqn:Hf.
      2:{ unfold sourceFileOf in Hf.
          destruct (gitoembedToRelativePath (DisplaySource (Format b))); simpl in *;
            [|discriminate].
          destruct (String.eqb a ""); discriminate. }
      simpl.
      destruct (IH (withSourceFiles p (SourceFiles p ++ [f])%list) Hnil)
        as (p' & files & Hrun & Hsf & Hall & Hurls).
      { intros block Hin. apply Hres. right. exact Hin. }
      exists p', (f :: files). rewrite Hrun. split; [reflexivity|].
      split; [rewrite Hsf; simpl; rewrite <- app_assoc; reflexivity|].
      split; [constructor; assumption|].
      simpl. rewrite Hurls. f_equal.
      unfold sourceFileOf in Hf.
      destruct (gitoembedToRelativePath (DisplaySource (Format b))); simpl in Hf;
        [|discriminate].
      destruct (String.eqb a ""); injection Hf as <-; reflexivity.
    + unfold extractEmbeddedSourceFilesBody.
      apply String.eqb_neq in Ht. rewrite Ht. simpl.
      apply IH; [exact Hnil|]. intros block Hin. apply Hres. right. exact Hin.
Qed.

End EmbedExtraction.

(** C7. The viewer-wrapper URL of [booleans.go] resolves to the path of the
    file relative to the repository. *)
Theorem gitoembed_booleans :
  gitoembedToRelativePath
    "https://onlinetool.io/gitoembed/widget?url=https%3A%2F%2Fgithub.com%2Fessentialbooks%2Fbooks%2Fblob%2Fmaster%2Fbooks%2Fgo%2F0020-basic-types%2Fbooleans.go"
  = OK "books/go/0020-basic-types/booleans.go".
Proof. vm_compute. reflexivity. Qed.

(** C4, at the input where the code departs from it. The URL has a viewer
    host and the widget path; its inner [url] is [:], which is no
    [github.com] URL. [url.Parse] refuses it, the error is not looked at,
    and the resolver reads the host of a nil URL: it panics instead of
    returning the empty path. *)
Theorem gitoembed_inner_error_panics :
  Url.Parse colonURL =
    Some (Url.mkURL "https" "" "onlinetool.io" "/gitoembed/widget" "url=:")
  /\ Url.Parse ":" = None
  /\ gitoembedToRelativePath colonURL = Panic nilDereference.
Proof. vm_compute. repeat split. Qed.

(** ** Source-file lookup *)

(** C10. [findSourceFileForEmbedURL] decides on the first entry whose
    [EmbedURL] is the given one: the entries [before] it have another URL;
    it returns that entry when its [FileExists] is set and nil when it is
    not, whatever comes after it; and it returns nil when the entries
    [before] are all there is. *)
Theorem findSourceFileForEmbedURL_first (page : Page) (uri : string)
    (before : list EmbeddedSourceFile) :
  (forall g, g ∈ before -> EmbedURL g <> uri) ->
  (forall f after,
     SourceFiles page = (before ++ f :: after)%list ->
     EmbedURL f = uri ->
     findSourceFileForEmbedURL page uri = if FileExists f then Some f else None)
  /\ (SourceFiles page = before -> findSourceFileForEmbedURL page uri = None).
Proof.
  intros Hbefore. unfold findSourceFileForEmbedURL.
  assert (Hskip : forall rest,
            findSourceFile (before ++ rest)%list uri = findSourceFile rest uri).
  { intros rest. induction before as [|g before IH]; [reflexivity|]. simpl.
    assert (Hg : EmbedURL g <> uri) by (apply Hbefore; left).
    apply String.eqb_neq in Hg. rewrite Hg. apply IH.
    intros g' Hin. apply Hbefore. right. exact Hin. }
  split.
  - intros f after -> Hf. rewrite Hskip. simpl.
    apply String.eqb_eq in Hf. rewrite Hf. reflexivity.
  - intros ->. rewrite <- (app_nil_r before), Hskip. reflexivity.
Qed.

(** ** Runs on the sample pages *)

(** C1, at the input where the code departs from it. Of two blocks with
    the identifiers [i1] and [i2] the first is removed: the block list is
    cut to the survivor, the identifier list is compacted but not cut. It
    keeps its two entries, and the entry behind the survivors is a stale
    copy. *)
Theorem removeBlocks_identifiers_not_cut :
  Content (Root (removeBlocks twoBlocksPage {[ 0 := true ]})) = [textBlock "second"]
  /\ ContentIDs (Root (removeBlocks twoBlocksPage {[ 0 := true ]})) = ["i2"; "i2"].
Proof. vm_compute. split; reflexivity. Qed.

(** C9, at the input where the code departs from it. The page has two
    embed blocks; the resolver panics on the display source of the first,
    whose inner URL [url.Parse] refuses, so the extraction stops there:
    the second embed block gets no entry, and no page is returned. *)
Theorem extractEmbeddedSourceFiles_stops
    (readFilteredSourceFile : string -> list string * option string)
    (filepathBase : string -> string) (filepathJoin : string -> string -> string) :
  List.filter isEmbed (Content (Root (NotionPage embedsPage)))
  = [embedBlock colonURL; embedBlock booleansURL]
  /\ extractEmbeddedSourceFiles sampleGetwd readFilteredSourceFile filepathBase
       filepathJoin embedsPage
     = Panic nilDereference.
Proof. split; vm_compute; reflexivity. Qed.

(** C2, as stated, fails on the block [$abc]: a plain text block of one
    unformatted run whose trimmed text has 4 bytes, starts with [$] and
    holds no [:]. [extractMeta] does not abort: it returns the page
    unchanged, the block still in it. *)
Lemma extractMeta_no_colon_returns :
  let text := Strings.TrimSpace "$abc" in
  (4 <=? Strings.len text) = true
  /\ String.get 0 text = Some "$"%char
  /\ Strings.Contains text ":" = false
  /\ extractMeta sameCase dashless noColonPage = OK noColonPage.
Proof. vm_compute. repeat split. Qed.

(** The block [$abc] in a page of its own. *)
Lemma extractMeta_no_colon_skipped_witness :
  extractMetaValueFromBlock sameCase (textBlock "$abc") = OK None
  /\ exists p', extractMeta sameCase dashless noColonPage = OK p'
                /\ textBlock "$abc" ∈ Content (Root (NotionPage p')).
Proof.
  destruct (extractMeta_no_colon_skipped sameCase dashless noColonPage
              (mkBlock "t" BlockText "" [mkInlineBlock "$abc" true] (mkFormatEmbed "") [] [])
              (mkInlineBlock "$abc" true)) as [Hv Hrun].
  - reflexivity.
  - reflexivity.
  - reflexivity.
  - vm_compute. discriminate.
  - reflexivity.
  - apply Cut_byte_None_inv. reflexivity.
  - split; [exact Hv|]. apply Hrun.
    + left.
    + intros block Hin Hne. apply list_elem_of_singleton in Hin. contradiction.
Defined.

(** C3, as stated, fails on [metaPage]: [extractMeta] returns, and of the
    two blocks that remain the block [$abc] satisfies the directive
    predicate (a)-(d) of the specification: a plain-text block of one
    unformatted run whose trimmed text has 4 bytes and starts with [$]. *)
Lemma extractMeta_leaves_directive :
  exists p',
    extractMeta sameCase dashless metaPage = OK p'
    /\ Content (Root (NotionPage p')) = [textBlock "hello"; textBlock "$abc"]
    /\ specDirective (textBlock "$abc") = true.
Proof. eexists. vm_compute. repeat split. Qed.

(** A second run on what the first run made of [metaPage]. *)
Lemma extractMeta_idempotent_witness :
  Content (Root (NotionPage metaPageExtracted))
  = List.filter (fun block => negb (colonDirective block))
      (Content (Root (NotionPage metaPage)))
  /\ (forall block, block ∈ Content (Root (NotionPage metaPageExtracted)) ->
        extractMetaValueFromBlock sameCase block = OK None
        /\ (forall text, specDirectiveText block = Some text ->
              Strings.Contains text ":" = false))
  /\ extractMeta sameCase dashless metaPageExtracted = OK metaPageExtracted.
Proof.
  apply (extractMeta_idempotent sameCase dashless metaPage metaPageExtracted).
  vm_compute. reflexivity.
Defined.

(** The directive [$bogus: x] behind a line of text. *)
Lemma extractMeta_unknown_key_witness :
  returned (extractMeta sameCase dashless bogusPage) = false
  /\ (forallb (passes sameCase) [textBlock "intro"] = true ->
      extractMeta sameCase dashless bogusPage
      = Panic "unknown key '$bogus' in page with id 0fa8d386").
Proof.
  apply (extractMeta_unknown_key sameCase dashless bogusPage
           [textBlock "intro"] [] (textBlock "$bogus: x") (mkMetaValue "$bogus" "x"));
    [reflexivity | reflexivity | discriminate ..].
Defined.

(** The directive [$search: a, b , c]. *)
Lemma extractMeta_search_witness :
  exists p' pieces,
    extractMeta sameCase dashless searchPage = OK p'
    /\ Search p' = map Strings.TrimSpace pieces
    /\ pieces = ["a"; " b "; " c"]
    /\ Strings.Join pieces "," = "a, b , c"
    /\ Forall (fun piece => ~ Strings.hasByte "," piece) pieces.
Proof.
  apply (extractMeta_search sameCase dashless searchPage [] []
           (textBlock "$search: a, b , c") (mkMetaValue "$search" "a, b , c"));
    try reflexivity.
  intros later mv' Hin. inversion Hin.
Defined.

(** Two page links between text blocks, both mapped. *)
Lemma getSubPages_resolution_witness :
  exists page',
    getSubPages dashless linksPage sampleMapping
    = OK ([Some 1%positive; Some 2%positive], page')
    /\ Content (Root page') = [textBlock "hello"; textBlock "bye"].
Proof.
  apply (getSubPages_resolution dashless sampleMapping linksPage).
  - repeat constructor; discriminate.
  - intros block Hin Hlink.
    repeat (apply elem_of_cons in Hin; destruct Hin as [->|Hin]);
      [discriminate Hlink | vm_compute; discriminate | discriminate Hlink
      | vm_compute; discriminate | inversion Hin].
Defined.

(** Two entries with the URL [u2]: the first, whose file does not exist,
    decides, and the later one, whose file exists, is not looked at. *)
Lemma findSourceFileForEmbedURL_first_witness :
  findSourceFileForEmbedURL filesPage "u2" = None.
Proof.
  apply (proj1 (findSourceFileForEmbedURL_first filesPage "u2"
                  [mkEmbeddedSourceFile "u1" "" "" [] false]
                  ltac:(intros g Hin; apply list_elem_of_singleton in Hin;
                        subst g; discriminate))
           (mkEmbeddedSourceFile "u2" "" "" [] false)
           [mkEmbeddedSourceFile "u2" "b.go" "/home/books/b.go" ["package main"] true]);
    reflexivity.
Defined.

(** What the code makes of the sample pages. *)

Example extractMeta_metaPage :
  ID metaPageExtracted = "59"
  /\ Search metaPageExtracted = ["a"; "b"; "c"]
  /\ Content (Root (NotionPage metaPageExtracted)) = [textBlock "hello"; textBlock "$abc"]
  /\ ContentIDs (Root (NotionPage metaPageExtracted)) = ["i2"; "i4"; "i3"; "i4"].
Proof. vm_compute. repeat split. Qed.

Example getSubPages_unmapped :
  getSubPages dashless linksPage {[ "aa01" := Some 1%positive ]}
  = Panic "no sub page for id aa02".
Proof. vm_compute. reflexivity. Qed.

Example extractEmbeddedSourceFiles_booleans :
  extractEmbeddedSourceFiles sampleGetwd sampleReader sampleBase sampleJoin
    (newPage (samplePage ["i1"; "i2"]
                [embedBlock "https://example.com/x"; embedBlock booleansURL]))
  = OK (withSourceFiles
          (newPage (samplePage ["i1"; "i2"]
                      [embedBlock "https://example.com/x"; embedBlock booleansURL]))
          [mkEmbeddedSourceFile "https://example.com/x" "" "" [] false;
           mkEmbeddedSourceFile booleansURL "booleans.go"
             "/home/books/books/go/0020-basic-types/booleans.go" ["package main"] true]).
Proof. vm_compute. reflexivity. Qed.

(** * Further properties of the extraction *)

(** ** Page links and the heap *)

Lemma links_delete (h : Heap) (l : positive) (page : notionapi.Page) :
  h !! l = Some page -> links h = (linkCount page + links (delete l h))%nat.
Proof.
  intros Hl. unfold links.
  apply (map_fold_delete_L (fun _ page n => (linkCount page + n)%nat)); [|exact Hl].
  intros. lia.
Qed.

Lemma links_insert_fresh (h : Heap) (l : positive) (page : notionapi.Page) :
  h !! l = None -> links (<[l := page]> h) = (linkCount page + links h)%nat.
Proof.
  intros Hl. unfold links.
  apply (map_fold_insert_L (fun _ page n => (linkCount page + n)%nat)); [|exact Hl].
  intros. lia.
Qed.

(** Writing a page of the heap changes the number of links by the
    difference of the two pages. *)
Lemma links_insert (h : Heap) (l : positive) (page page' : notionapi.Page) :
  h !! l = Some page ->
  (links (<[l := page']> h) + linkCount page = links h + linkCount page')%nat.
Proof.
  intros Hl. rewrite (links_delete h l page Hl), <- (insert_delete_eq h).
  rewrite links_insert_fresh by apply lookup_delete_eq. lia.
Qed.

Lemma run_Done_inv {A} (r : Result A) (a : A) : run r = Done a -> r = OK a.
Proof. destruct r; simpl; congruence. Qed.

Lemma Run_bind_Done_inv {A B} (r : Run A) (k : A -> Run B) (b : B) :
  r ≫= k = Done b -> exists a, r = Done a /\ k a = Done b.
Proof. destruct r as [a|msg|]; simpl; [eauto | discriminate | discriminate]. Qed.

Section Steps.

Variable unicodeLower : string -> string.
Variable normalizeID : string -> string.
Variable Getwd : string * option string.
Variable readFilteredSourceFile : string -> list string * option string.
Variable filepathBase : string -> string.
Variable filepathJoin : string -> string -> string.
Variable pageIDToPage : gmap string PagePtr.

Local Abbreviation keepsB := (keeps unicodeLower).
Local Abbreviation meta := (extractMeta unicodeLower normalizeID).
Local Abbreviation embeds :=
  (extractEmbeddedSourceFiles Getwd readFilteredSourceFile filepathBase filepathJoin).
Local Abbreviation subPages page := (getSubPages normalizeID page pageIDToPage).
Local Abbreviation nodeOf := (subPageOf normalizeID pageIDToPage).
Local Abbreviation resolvesB := (resolves normalizeID pageIDToPage).

(** A page link holds no meta value: [extractMeta] leaves it in the
    page. *)
Lemma keeps_pageLink (block : option Block) :
  isPageLink block = true -> keepsB block = true.
Proof.
  destruct block as [b|]; simpl; [|discriminate].
  intros Hl. apply String.eqb_eq in Hl.
  unfold keeps, extractMetaValueFromBlock. rewrite Hl. reflexivity.
Qed.

Lemma filter_pageLink_keeps (l : list (option Block)) :
  List.filter isPageLink (List.filter keepsB l) = List.filter isPageLink l.
Proof.
  induction l as [|block l IH]; simpl; [reflexivity|].
  destruct (isPageLink block) eqn:Hl.
  - rewrite (keeps_pageLink _ Hl). simpl. rewrite Hl, IH. reflexivity.
  - destruct (keepsB block); simpl; [rewrite Hl|]; exact IH.
Qed.

Lemma extractMeta_linkCount (p p' : Page) :
  meta p = OK p' -> linkCount (NotionPage p') = linkCount (NotionPage p).
Proof.
  intros H. apply extractMeta_OK in H. destruct H as (Hc & _ & _).
  unfold linkCount. rewrite Hc, filter_pageLink_keeps. reflexivity.
Qed.

(** One turn of the loop of [extractEmbeddedSourceFiles] that returns
    leaves everything but [SourceFiles] as it is, and appends to
    [SourceFiles] at most one entry. *)
Lemma extractEmbeddedSourceFilesBody_frame (wd : string) (block : option Block)
    (p p' : Page) :
  extractEmbeddedSourceFilesBody readFilteredSourceFile filepathBase filepathJoin
    wd block p = OK p' ->
  exists files, p' = withSourceFiles p (SourceFiles p ++ files)%list.
Proof.
  destruct block as [b|]; [|discriminate].
  destruct (String.eqb_spec (Type_ b) BlockEmbed) as [Ht|Ht].
  - rewrite (extractEmbeddedSourceFilesBody_embed _ _ _ _ _ _ Ht).
    intros H. apply bind_OK_inv in H. destruct H as (f & _ & [= <-]).
    exists [f]. reflexivity.
  - unfold extractEmbeddedSourceFilesBody.
    apply String.eqb_neq in Ht. rewrite Ht. simpl. intros [= <-].
    exists []. rewrite app_nil_r. destruct p. reflexivity.
Qed.

Lemma extractEmbeddedSourceFiles_frame (p p' : Page) :
  embeds p = OK p' ->
  exists files, p' = withSourceFiles p (SourceFiles p ++ files)%list.
Proof.
  unfold extractEmbeddedSourceFiles. intros H.
  apply bind_OK_inv in H. destruct H as (_ & _ & H).
  revert H. generalize (Content (Root (NotionPage p))) as l. intros l. revert p.
  induction l as [|block l IH]; intros p H; simpl in H.
  - injection H as <-. exists []. rewrite app_nil_r. destruct p. reflexivity.
  - apply bind_OK_inv in H. destruct H as (q & Hq & H).
    apply extractEmbeddedSourceFilesBody_frame in Hq. destruct Hq as (f1 & ->).
    apply IH in H. destruct H as (f2 & ->). simpl.
    exists (f1 ++ f2)%list. rewrite app_assoc. reflexivity.
Qed.

(** The loop of [getSubPages] returns only when every block resolves. *)
Lemma getSubPages_loop_resolves (l : list (option Block)) (idx : nat)
    (st st' : list PagePtr * gmap Z bool) :
  forRange (getSubPagesBody normalizeID pageIDToPage) idx l st = OK st' ->
  Forall resolvesB l.
Proof.
  revert idx st. induction l as [|block l IH]; intros idx st H; [constructor|].
  simpl in H. apply bind_OK_inv in H. destruct H as (st1 & H1 & H).
  constructor; [|exact (IH _ _ H)].
  destruct block as [b|]; [|discriminate]. split; [discriminate|].
  simpl. intros Hl. unfold getSubPagesBody in H1. rewrite Hl in H1. simpl in H1.
  destruct (bool_decide _) eqn:Hd in H1; [discriminate|].
  apply bool_decide_eq_false in Hd. exact Hd.
Qed.

(** What [getSubPages] returns: a node for each page link, none of them
    nil, in block order, and the page without its page links. *)
Lemma getSubPages_OK (page page' : notionapi.Page) (res : list PagePtr) :
  subPages page = OK (res, page') ->
  Forall resolvesB (Content (Root page))
  /\ res = map nodeOf (List.filter isPageLink (Content (Root page)))
  /\ Forall (fun node => node <> None) res
  /\ Content (Root page')
     = List.filter (fun block => negb (isPageLink block)) (Content (Root page))
  /\ PageID page' = PageID page.
Proof.
  unfold getSubPages. intros H.
  apply bind_OK_inv in H. destruct H as ([res0 toRemove] & Hloop & [= <- <-]).
  pose proof (getSubPages_loop_resolves _ _ _ _ Hloop) as Hres.
  destruct (getSubPages_loop normalizeID pageIDToPage _ 0 [] ∅ Hres)
    as (toRemove' & Hrun & Hm & _).
  rewrite Hrun in Hloop. injection Hloop as <- <-. simpl.
  split; [exact Hres|]. split; [reflexivity|]. split; [|split].
  - apply Forall_forall. intros node Hin.
    apply list_elem_of_fmap in Hin. destruct Hin as (block & -> & Hin).
    apply list_elem_of_In, filter_In in Hin. destruct Hin as [Hin Hl].
    rewrite Forall_forall in Hres. apply (Hres block); [apply list_elem_of_In, Hin|exact Hl].
  - rewrite removeBlocks_Content. apply survivorsFrom_filter.
    intros i block Hi. rewrite (Hm i block Hi), marked_empty, orb_false_r, negb_involutive.
    reflexivity.
  - apply removeBlocks_PageID.
Qed.

End Steps.

(** ** Embed extraction, as a whole *)

Section Embeds.

Variable Getwd : string * option string.
Variable readFilteredSourceFile : string -> list string * option string.
Variable filepathBase : string -> string.
Variable filepathJoin : string -> string -> string.

Local Abbreviation embedTurn :=
  (extractEmbeddedSourceFilesBody readFilteredSourceFile filepathBase filepathJoin).
Local Abbreviation entryOf :=
  (sourceFileOf readFilteredSourceFile filepathBase filepathJoin).
Local Abbreviation entries :=
  (embedEntries readFilteredSourceFile filepathBase filepathJoin).
Local Abbreviation embeds :=
  (extractEmbeddedSourceFiles Getwd readFilteredSourceFile filepathBase filepathJoin).

Lemma withSourceFiles_same (p : Page) :
  withSourceFiles p (SourceFiles p ++ [])%list = p.
Proof. rewrite app_nil_r. destruct p. reflexivity. Qed.

(** The loop appends the entries of the blocks and touches nothing
    else. *)
Lemma forEach_embedEntries (wd : string) (l : list (option Block)) (p : Page) :
  forEach (embedTurn wd) l p =
  files ← entries wd l; OK (withSourceFiles p (SourceFiles p ++ files)%list).
Proof.
  revert p. induction l as [|block l IH]; intros p.
  - simpl. rewrite withSourceFiles_same. reflexivity.
  - destruct block as [b|]; [|reflexivity].
    change (forEach (embedTurn wd) (Some b :: l) p)
      with (embedTurn wd (Some b) p ≫= forEach (embedTurn wd) l).
    simpl entries.
    destruct (String.eqb_spec (Type_ b) BlockEmbed) as [Ht|Ht].
    + rewrite (extractEmbeddedSourceFilesBody_embed _ _ _ _ _ _ Ht).
      destruct (entryOf wd (DisplaySource (Format b))) as [f|msg]; simpl; [|reflexivity].
      rewrite IH.
      destruct (entries wd l) as [files|msg]; simpl; [|reflexivity].
      rewrite <- app_assoc. reflexivity.
    + unfold extractEmbeddedSourceFilesBody.
      apply String.eqb_neq in Ht. rewrite Ht. simpl. apply IH.
Qed.

Lemma extractEmbeddedSourceFiles_unfold (p : Page) :
  embeds p =
  _ ← panicIfErr Getwd.2;
  files ← entries Getwd.1 (Content (Root (NotionPage p)));
  OK (withSourceFiles p (SourceFiles p ++ files)%list).
Proof.
  unfold extractEmbeddedSourceFiles. rewrite forEach_embedEntries. reflexivity.
Qed.

(** Blocks that are there and are no embed blocks do not count. *)
Lemma embedEntries_filter (wd : string) (f : option Block -> bool)
    (l : list (option Block)) (files : list EmbeddedSourceFile) :
  (forall block, isEmbed block = true -> f block = true) ->
  entries wd l = OK files ->
  entries wd (List.filter f l) = OK files.
Proof.
  intros Hf. revert files. induction l as [|block l IH]; intros files H; [exact H|].
  destruct block as [b|]; [|discriminate]. simpl in H |- *.
  destruct (String.eqb (Type_ b) BlockEmbed) eqn:Ht.
  - rewrite (Hf (Some b)) by exact Ht. simpl. rewrite Ht.
    destruct (entryOf wd (DisplaySource (Format b))) as [e|msg]; [|discriminate].
    simpl in H |- *.
    destruct (entries wd l) as [fs|msg]; [|discriminate].
    rewrite (IH fs eq_refl). exact H.
  - destruct (f (Some b)); [simpl; rewrite Ht|]; apply IH; exact H.
Qed.

(** Every entry carries the display source of its block. *)
Lemma embedEntries_urls (wd : string) (l : list (option Block))
    (files : list EmbeddedSourceFile) :
  entries wd l = OK files ->
  map EmbedURL files = map displaySourceOf (List.filter isEmbed l)
  /\ Forall2 (fun block f => entryOf wd (displaySourceOf block) = OK f)
       (List.filter isEmbed l) files.
Proof.
  revert files. induction l as [|block l IH]; intros files H.
  - injection H as <-. split; constructor.
  - destruct block as [b|]; [|discriminate]. simpl in H |- *.
    destruct (String.eqb (Type_ b) BlockEmbed) eqn:Ht; [|apply IH; exact H].
    destruct (entryOf wd (DisplaySource (Format b))) as [e|msg] eqn:He; [|discriminate].
    simpl in H.
    destruct (entries wd l) as [fs|msg]; [|discriminate].
    injection H as <-. destruct (IH fs eq_refl) as [Hu Hall].
    split; [|constructor; assumption].
    simpl. rewrite Hu. f_equal.
    unfold sourceFileOf in He.
    destruct (gitoembedToRelativePath (DisplaySource (Format b))); [|discriminate].
    simpl in He. destruct (String.eqb a ""); injection He as <-; reflexivity.
Qed.

End Embeds.

(** ** Block removal, where nothing is marked *)

(** [removeBlocks] writes the two lists of the root and nothing else. *)
Lemma removeBlocks_Root (page : notionapi.Page) (toRemove : gmap Z bool) :
  notionapi.Title (Root (removeBlocks page toRemove)) = notionapi.Title (Root page)
  /\ Type_ (Root (removeBlocks page toRemove)) = Type_ (Root page)
  /\ notionapi.ID (Root (removeBlocks page toRemove)) = notionapi.ID (Root page).
Proof.
  unfold removeBlocks. destruct (decide (size toRemove = 0%nat)); auto.
Qed.

Lemma survivorsFrom_unmarked_within {A} (toRemove : gmap Z bool) (j : nat) (l : list A) :
  (forall i, (i < length l)%nat -> marked toRemove (j + i) = false) ->
  survivorsFrom toRemove j l = l.
Proof.
  revert j. induction l as [|x l IH]; intros j H; simpl; [reflexivity|].
  pose proof (H 0%nat ltac:(simpl; lia)) as H0. rewrite Nat.add_0_r in H0.
  rewrite H0, IH; [reflexivity|].
  intros i Hi. rewrite Nat.add_succ_comm. apply H. simpl. lia.
Qed.

Lemma removeBlocks_unmarked (page : notionapi.Page) (toRemove : gmap Z bool) :
  (forall i, (i < length (Content (Root page)))%nat
             \/ (i < length (ContentIDs (Root page)))%nat ->
             marked toRemove i = false) ->
  removeBlocks page toRemove = page.
Proof.
  intros H. unfold removeBlocks.
  destruct (decide (size toRemove = 0%nat)); [reflexivity|].
  rewrite !compact_spec. simpl. unfold survivors.
  rewrite !survivorsFrom_unmarked_within by (intros i Hi; apply H; simpl; lia).
  rewrite take_app_length, drop_all, app_nil_r.
  destruct page as [pid []]. reflexivity.
Qed.

(** ** The tree builder *)

Lemma filter_pageLink_other (l : list (option Block)) :
  List.filter isPageLink (List.filter (fun block => negb (isPageLink block)) l) = [].
Proof.
  induction l as [|block l IH]; simpl; [reflexivity|].
  destruct (isPageLink block) eqn:Hl; simpl; [|rewrite Hl]; exact IH.
Qed.

Section Tree.

Variable unicodeLower : string -> string.
Variable normalizeID : string -> string.
Variable Getwd : string * option string.
Variable readFilteredSourceFile : string -> list string * option string.
Variable filepathBase : string -> string.
Variable filepathJoin : string -> string -> string.
Variable pageIDToPage : gmap string PagePtr.

Local Abbreviation meta := (extractMeta unicodeLower normalizeID).
Local Abbreviation embeds :=
  (extractEmbeddedSourceFiles Getwd readFilteredSourceFile filepathBase filepathJoin).
Local Abbreviation subPages page := (getSubPages normalizeID page pageIDToPage).
Local Abbreviation nodeOf := (subPageOf normalizeID pageIDToPage).
Local Abbreviation build fuel :=
  (bookPageFromNotionPage unicodeLower normalizeID Getwd
     readFilteredSourceFile filepathBase filepathJoin fuel pageIDToPage).
Local Abbreviation childTurn fuel :=
  (fun (subPage : PagePtr) (st : list BookPage * Heap) =>
     built ← build fuel st.2 subPage; Done ((st.1 ++ [built.1])%list, built.2)).
Local Abbreviation children fuel := (forEachRun (childTurn fuel)).
Local Abbreviation staysB := (stays unicodeLower).
Local Abbreviation extractedB := (extracted unicodeLower).

(** One call, step by step. *)
Lemma bookPageFromNotionPage_Done (fuel : nat) (h h' : Heap) (l : positive)
    (t : BookPage) :
  build (S fuel) h (Some l) = Done (t, h') ->
  exists page p1 p2 subs page' kids,
    h !! l = Some page
    /\ meta (newPage page) = OK p1
    /\ embeds p1 = OK p2
    /\ subPages (NotionPage p2) = OK (subs, page')
    /\ children fuel subs ([], <[l := page']> h) = Done (kids, h')
    /\ t = BookNode l (withNotionPage p2 page') kids.
Proof.
  simpl. destruct (h !! l) as [page|] eqn:Hl; [|discriminate]. simpl.
  destruct (meta (newPage page)) as [p1|msg] eqn:H1; [|discriminate]. simpl.
  destruct (embeds p1) as [p2|msg] eqn:H2; [|discriminate]. simpl.
  destruct (subPages (NotionPage p2)) as [[subs page']|msg] eqn:H3; [|discriminate].
  simpl. rewrite insert_insert_eq. intros H.
  apply Run_bind_Done_inv in H. destruct H as ([kids h''] & Hk & [= <- <-]).
  exists page, p1, p2, subs, page', kids. repeat split; auto.
Qed.

(** The links of the heap after the own extraction of a page: those of
    the page are gone, one for each sub page. *)
Lemma links_after_own (h : Heap) (l : positive) (page page' : notionapi.Page)
    (p1 p2 : Page) (subs : list PagePtr) :
  h !! l = Some page ->
  meta (newPage page) = OK p1 ->
  embeds p1 = OK p2 ->
  subPages (NotionPage p2) = OK (subs, page') ->
  (links (<[l := page']> h) + length subs = links h)%nat.
Proof.
  intros Hl H1 H2 H3.
  apply extractMeta_linkCount in H1. simpl in H1.
  rewrite extractEmbeddedSourceFiles_unfold in H2.
  apply bind_OK_inv in H2. destruct H2 as (_ & _ & H2).
  apply bind_OK_inv in H2. destruct H2 as (files & _ & [= <-]).
  simpl in H3. apply getSubPages_OK in H3. destruct H3 as (_ & -> & _ & Hc & _).
  pose proof (links_insert h l page page' Hl) as Hins.
  assert (H0 : linkCount page' = 0%nat).
  { unfold linkCount. rewrite Hc, filter_pageLink_other. reflexivity. }
  rewrite length_map. fold (linkCount (NotionPage p1)). lia.
Qed.

(** The depth of calls is bounded by the number of page links in the
    heap: every call removes the links of its page before it calls on. *)
Lemma bookPageFromNotionPage_fuel (fuel : nat) :
  forall (h : Heap) (ptr : PagePtr),
    (links h < fuel)%nat ->
    build fuel h ptr <> OutOfFuel
    /\ (forall t h', build fuel h ptr = Done (t, h') -> (links h' <= links h)%nat).
Proof.
  induction fuel as [|fuel IH]; intros h ptr Hfuel; [lia|].
  assert (Hkids : forall subs st,
            (links st.2 < fuel)%nat ->
            children fuel subs st <> OutOfFuel
            /\ (forall st', children fuel subs st = Done st' ->
                  (links st'.2 <= links st.2)%nat)).
  { induction subs as [|sub subs IHs]; intros st Hst; simpl.
    - split; [discriminate|]. intros st' [= <-]. lia.
    - destruct (IH st.2 sub Hst) as [Hne Hle].
      destruct (build fuel st.2 sub) as [[t h1]|msg|] eqn:Hb; simpl;
        [|split; discriminate|congruence].
      specialize (Hle t h1 eq_refl).
      destruct (IHs ((st.1 ++ [t])%list, h1)) as [Hne' Hle']; [simpl; lia|].
      split; [exact Hne'|]. intros st' Hd. specialize (Hle' st' Hd). simpl in Hle'. lia. }
  destruct ptr as [l|]; [|split; discriminate].
  simpl. destruct (h !! l) as [page|] eqn:Hl; [|split; discriminate]. simpl.
  destruct (meta (newPage page)) as [p1|msg] eqn:H1; [|split; discriminate]. simpl.
  destruct (embeds p1) as [p2|msg] eqn:H2; [|split; discriminate]. simpl.
  destruct (subPages (NotionPage p2)) as [[subs page']|msg] eqn:H3; [|split; discriminate].
  simpl. rewrite insert_insert_eq.
  pose proof (links_after_own h l page page' p1 p2 subs Hl H1 H2 H3) as Hown.
  destruct subs as [|sub subs].
  - simpl. split; [discriminate|]. intros t h' [= <- <-]. simpl in Hown. lia.
  - destruct (Hkids (sub :: subs) ([], <[l := page']> h)) as [Hne Hle];
      [simpl in *; lia|].
    destruct (children fuel (sub :: subs) ([], <[l := page']> h)) as [[kids h'']|msg|] eqn:Hc;
      simpl; [|split; discriminate|congruence].
    split; [discriminate|]. intros t h' [= <- <-].
    specialize (Hle _ eq_refl). simpl in *. lia.
Qed.

(** A call that ends within a bound ends the same way within a larger
    one. *)
Lemma bookPageFromNotionPage_more_fuel (fuel : nat) :
  forall (h : Heap) (ptr : PagePtr),
    build fuel h ptr <> OutOfFuel ->
    build (S fuel) h ptr = build fuel h ptr.
Proof.
  induction fuel as [|fuel IH]; intros h ptr Hne; [simpl in Hne; congruence|].
  assert (Hkids : forall subs st,
            children fuel subs st <> OutOfFuel ->
            children (S fuel) subs st = children fuel subs st).
  { induction subs as [|sub subs IHs]; intros st Hst; [reflexivity|].
    change (children (S fuel) (sub :: subs) st)
      with (childTurn (S fuel) sub st ≫= children (S fuel) subs).
    change (children fuel (sub :: subs) st)
      with (childTurn fuel sub st ≫= children fuel subs) in Hst |- *.
    cbv beta in Hst |- *.
    rewrite (IH st.2 sub).
    2:{ intros Hb. apply Hst. rewrite Hb. reflexivity. }
    destruct (build fuel st.2 sub) as [[t h1]|msg|]; simpl in Hst |- *;
      [|reflexivity|reflexivity].
    apply IHs. exact Hst. }
  destruct ptr as [l|]; [|reflexivity].
  change (build (S (S fuel)) h (Some l)) with
    (page ← run (deref h (Some l));
     res ← run (meta (newPage page));
     res' ← run (embeds res);
     sub ← run (subPages (NotionPage res'));
     st ← children (S fuel) sub.1 ([], <[l := sub.2]> (<[l := NotionPage res]> h));
     Done (BookNode l (withNotionPage res' sub.2) st.1, st.2)).
  change (build (S fuel) h (Some l)) with
    (page ← run (deref h (Some l));
     res ← run (meta (newPage page));
     res' ← run (embeds res);
     sub ← run (subPages (NotionPage res'));
     st ← children fuel sub.1 ([], <[l := sub.2]> (<[l := NotionPage res]> h));
     Done (BookNode l (withNotionPage res' sub.2) st.1, st.2)) in Hne |- *.
  destruct (run (deref h (Some l))) as [page|msg|]; simpl in Hne |- *; try reflexivity.
  destruct (run (meta (newPage page))) as [p1|msg|]; simpl in Hne |- *; try reflexivity.
  destruct (run (embeds p1)) as [p2|msg|]; simpl in Hne |- *; try reflexivity.
  destruct (run (subPages (NotionPage p2))) as [[subs page']|msg|]; simpl in Hne |- *;
    try reflexivity.
  rewrite Hkids; [reflexivity|].
  intros Hc. apply Hne. rewrite Hc. reflexivity.
Qed.

Lemma foldl_assignMeta_frame (mvs : list MetaValue) (p : Page) :
  Title (foldl assignMeta p mvs) = Title p
  /\ NotionID (foldl assignMeta p mvs) = NotionID p
  /\ SourceFiles (foldl assignMeta p mvs) = SourceFiles p.
Proof.
  revert p. induction mvs as [|mv mvs IH]; intros p; simpl; [auto|].
  destruct (IH (assignMeta p mv)) as (-> & -> & ->).
  unfold assignMeta.
  repeat match goal with |- context [if ?b then _ else _] => destruct b end; auto.
Qed.

(** [extractMeta] assigns [ID], [StackOverflowID] and [Search] only. *)
Lemma extractMeta_frame (p p' : Page) :
  meta p = OK p' ->
  Title p' = Title p /\ NotionID p' = NotionID p /\ SourceFiles p' = SourceFiles p.
Proof.
  intros H. apply extractMeta_OK in H. destruct H as (_ & Hf & _).
  destruct (foldl_assignMeta_frame
              (metaValues unicodeLower (Content (Root (NotionPage p)))) p)
    as (Ht & Hn & Hs).
  rewrite <- Hf in Ht, Hn, Hs. simpl in Ht, Hn, Hs. auto.
Qed.

(** A page without meta values comes back from [extractMeta] as it is. *)
Lemma extractMeta_nothing (p : Page) :
  forallb (keeps unicodeLower) (Content (Root (NotionPage p))) = true ->
  meta p = OK p.
Proof.
  intros H. rewrite extractMeta_unfold, extractMetaFrom_keeps by exact H.
  simpl. destruct p. reflexivity.
Qed.

Lemma stays_keeps (l : list (option Block)) :
  forallb staysB l = true -> forallb (keeps unicodeLower) l = true.
Proof.
  intros H. apply forallb_forall. intros block Hin.
  rewrite forallb_forall in H. specialize (H block Hin).
  unfold stays in H. apply andb_true_iff in H. apply H.
Qed.

(** A page without nil blocks and page links comes back from
    [getSubPages] as it is, with no sub page. *)
Lemma getSubPages_nothing (page : notionapi.Page) :
  forallb (fun block => negb (isPageLink block)) (Content (Root page)) = true ->
  Forall (fun block => block <> None) (Content (Root page)) ->
  subPages page = OK ([], page).
Proof.
  intros Hno Hnil. unfold getSubPages.
  destruct (getSubPages_loop normalizeID pageIDToPage (Content (Root page)) 0 [] ∅)
    as (toRemove & Hrun & Hm & Ho).
  { apply Forall_forall. intros block Hin. split.
    - rewrite Forall_forall in Hnil. apply Hnil. exact Hin.
    - rewrite forallb_forall in Hno. apply list_elem_of_In in Hin.
      specialize (Hno block Hin). intros Hl. rewrite Hl in Hno. discriminate. }
  rewrite Hrun. simpl.
  assert (Hnone : List.filter isPageLink (Content (Root page)) = []).
  { clear -Hno. induction (Content (Root page)) as [|block l IH]; [reflexivity|].
    simpl in Hno |- *. apply andb_true_iff in Hno. destruct Hno as [Hb Hl].
    apply negb_true_iff in Hb. rewrite Hb. apply IH. exact Hl. }
  rewrite Hnone. simpl. f_equal. f_equal.
  apply removeBlocks_unmarked. intros i _.
  destruct (Content (Root page) !! i) as [block|] eqn:Hi.
  - rewrite <- (Nat.add_0_l i), (Hm i block Hi). simpl. rewrite marked_empty, orb_false_r.
    rewrite forallb_forall in Hno. apply negb_true_iff, Hno.
    apply list_elem_of_In, list_elem_of_lookup. eauto.
  - apply lookup_ge_None in Hi. rewrite Ho by (simpl; lia). apply marked_empty.
Qed.

(** What the own extraction leaves of the blocks is what stays. *)
Lemma filter_stays (l : list (option Block)) :
  List.filter (fun block => negb (isPageLink block))
    (List.filter (keeps unicodeLower) l)
  = List.filter staysB l.
Proof.
  induction l as [|block l IH]; simpl; [reflexivity|].
  unfold stays at 1. destruct (keeps unicodeLower block); simpl; [|exact IH].
  destruct (negb (isPageLink block)); rewrite IH; reflexivity.
Qed.

Lemma extracted_filter_stays (page : notionapi.Page) (l : list (option Block)) :
  Content (Root page) = List.filter staysB l -> extractedB page = true.
Proof.
  intros Hc. unfold extracted. rewrite Hc. apply forallb_forall.
  intros block Hin. apply filter_In in Hin. apply Hin.
Qed.

Lemma extracted_no_nil (page : notionapi.Page) :
  extractedB page = true -> Forall (fun block => block <> None) (Content (Root page)).
Proof.
  intros H. apply Forall_forall. intros block Hin ->.
  unfold extracted in H. rewrite forallb_forall in H.
  apply list_elem_of_In in Hin. specialize (H None Hin). discriminate.
Qed.

Lemma extracted_no_link (page : notionapi.Page) :
  extractedB page = true ->
  forallb (fun block => negb (isPageLink block)) (Content (Root page)) = true.
Proof.
  intros H. apply forallb_forall. intros block Hin.
  unfold extracted in H. rewrite forallb_forall in H. specialize (H block Hin).
  unfold stays in H. apply andb_true_iff in H. apply H.
Qed.

(** A call on a page that is extracted already finds no meta value and no
    sub page, and leaves the heap as it is. *)
Lemma bookPageFromNotionPage_extracted (fuel : nat) (h : Heap) (l : positive)
    (page : notionapi.Page) :
  h !! l = Some page ->
  extractedB page = true ->
  build (S fuel) h (Some l) =
  res ← run (embeds (newPage page)); Done (BookNode l res [], h).
Proof.
  intros Hl He. simpl. rewrite Hl. simpl.
  rewrite extractMeta_nothing by (apply stays_keeps, He). simpl.
  rewrite extractEmbeddedSourceFiles_unfold.
  destruct (panicIfErr Getwd.2) as [[]|msg]; [|reflexivity]. simpl.
  destruct (embedEntries _ _ _ _ _) as [files|msg]; [|reflexivity]. simpl.
  rewrite getSubPages_nothing by (apply extracted_no_link, He || apply extracted_no_nil, He).
  simpl. rewrite insert_insert_eq, insert_id by exact Hl. reflexivity.
Qed.

(** A call leaves the pages that are extracted already as they are. *)
Lemma bookPageFromNotionPage_keeps_extracted (fuel : nat) :
  forall (h h' : Heap) (ptr : PagePtr) (t : BookPage),
    build fuel h ptr = Done (t, h') ->
    forall a page, h !! a = Some page -> extractedB page = true -> h' !! a = Some page.
Proof.
  induction fuel as [|fuel IH]; intros h h' ptr t H a page Ha He; [discriminate|].
  assert (Hkids : forall subs st st',
            children fuel subs st = Done st' ->
            st.2 !! a = Some page -> st'.2 !! a = Some page).
  { induction subs as [|sub subs IHs]; intros st st' Hc Hst; simpl in Hc.
    - injection Hc as <-. exact Hst.
    - apply Run_bind_Done_inv in Hc. destruct Hc as (st1 & H1 & Hc).
      apply Run_bind_Done_inv in H1. destruct H1 as ([t1 h1] & Hb & [= <-]).
      apply (IHs _ _ Hc). simpl. exact (IH _ _ _ _ Hb a page Hst He). }
  destruct ptr as [l|]; [|discriminate].
  destruct (decide (a = l)) as [->|Hne].
  - rewrite (bookPageFromNotionPage_extracted fuel h l page Ha He) in H.
    apply Run_bind_Done_inv in H. destruct H as (res & _ & [= _ <-]). exact Ha.
  - apply bookPageFromNotionPage_Done in H.
    destruct H as (pg & p1 & p2 & subs & page' & kids & _ & _ & _ & _ & Hc & _).
    apply (Hkids _ _ _ Hc). simpl. rewrite lookup_insert_ne by congruence. exact Ha.
Qed.

(** The pages built for the sub pages point to the sub pages, in their
    order. *)
Lemma children_ptrs (fuel : nat) (subs : list PagePtr) (st st' : list BookPage * Heap) :
  children fuel subs st = Done st' ->
  map (fun t => Some (nodePtr t)) st'.1
  = (map (fun t => Some (nodePtr t)) st.1 ++ subs)%list.
Proof.
  revert st. induction subs as [|sub subs IH]; intros st H; simpl in H.
  - injection H as <-. rewrite app_nil_r. reflexivity.
  - apply Run_bind_Done_inv in H. destruct H as (st1 & H1 & H).
    apply Run_bind_Done_inv in H1. destruct H1 as ([t1 h1] & Hb & [= <-]).
    rewrite (IH _ H). simpl. rewrite map_app, <- app_assoc. simpl.
    do 2 f_equal.
    destruct fuel as [|fuel]; [discriminate|]. destruct sub as [l|]; [|discriminate].
    apply bookPageFromNotionPage_Done in Hb.
    destruct Hb as (? & ? & ? & ? & ? & ? & _ & _ & _ & _ & _ & ->). reflexivity.
Qed.

(** [extractMeta] and [getSubPages] keep the title and the type of the
    root. *)
Lemma extractMeta_Root (p p' : Page) :
  meta p = OK p' ->
  notionapi.Title (Root (NotionPage p')) = notionapi.Title (Root (NotionPage p))
  /\ Type_ (Root (NotionPage p')) = Type_ (Root (NotionPage p)).
Proof.
  rewrite extractMeta_unfold. intros H.
  apply bind_OK_inv in H. destruct H as ([q toRemove] & Hloop & [= <-]).
  apply (extractMetaFrom_OK _ _ _ []) in Hloop; [|reflexivity].
  destruct Hloop as (Hq & _ & _). simpl.
  destruct (removeBlocks_Root (NotionPage q) toRemove) as (-> & -> & _).
  rewrite Hq, foldl_assignMeta_NotionPage. auto.
Qed.

Lemma getSubPages_Root (page page' : notionapi.Page) (res : list PagePtr) :
  subPages page = OK (res, page') ->
  notionapi.Title (Root page') = notionapi.Title (Root page)
  /\ Type_ (Root page') = Type_ (Root page).
Proof.
  unfold getSubPages. intros H.
  apply bind_OK_inv in H. destruct H as (st & _ & [= _ <-]).
  destruct (removeBlocks_Root page st.2) as (-> & -> & _). auto.
Qed.

Lemma children_keeps_extracted (fuel : nat) (subs : list PagePtr)
    (st st' : list BookPage * Heap) (a : positive) (page : notionapi.Page) :
  children fuel subs st = Done st' ->
  st.2 !! a = Some page -> extractedB page = true -> st'.2 !! a = Some page.
Proof.
  intros Hc Hst He. revert st Hc Hst.
  induction subs as [|sub subs IHs]; intros st Hc Hst; simpl in Hc.
  - injection Hc as <-. exact Hst.
  - apply Run_bind_Done_inv in Hc. destruct Hc as (st1 & H1 & Hc).
    apply Run_bind_Done_inv in H1. destruct H1 as ([t1 h1] & Hb & [= <-]).
    apply (IHs _ Hc). simpl.
    exact (bookPageFromNotionPage_keeps_extracted fuel _ _ _ _ Hb a page Hst He).
Qed.

Lemma bookPageFromNotionPage_add_fuel (k fuel : nat) (h : Heap) (ptr : PagePtr) :
  build fuel h ptr <> OutOfFuel -> build (k + fuel) h ptr = build fuel h ptr.
Proof.
  intros Hne. induction k as [|k IH]; [reflexivity|].
  change (S k + fuel)%nat with (S (k + fuel)).
  rewrite bookPageFromNotionPage_more_fuel; [exact IH|]. rewrite IH. exact Hne.
Qed.

End Tree.

(** ** Block removal: what is kept *)

(** X1. [removeBlocks] keeps the blocks whose index is not marked, in the
    order they have: the blocks after it are a sublist of the blocks
    before, as many fewer as there are marked indices in the range of the
    list, and a block is among them exactly when it stands at some index
    that is not marked. *)
Theorem removeBlocks_keeps_unmarked (page : notionapi.Page) (toRemove : gmap Z bool) :
  sublist (Content (Root (removeBlocks page toRemove))) (Content (Root page))
  /\ (length (Content (Root (removeBlocks page toRemove)))
      + markedFrom toRemove 0 (Content (Root page))
      = length (Content (Root page)))%nat
  /\ (forall block,
        block ∈ Content (Root (removeBlocks page toRemove)) <->
        exists i, Content (Root page) !! i = Some block /\ marked toRemove i = false).
Proof.
  rewrite removeBlocks_Content. unfold survivors. split; [|split].
  - apply survivorsFrom_sublist.
  - apply survivorsFrom_length.
  - intros block. apply elem_of_survivorsFrom.
Qed.

(** X2. Entries of [toRemove] with the value [false], with a negative key,
    or with a key beyond the blocks and the identifiers have no effect:
    where no index of either list is mapped to [true], [removeBlocks]
    leaves the page as it is. *)
Theorem removeBlocks_no_effect (page : notionapi.Page) (toRemove : gmap Z bool) :
  (forall k, toRemove !! k = Some true ->
     k < 0
     \/ (Z.of_nat (length (Content (Root page))) <= k
         /\ Z.of_nat (length (ContentIDs (Root page))) <= k)) ->
  removeBlocks page toRemove = page.
Proof.
  intros H. apply removeBlocks_unmarked. intros i Hi. unfold marked.
  destruct (toRemove !! Z.of_nat i) as [[|]|] eqn:Hk; [|reflexivity|reflexivity].
  apply H in Hk. lia.
Qed.

(** ** Meta extraction: when it aborts, what it leaves *)

Lemma forallb_false {A} (f : A -> bool) (l : list A) :
  forallb f l = false <-> exists x, x ∈ l /\ f x = false.
Proof.
  induction l as [|x l IH]; simpl.
  - split; [discriminate | intros (x & Hin & _); inversion Hin].
  - rewrite andb_false_iff, IH. split.
    + intros [Hx|(y & Hin & Hy)]; [exists x | exists y]; split; auto; [left | right; exact Hin].
    + intros (y & Hin & Hy). apply elem_of_cons in Hin. destruct Hin as [->|Hin]; eauto.
Qed.

Section MetaFurther.

Variable unicodeLower : string -> string.
Variable normalizeID : string -> string.

Local Abbreviation extractValue := (extractMetaValueFromBlock unicodeLower).
Local Abbreviation meta := (extractMeta unicodeLower normalizeID).
Local Abbreviation keepsB := (keeps unicodeLower).
Local Abbreviation blocksOf p := (Content (Root (NotionPage p))).

(** On a block that is there, [extractMetaValueFromBlock] returns. *)
Lemma extractMetaValueFromBlock_returns (b : Block) :
  exists r, extractValue (Some b) = OK r.
Proof.
  unfold extractMetaValueFromBlock.
  destruct (negb (String.eqb (Type_ b) BlockText)); [eauto|].
  destruct (InlineContent b) as [|inline [|? ?]]; [eauto| |eauto].
  destruct (negb (IsPlain inline)); [eauto|].
  destruct (Strings.len _ <? 4); [eauto|].
  destruct (negb (bool_decide _)); [eauto|].
  destruct (Strings.SplitN _ ":" 2) as [|p0 [|p1 [|? ?]]]; eauto.
Qed.

(** X3. [extractMeta] aborts exactly when one of the blocks is nil or
    holds a meta value whose key is none of [$id], [$soid], [$search],
    [$score]; on every other page it returns. *)
Theorem extractMeta_aborts_iff (p : Page) :
  returned (meta p) = false <->
  exists block,
    block ∈ blocksOf p
    /\ (block = None
        \/ exists mv, extractValue block = OK (Some mv) /\ knownKey (Key mv) = false).
Proof.
  rewrite extractMeta_returned, forallb_false. split.
  - intros (block & Hin & Hp). exists block. split; [exact Hin|].
    unfold passes in Hp. destruct block as [b|]; [right|left; reflexivity].
    destruct (extractMetaValueFromBlock_returns b) as [r Hr].
    rewrite Hr in Hp. destruct r as [mv|]; [|discriminate]. eauto.
  - intros (block & Hin & Hb). exists block. split; [exact Hin|].
    destruct Hb as [->|(mv & Hv & Hk)]; [reflexivity|].
    unfold passes. rewrite Hv. exact Hk.
Qed.

(** X4. When [extractMeta] returns, the blocks of the page are those in
    which [extractMetaValueFromBlock] finds no meta value, in the order
    they had, and the title, the Notion identifier, the source files and
    the identifier of the page are what they were. *)
Theorem extractMeta_leaves (p p' : Page) :
  meta p = OK p' ->
  blocksOf p' = List.filter keepsB (blocksOf p)
  /\ sublist (blocksOf p') (blocksOf p)
  /\ Title p' = Title p
  /\ NotionID p' = NotionID p
  /\ SourceFiles p' = SourceFiles p
  /\ PageID (NotionPage p') = PageID (NotionPage p).
Proof.
  intros H. destruct (extractMeta_frame _ _ _ _ H) as (Ht & Hn & Hs).
  apply extractMeta_OK in H. destruct H as (Hc & _ & Hid).
  repeat split; try assumption.
  rewrite Hc. clear. induction (blocksOf p) as [|block l IH]; simpl; [constructor|].
  destruct (keepsB block); [apply sublist_skip | apply sublist_cons]; exact IH.
Qed.

Lemma ID_foldl_assignMeta (mvs : list MetaValue) (p : Page) :
  Forall (fun mv => Key mv <> "$id") mvs -> ID (foldl assignMeta p mvs) = ID p.
Proof.
  intros H. revert p. induction H as [|mv mvs Hmv _ IH]; intros p; simpl; [reflexivity|].
  rewrite IH. unfold assignMeta. apply String.eqb_neq in Hmv. rewrite Hmv.
  destruct (String.eqb (Key mv) "$soid"); [reflexivity|].
  destruct (String.eqb (Key mv) "$search"); reflexivity.
Qed.

Lemma StackOverflowID_foldl_assignMeta (mvs : list MetaValue) (p : Page) :
  Forall (fun mv => Key mv <> "$soid") mvs ->
  StackOverflowID (foldl assignMeta p mvs) = StackOverflowID p.
Proof.
  intros H. revert p. induction H as [|mv mvs Hmv _ IH]; intros p; simpl; [reflexivity|].
  rewrite IH. unfold assignMeta. apply String.eqb_neq in Hmv. rewrite Hmv.
  destruct (String.eqb (Key mv) "$id"); [reflexivity|].
  destruct (String.eqb (Key mv) "$search"); reflexivity.
Qed.

(** X5. Of several [$id] directives the last one wins, and likewise for
    [$soid]: when [extractMeta] returns and no block after the one with
    the meta value [mv] has the key of [mv], [ID] is the value of [mv] if
    its key is [$id], and [StackOverflowID] is if its key is [$soid]. *)
Theorem extractMeta_last_wins (p p' : Page) (pre post : list (option Block))
    (block : option Block) (mv : MetaValue) :
  meta p = OK p' ->
  blocksOf p = (pre ++ block :: post)%list ->
  extractValue block = OK (Some mv) ->
  (forall later mv', later ∈ post -> extractValue later = OK (Some mv') ->
     Key mv' <> Key mv) ->
  (Key mv = "$id" -> ID p' = Value mv)
  /\ (Key mv = "$soid" -> StackOverflowID p' = Value mv).
Proof.
  intros H Hc Hv Hlater.
  apply extractMeta_OK in H. destruct H as (_ & Hf & _).
  rewrite Hc, metaValues_app, metaValues_cons, Hv, foldl_app in Hf. simpl in Hf.
  split; intros Hkey.
  - change (ID p') with (ID (withNotionPage p' (NotionPage p))).
    rewrite Hf, ID_foldl_assignMeta.
    + unfold assignMeta. rewrite Hkey. reflexivity.
    + apply metaValues_Forall. intros later mv' Hin Hv'. rewrite <- Hkey.
      exact (Hlater later mv' Hin Hv').
  - change (StackOverflowID p') with (StackOverflowID (withNotionPage p' (NotionPage p))).
    rewrite Hf, StackOverflowID_foldl_assignMeta.
    + unfold assignMeta. rewrite Hkey. reflexivity.
    + apply metaValues_Forall. intros later mv' Hin Hv'. rewrite <- Hkey.
      exact (Hlater later mv' Hin Hv').
Qed.

(** X6. A [$score] directive is taken out of the page and assigns
    nothing: when [extractMeta] returns on a page whose meta values all
    have the key [$score], [ID], [StackOverflowID] and [Search] are what
    they were, and the directives are gone from the blocks. *)
Theorem extractMeta_score_ignored (p p' : Page) :
  meta p = OK p' ->
  (forall block mv, block ∈ blocksOf p -> extractValue block = OK (Some mv) ->
     Key mv = "$score") ->
  ID p' = ID p
  /\ StackOverflowID p' = StackOverflowID p
  /\ Search p' = Search p
  /\ blocksOf p' = List.filter keepsB (blocksOf p).
Proof.
  intros H Hscore.
  apply extractMeta_OK in H. destruct H as (Hc & Hf & _).
  assert (Hall : forall key, key <> "$score" ->
            Forall (fun mv => Key mv <> key) (metaValues unicodeLower (blocksOf p))).
  { intros key Hkey. apply metaValues_Forall. intros block mv Hin Hv.
    rewrite (Hscore block mv Hin Hv). congruence. }
  change (ID p') with (ID (withNotionPage p' (NotionPage p))).
  change (StackOverflowID p')
    with (StackOverflowID (withNotionPage p' (NotionPage p))).
  change (Search p') with (Search (withNotionPage p' (NotionPage p))).
  rewrite Hf, ID_foldl_assignMeta, StackOverflowID_foldl_assignMeta,
    Search_foldl_assignMeta by (apply Hall; discriminate).
  auto.
Qed.

End MetaFurther.

(** ** Sub-page extraction: what it returns *)

Section SubPagesFurther.

Variable normalizeID : string -> string.
Variable pageIDToPage : gmap string PagePtr.

Local Abbreviation subPages page := (getSubPages normalizeID page pageIDToPage).

(** X7. When [getSubPages] returns, it returns one node for each page
    link of the page, none of them nil; the page is left with its other
    blocks in their order, as many fewer as nodes are returned; and a
    second call on the page as it is left returns no node and changes
    nothing. *)
Theorem getSubPages_returns (page page' : notionapi.Page) (res : list PagePtr) :
  subPages page = OK (res, page') ->
  length res = length (List.filter isPageLink (Content (Root page)))
  /\ Forall (fun node => node <> None) res
  /\ Content (Root page')
     = List.filter (fun block => negb (isPageLink block)) (Content (Root page))
  /\ (length (Content (Root page')) + length res = length (Content (Root page)))%nat
  /\ subPages page' = OK ([], page').
Proof.
  intros H. apply getSubPages_OK in H. destruct H as (Hres & -> & Hnil & Hc & _).
  rewrite length_map. split; [reflexivity|]. split; [exact Hnil|].
  split; [exact Hc|]. split.
  - rewrite Hc. clear. induction (Content (Root page)) as [|block l IH]; [reflexivity|].
    simpl. destruct (isPageLink block); simpl; lia.
  - apply getSubPages_nothing.
    + rewrite Hc. apply forallb_forall. intros block Hin.
      apply filter_In in Hin. apply Hin.
    + rewrite Hc. apply Forall_forall. intros block Hin.
      apply list_elem_of_In, filter_In in Hin. destruct Hin as [Hin _].
      rewrite Forall_forall in Hres. apply (Hres block). apply list_elem_of_In, Hin.
Qed.

End SubPagesFurther.

(** ** Embed resolution: outside the convention, and inside *)

(** X8. A string that [url.Parse] refuses, or whose host is no viewer
    host, or whose path is not the widget path, resolves to the empty
    path: the resolver returns, whatever the query holds. *)
Theorem gitoembed_outside_widget (uri : string) :
  match Url.Parse uri with
  | None => True
  | Some parsed =>
      (Url.Host parsed <> "www.onlinetool.io" /\ Url.Host parsed <> "onlinetool.io")
      \/ Url.Path parsed <> "/gitoembed/widget"
  end ->
  gitoembedToRelativePath uri = OK "".
Proof.
  destruct (Url.Parse uri) as [parsed|] eqn:Hp.
  - intros [[H1 H2]|H3].
    + exact (gitoembed_other_host uri parsed Hp H1 H2).
    + exact (gitoembed_other_path uri parsed Hp H3).
  - intros _. exact (gitoembed_unparsed uri Hp).
Qed.

Lemma prefix_dropBytes (prefix s : string) :
  String.prefix prefix s = true ->
  s = prefix +:+ Strings.dropBytes (String.length prefix) s.
Proof.
  revert s. induction prefix as [|c prefix IH]; intros s H; [reflexivity|].
  destruct s as [|d s]; [discriminate|]. simpl in H |- *.
  destruct (ascii_dec c d) as [->|]; [|discriminate].
  exact (f_equal (String d) (IH s H)).
Qed.

Lemma TrimPrefix_cases (s prefix : string) :
  s = prefix +:+ Strings.TrimPrefix s prefix \/ Strings.TrimPrefix s prefix = s.
Proof.
  unfold Strings.TrimPrefix, Strings.HasPrefix.
  destruct (String.prefix prefix s) eqn:H; [left|right; reflexivity].
  apply prefix_dropBytes. exact H.
Qed.

(** X9. A path that the resolver returns, when it is not empty, is the
    end of the path of the inner URL: the inner URL has the host
    [github.com], and its path is [/essentialbooks/books/], then
    optionally [blob/], optionally [master/], optionally [notion/], then
    the path returned. *)
Theorem gitoembed_path_of_inner (uri path : string) :
  gitoembedToRelativePath uri = OK path ->
  path <> "" ->
  exists parsed inner b m n,
    Url.Parse uri = Some parsed
    /\ Url.Parse (Url.Get (Url.Query parsed) "url") = Some inner
    /\ Url.Host inner = "github.com"
    /\ (b = "" \/ b = "blob/") /\ (m = "" \/ m = "master/") /\ (n = "" \/ n = "notion/")
    /\ Url.Path inner = "/essentialbooks/books/" +:+ b +:+ m +:+ n +:+ path.
Proof.
  unfold gitoembedToRelativePath. intros H Hne.
  destruct (Url.Parse uri) as [parsed|] eqn:Hparsed; [|congruence].
  destruct (negb (_ || _)); [congruence|].
  destruct (negb (String.eqb (Url.Path parsed) _)); [congruence|].
  destruct (Url.Parse (Url.Get (Url.Query parsed) "url")) as [inner|] eqn:Hinner;
    [|discriminate].
  destruct (String.eqb_spec (Url.Host inner) "github.com") as [Hh|]; [|simpl in H; congruence].
  simpl in H.
  destruct (String.eqb_spec (Strings.TrimPrefix (Url.Path inner) "/essentialbooks/books/")
              (Url.Path inner)) as [|Hp]; [congruence|].
  injection H as H.
  set (p0 := Strings.TrimPrefix (Url.Path inner) "/essentialbooks/books/") in *.
  set (p1 := Strings.TrimPrefix p0 "blob/") in *.
  set (p2 := Strings.TrimPrefix p1 "master/") in *.
  assert (H0 : Url.Path inner = "/essentialbooks/books/" +:+ p0).
  { destruct (TrimPrefix_cases (Url.Path inner) "/essentialbooks/books/") as [E|E];
      [exact E|contradiction]. }
  assert (H1 : exists b, (b = "" \/ b = "blob/") /\ p0 = b +:+ p1).
  { destruct (TrimPrefix_cases p0 "blob/") as [E|E].
    - exists "blob/". auto.
    - exists "". split; [auto|]. simpl. symmetry. exact E. }
  assert (H2 : exists m, (m = "" \/ m = "master/") /\ p1 = m +:+ p2).
  { destruct (TrimPrefix_cases p1 "master/") as [E|E].
    - exists "master/". auto.
    - exists "". split; [auto|]. simpl. symmetry. exact E. }
  assert (H3 : exists n, (n = "" \/ n = "notion/") /\ p2 = n +:+ path).
  { destruct (TrimPrefix_cases p2 "notion/") as [E|E].
    - exists "notion/". rewrite <- H. auto.
    - exists "". split; [auto|]. simpl. rewrite <- H. symmetry. exact E. }
  destruct H1 as (b & Hb & E1), H2 as (m & Hm & E2), H3 as (n & Hn & E3).
  exists parsed, inner, b, m, n.
  split; [reflexivity|]. split; [exact Hinner|]. split; [exact Hh|].
  split; [exact Hb|]. split; [exact Hm|]. split; [exact Hn|].
  rewrite H0, E1, E2, E3. reflexivity.
Qed.

(** ** Embed extraction and the lookup of source files *)

(** X11. The lookup never hands out an entry whose file does not exist:
    an entry that [findSourceFileForEmbedURL] returns is one of the source
    files of the page, has the URL asked for, and has [FileExists] set. *)
Theorem findSourceFileForEmbedURL_sound (page : Page) (uri : string)
    (f : EmbeddedSourceFile) :
  findSourceFileForEmbedURL page uri = Some f ->
  f ∈ SourceFiles page /\ EmbedURL f = uri /\ FileExists f = true.
Proof.
  unfold findSourceFileForEmbedURL.
  induction (SourceFiles page) as [|g files IH]; simpl; [discriminate|].
  destruct (String.eqb_spec (EmbedURL g) uri) as [Hu|Hu].
  - destruct (FileExists g) eqn:He; [|discriminate].
    intros [= <-]. split; [left|auto].
  - intros H. destruct (IH H) as (Hin & Hrest). split; [right; exact Hin|exact Hrest].
Qed.

Section EmbedsFurther.

Variable Getwd : string * option string.
Variable readFilteredSourceFile : string -> list string * option string.
Variable filepathBase : string -> string.
Variable filepathJoin : string -> string -> string.

Local Abbreviation entryOf :=
  (sourceFileOf readFilteredSourceFile filepathBase filepathJoin).
Local Abbreviation embeds :=
  (extractEmbeddedSourceFiles Getwd readFilteredSourceFile filepathBase filepathJoin).

(** What an entry says about its file. *)
Lemma sourceFileOf_fields (wd uri : string) (f : EmbeddedSourceFile) :
  entryOf wd uri = OK f ->
  EmbedURL f = uri
  /\ (FileExists f = true ->
      exists relativePath,
        gitoembedToRelativePath uri = OK relativePath
        /\ relativePath <> ""
        /\ FileName f = filepathBase relativePath
        /\ Path f = filepathJoin wd relativePath
        /\ readFilteredSourceFile (Path f) = (Lines f, None)).
Proof.
  unfold sourceFileOf.
  destruct (gitoembedToRelativePath uri) as [r|msg]; [|discriminate]. simpl.
  destruct (String.eqb_spec r "") as [->|Hr]; intros [= <-]; simpl.
  - split; [reflexivity|discriminate].
  - split; [reflexivity|].
    destruct (readFilteredSourceFile (filepathJoin wd r)) as [lines [err|]] eqn:Hread;
      simpl; [discriminate|].
    intros _. exists r. auto.
Qed.

(** X10. When [extractEmbeddedSourceFiles] returns, it has changed
    nothing but [SourceFiles], to which it has appended one entry for each
    embed block, in block order, with the display source of the block as
    [EmbedURL]; and an entry has [FileExists] set only when its URL
    resolves to a path that is not empty, [Path] is that path joined to
    the working directory, and the reader returned [Lines] for [Path]
    without error. *)
Theorem extractEmbeddedSourceFiles_appends (p p' : Page) :
  embeds p = OK p' ->
  exists files,
    p' = withSourceFiles p (SourceFiles p ++ files)%list
    /\ map EmbedURL files
       = map displaySourceOf (List.filter isEmbed (Content (Root (NotionPage p))))
    /\ Forall (fun f =>
                 FileExists f = true ->
                 exists relativePath,
                   gitoembedToRelativePath (EmbedURL f) = OK relativePath
                   /\ relativePath <> ""
                   /\ FileName f = filepathBase relativePath
                   /\ Path f = filepathJoin Getwd.1 relativePath
                   /\ readFilteredSourceFile (Path f) = (Lines f, None)) files.
Proof.
  rewrite extractEmbeddedSourceFiles_unfold. intros H.
  apply bind_OK_inv in H. destruct H as (_ & _ & H).
  apply bind_OK_inv in H. destruct H as (files & He & [= <-]).
  exists files. split; [reflexivity|].
  apply embedEntries_urls in He. destruct He as [Hu Hall].
  split; [exact Hu|].
  clear Hu. induction Hall as [|block f blocks files Hf _ IH]; constructor; [|exact IH].
  apply sourceFileOf_fields in Hf. destruct Hf as (Hurl & Hex).
  rewrite Hurl. exact Hex.
Qed.

Lemma findSourceFile_entries (wd uri : string) (blocks : list (option Block))
    (files : list EmbeddedSourceFile) :
  Forall2 (fun block f => entryOf wd (displaySourceOf block) = OK f) blocks files ->
  (Forall (fun block => displaySourceOf block <> uri) blocks ->
   findSourceFile files uri = None)
  /\ (forall block, block ∈ blocks -> displaySourceOf block = uri ->
      exists f, entryOf wd uri = OK f
                /\ findSourceFile files uri = if FileExists f then Some f else None).
Proof.
  induction 1 as [|block f blocks files Hf _ IH]; simpl.
  - split; [reflexivity|]. intros block Hin. inversion Hin.
  - pose proof (proj1 (sourceFileOf_fields _ _ _ Hf)) as Hurl. rewrite Hurl.
    destruct IH as [IHn IHs].
    destruct (String.eqb_spec (displaySourceOf block) uri) as [Hu|Hu].
    + split.
      * intros Hall. apply Forall_cons in Hall. destruct Hall as [Hne _]. contradiction.
      * intros _ _ _. exists f. rewrite <- Hu. split; [exact Hf|reflexivity].
    + split.
      * intros Hall. apply Forall_cons in Hall. apply IHn, Hall.
      * intros b Hin Hb. apply elem_of_cons in Hin. destruct Hin as [->|Hin];
          [contradiction|]. exact (IHs b Hin Hb).
Qed.

(** X12. Extraction, then lookup, on a page that had no source files:
    [findSourceFileForEmbedURL] finds nothing for a URL that no embed
    block has as its display source; for the display source of an embed
    block it returns the entry of that URL when its file exists, and nil
    when it does not. *)
Theorem findSourceFileForEmbedURL_after_extraction (p p' : Page) (uri : string) :
  embeds p = OK p' ->
  SourceFiles p = [] ->
  ((forall block, block ∈ Content (Root (NotionPage p)) -> isEmbed block = true ->
      displaySourceOf block <> uri) ->
   findSourceFileForEmbedURL p' uri = None)
  /\ (forall block, block ∈ Content (Root (NotionPage p)) -> isEmbed block = true ->
      displaySourceOf block = uri ->
      exists f, entryOf Getwd.1 uri = OK f
                /\ findSourceFileForEmbedURL p' uri
                   = if FileExists f then Some f else None).
Proof.
  rewrite extractEmbeddedSourceFiles_unfold. intros H Hempty.
  apply bind_OK_inv in H. destruct H as (_ & _ & H).
  apply bind_OK_inv in H. destruct H as (files & He & [= <-]).
  apply embedEntries_urls in He. destruct He as [_ Hall].
  unfold findSourceFileForEmbedURL. simpl. rewrite Hempty. simpl.
  destruct (findSourceFile_entries _ uri _ _ Hall) as [Hn Hs]. split.
  - intros Hno. apply Hn. apply Forall_forall. intros block Hin.
    apply list_elem_of_In, filter_In in Hin. destruct Hin as [Hin Hemb].
    apply Hno; [apply list_elem_of_In, Hin|exact Hemb].
  - intros block Hin Hemb Hu. apply (Hs block); [|exact Hu].
    apply list_elem_of_In, filter_In. split; [apply list_elem_of_In, Hin|exact Hemb].
Qed.

End EmbedsFurther.

(** ** The tree builder: bound, result, second call *)

Section TreeFurther.

Variable unicodeLower : string -> string.
Variable normalizeID : string -> string.
Variable Getwd : string * option string.
Variable readFilteredSourceFile : string -> list string * option string.
Variable filepathBase : string -> string.
Variable filepathJoin : string -> string -> string.
Variable pageIDToPage : gmap string PagePtr.

Local Abbreviation meta := (extractMeta unicodeLower normalizeID).
Local Abbreviation embeds :=
  (extractEmbeddedSourceFiles Getwd readFilteredSourceFile filepathBase filepathJoin).
Local Abbreviation nodeOf := (subPageOf normalizeID pageIDToPage).
Local Abbreviation build fuel :=
  (bookPageFromNotionPage unicodeLower normalizeID Getwd
     readFilteredSourceFile filepathBase filepathJoin fuel pageIDToPage).
Local Abbreviation staysB := (stays unicodeLower).

(** X13. The recursion of [bookPageFromNotionPage] ends on every heap,
    also when pages link to each other in a circle: [getSubPages] takes
    the page links out of a page before the sub pages are visited, so the
    depth of calls is at most the number of page links in the heap, and
    every bound above that number gives the same outcome. *)
Theorem bookPageFromNotionPage_ends (fuel fuel' : nat) (h : Heap) (ptr : PagePtr) :
  (links h < fuel)%nat ->
  (links h < fuel')%nat ->
  build fuel h ptr <> OutOfFuel /\ build fuel' h ptr = build fuel h ptr.
Proof.
  intros Hf Hf'.
  destruct (bookPageFromNotionPage_fuel unicodeLower normalizeID Getwd
              readFilteredSourceFile filepathBase filepathJoin pageIDToPage
              (S (links h)) h ptr) as [Hne _]; [lia|].
  pose proof (bookPageFromNotionPage_add_fuel unicodeLower normalizeID Getwd
                readFilteredSourceFile filepathBase filepathJoin pageIDToPage
                (fuel - S (links h)) (S (links h)) h ptr Hne) as E.
  pose proof (bookPageFromNotionPage_add_fuel unicodeLower normalizeID Getwd
                readFilteredSourceFile filepathBase filepathJoin pageIDToPage
                (fuel' - S (links h)) (S (links h)) h ptr Hne) as E'.
  replace (fuel - S (links h) + S (links h))%nat with fuel in E by lia.
  replace (fuel' - S (links h) + S (links h))%nat with fuel' in E' by lia.
  rewrite E, E'. split; [exact Hne|reflexivity].
Qed.

(** The page of the book built for the page behind [l] keeps the title
    of the root block and the blocks that stay, and the heap holds at [l],
    after the calls on the sub pages, the page as this call left it. *)
Lemma bookPageFromNotionPage_own (fuel : nat) (h h' : Heap) (l : positive)
    (t : BookPage) :
  build fuel h (Some l) = Done (t, h') ->
  exists page,
    h !! l = Some page
    /\ Title (nodePage t) = notionapi.Title (Root page)
    /\ Content (Root (NotionPage (nodePage t))) = List.filter staysB (Content (Root page))
    /\ h' !! l = Some (NotionPage (nodePage t)).
Proof.
  destruct fuel as [|fuel]; [discriminate|]. intros H.
  apply bookPageFromNotionPage_Done in H.
  destruct H as (page & p1 & p2 & subs & page' & kids & Hl & H1 & H2 & H3 & Hc & ->).
  exists page. split; [exact Hl|]. simpl.
  destruct (extractMeta_frame _ _ _ _ H1) as (Ht & _ & _).
  apply extractMeta_OK in H1. destruct H1 as (Hc1 & _ & _). simpl in Hc1, Ht.
  rewrite extractEmbeddedSourceFiles_unfold in H2.
  apply bind_OK_inv in H2. destruct H2 as (_ & _ & H2).
  apply bind_OK_inv in H2. destruct H2 as (files & _ & [= <-]).
  simpl in H3. apply getSubPages_OK in H3. destruct H3 as (_ & -> & _ & Hc3 & _).
  assert (Hstays : Content (Root page') = List.filter staysB (Content (Root page))).
  { rewrite Hc3, Hc1. apply filter_stays. }
  split; [exact Ht|]. split; [exact Hstays|].
  apply (children_keeps_extracted _ _ _ _ _ _ _ _ _ _ _ l page' Hc).
  - simpl. apply lookup_insert_eq.
  - exact (extracted_filter_stays _ _ _ Hstays).
Qed.

(** X14. The page of the book that a call returns for the page behind
    [l]: it points to [l] and has the title of the root block; its blocks
    are those of the page that hold no meta value and are no page link,
    in their order; its sub pages point to the nodes that the mapping
    gives for the page links, in block order; and the heap holds at [l],
    after all the calls on the sub pages, the page as this extraction left
    it. *)
Theorem bookPageFromNotionPage_page (fuel : nat) (h h' : Heap) (l : positive)
    (t : BookPage) :
  build fuel h (Some l) = Done (t, h') ->
  exists page,
    h !! l = Some page
    /\ nodePtr t = l
    /\ Title (nodePage t) = notionapi.Title (Root page)
    /\ Content (Root (NotionPage (nodePage t))) = List.filter staysB (Content (Root page))
    /\ map (fun sub => Some (nodePtr sub)) (nodePages t)
       = map nodeOf (List.filter isPageLink (Content (Root page)))
    /\ h' !! l = Some (NotionPage (nodePage t)).
Proof.
  intros H.
  destruct (bookPageFromNotionPage_own fuel h h' l t H) as (page & Hl & Ht & Hstays & Hl').
  exists page. repeat split; try assumption.
  - destruct fuel as [|fuel]; [discriminate|].
    apply bookPageFromNotionPage_Done in H.
    destruct H as (page0 & p1 & p2 & subs & page' & kids & _ & _ & _ & _ & _ & ->).
    reflexivity.
  - destruct fuel as [|fuel]; [discriminate|].
    apply bookPageFromNotionPage_Done in H.
    destruct H as (page0 & p1 & p2 & subs & page' & kids & Hl0 & H1 & H2 & H3 & Hc & ->).
    assert (page0 = page) as -> by congruence.
    apply extractMeta_OK in H1. destruct H1 as (Hc1 & _ & _). simpl in Hc1.
    rewrite extractEmbeddedSourceFiles_unfold in H2.
    apply bind_OK_inv in H2. destruct H2 as (_ & _ & H2).
    apply bind_OK_inv in H2. destruct H2 as (files & _ & [= <-]).
    simpl in H3. apply getSubPages_OK in H3. destruct H3 as (_ & -> & _ & _ & _).
    apply children_ptrs in Hc. simpl in Hc. simpl. rewrite Hc, Hc1, filter_pageLink_keeps.
    reflexivity.
Qed.

(** X15. The extraction uses the pages up: a second call on the same
    page, on the heap that the first call left, finds no meta value and no
    sub page. It returns a page of the book with the same title, the
    same source files and the same blocks, but with empty [ID],
    [StackOverflowID] and [Search] and without sub pages, and it leaves
    the heap as it is. *)
Theorem bookPageFromNotionPage_again (fuel : nat) (h h' : Heap) (l : positive)
    (t : BookPage) :
  build fuel h (Some l) = Done (t, h') ->
  exists res,
    build fuel h' (Some l) = Done (BookNode l res [], h')
    /\ NotionPage res = NotionPage (nodePage t)
    /\ Title res = Title (nodePage t)
    /\ SourceFiles res = SourceFiles (nodePage t)
    /\ ID res = "" /\ StackOverflowID res = "" /\ Search res = [].
Proof.
  intros H.
  destruct (bookPageFromNotionPage_own fuel h h' l t H)
    as (page & Hl & Ht & Hstays & Hl').
  destruct fuel as [|fuel]; [discriminate|].
  apply bookPageFromNotionPage_Done in H.
  destruct H as (page0 & p1 & p2 & subs & page' & kids & Hl0 & H1 & H2 & H3 & Hc & ->).
  simpl in Ht, Hstays, Hl'.
  destruct (extractMeta_frame _ _ _ _ H1) as (_ & _ & Hs1). simpl in Hs1.
  rewrite extractEmbeddedSourceFiles_unfold in H2.
  destruct (panicIfErr Getwd.2) as [[]|msg] eqn:Hwd; [|discriminate]. simpl in H2.
  apply bind_OK_inv in H2. destruct H2 as (files & He & [= <-]).
  simpl in H3.
  destruct (getSubPages_Root _ _ _ _ _ H3) as [Hr3 _].
  destruct (extractMeta_Root _ _ _ _ H1) as [Hr1 _]. simpl in Hr1.
  apply getSubPages_OK in H3. destruct H3 as (_ & _ & _ & Hc3 & _).
  rewrite (bookPageFromNotionPage_extracted _ _ _ _ _ _ _ fuel h' l page' Hl')
    by exact (extracted_filter_stays _ _ _ Hstays).
  rewrite extractEmbeddedSourceFiles_unfold, Hwd. simpl.
  rewrite Hc3.
  rewrite (embedEntries_filter _ _ _ _ _ _ files) by
    (first [exact He | intros [b|] Hb; [|discriminate]; simpl in Hb |- *;
            apply String.eqb_eq in Hb; rewrite Hb; reflexivity]).
  simpl. eexists. split; [reflexivity|]. simpl. rewrite Hs1.
  repeat split; auto.
  rewrite Hr3, Hr1. destruct (extractMeta_frame _ _ _ _ H1) as (-> & _ & _).
  reflexivity.
Qed.

(** X16. When [bookFromPages] returns, the start identifier, taken as the
    book has it and not normalized, is a key of the mapping; the page it
    is mapped to has a page block as its root; the book has the title of
    that root and, as its root page, the page of the book built for it;
    the start identifier and the mapping of the book are what they
    were. *)
Theorem bookFromPages_returns (fuel : nat) (book book' : Book.Book) (h h' : Heap) :
  bookFromPages unicodeLower normalizeID Getwd readFilteredSourceFile filepathBase
    filepathJoin fuel book h = Done (book', h') ->
  exists l page t,
    Book.pageIDToPage book !! Book.NotionStartPageID book = Some (Some l)
    /\ h !! l = Some page
    /\ Type_ (Root page) = BlockPage
    /\ bookPageFromNotionPage unicodeLower normalizeID Getwd readFilteredSourceFile
         filepathBase filepathJoin fuel (Book.pageIDToPage book) h (Some l)
       = Done (t, h')
    /\ Book.Title book' = notionapi.Title (Root page)
    /\ Book.RootPage book' = Some t
    /\ Book.NotionStartPageID book' = Book.NotionStartPageID book
    /\ Book.pageIDToPage book' = Book.pageIDToPage book.
Proof.
  unfold bookFromPages, pageOf. intros H.
  destruct (Book.pageIDToPage book !! Book.NotionStartPageID book) as [[l|]|] eqn:Hm;
    [|discriminate|discriminate].
  simpl in H. destruct (h !! l) as [page|] eqn:Hl; [|discriminate]. simpl in H.
  destruct (String.eqb_spec (Type_ (Root page)) BlockPage) as [Ht|Ht]; [|discriminate].
  simpl in H. apply Run_bind_Done_inv in H. destruct H as ([t h1] & Hb & [= <- <-]).
  exists l, page, t. repeat split; auto.
Qed.

End TreeFurther.

(** ** Directive lines: written, then read *)

Lemma append_nil_r (s : string) : s +:+ "" = s.
Proof. induction s as [|c s IH]; [reflexivity|]. exact (f_equal (String c) IH). Qed.

Lemma append_assoc (a b c : string) : (a +:+ b) +:+ c = a +:+ (b +:+ c).
Proof.
  induction a as [|x a IH]; [reflexivity|]. exact (f_equal (String x) IH).
Qed.

Lemma revOnto_append (s acc : string) :
  Strings.revOnto s acc = Strings.reverse s +:+ acc.
Proof.
  unfold Strings.reverse. revert acc.
  induction s as [|c s IH]; intros acc; [reflexivity|].
  simpl. rewrite (IH (String c acc)), (IH (String c "")), append_assoc. reflexivity.
Qed.

Lemma reverse_append (a b : string) :
  Strings.reverse (a +:+ b) = Strings.reverse b +:+ Strings.reverse a.
Proof.
  induction a as [|c a IH].
  - symmetry. apply append_nil_r.
  - change (Strings.reverse (String c a +:+ b))
      with (Strings.revOnto (a +:+ b) (String c "")).
    change (Strings.reverse (String c a)) with (Strings.revOnto a (String c "")).
    rewrite !revOnto_append, IH, append_assoc. reflexivity.
Qed.

Lemma reverse_involutive (s : string) : Strings.reverse (Strings.reverse s) = s.
Proof.
  induction s as [|c s IH]; [reflexivity|].
  change (Strings.reverse (String c s)) with (Strings.revOnto s (String c "")).
  rewrite revOnto_append, reverse_append, IH. reflexivity.
Qed.

(** A printable byte is no white space and no part of the encoding of
    one. *)
Lemma printable_no_space (c : ascii) :
  printable c = true ->
  Strings.isSpace1 c = false
  /\ (forall x, Strings.isSpace2 c x = false)
  /\ (forall x, Strings.isSpace2 x c = false)
  /\ (forall x y, Strings.isSpace3 c x y = false)
  /\ (forall x y, Strings.isSpace3 y x c = false).
Proof.
  unfold printable, Strings.isSpace1, Strings.isSpace2, Strings.isSpace3, isByte.
  intros H. apply andb_true_iff in H. destruct H as [Hlo Hhi].
  apply N.leb_le in Hlo, Hhi.
  assert (Hb : forall n, (0x7F <= n)%N -> (byte c =? n)%N = false).
  { intros n Hn. apply N.eqb_neq. lia. }
  assert (Hr : (0x80 <=? byte c)%N = false) by (apply N.leb_gt; lia).
  split; [|split; [|split; [|split]]]; intros.
  - destruct (N.leb_spec 9 (byte c)), (N.leb_spec (byte c) 13), (N.eqb_spec (byte c) 32);
      simpl; try reflexivity; lia.
  - rewrite Hb by lia. reflexivity.
  - rewrite !Hb by lia. apply andb_false_r.
  - rewrite !Hb by lia. reflexivity.
  - rewrite !Hb, Hr by lia. simpl.
    rewrite !andb_false_r. reflexivity.
Qed.

Lemma TrimLeftSpace_printable (s : string) :
  startsPrintable s -> Strings.TrimLeftSpace s = s.
Proof.
  intros (c & rest & -> & Hc).
  destruct (printable_no_space c Hc) as (H1 & H2 & _ & H3 & _).
  unfold Strings.TrimLeftSpace. simpl. rewrite H1.
  destruct rest as [|c2 rest]; [reflexivity|]. rewrite H2.
  destruct rest as [|c3 rest]; [reflexivity|]. rewrite H3. reflexivity.
Qed.

Lemma TrimRightSpace_printable (s : string) :
  endsPrintable s -> Strings.TrimRightSpace s = s.
Proof.
  intros (c & rest & Hr & Hc).
  destruct (printable_no_space c Hc) as (H1 & _ & H2 & _ & H3).
  unfold Strings.TrimRightSpace. rewrite Hr. simpl. rewrite H1.
  destruct rest as [|c2 rest].
  - rewrite <- Hr. apply reverse_involutive.
  - rewrite H2. destruct rest as [|c3 rest].
    + rewrite <- Hr. apply reverse_involutive.
    + rewrite H3, <- Hr. apply reverse_involutive.
Qed.

(** A string that starts and ends with a printable byte is trimmed;
    a blank before it is trimmed away. *)
Lemma TrimSpace_printable (s : string) :
  startsPrintable s -> endsPrintable s -> Strings.TrimSpace s = s.
Proof.
  intros Hs He. unfold Strings.TrimSpace.
  rewrite TrimLeftSpace_printable by exact Hs. apply TrimRightSpace_printable, He.
Qed.

Lemma TrimSpace_blank_printable (s : string) :
  startsPrintable s -> endsPrintable s -> Strings.TrimSpace (" " +:+ s) = s.
Proof.
  intros Hs He. unfold Strings.TrimSpace.
  change (Strings.TrimLeftSpace (" " +:+ s)) with (Strings.TrimLeftSpace s).
  rewrite TrimLeftSpace_printable by exact Hs. apply TrimRightSpace_printable, He.
Qed.

Lemma endsPrintable_append (a b : string) :
  endsPrintable b -> endsPrintable (a +:+ b).
Proof.
  intros (c & rest & Hr & Hc). exists c, (rest +:+ Strings.reverse a).
  rewrite reverse_append, Hr. split; [reflexivity|exact Hc].
Qed.

Lemma Cut_first_byte (c : ascii) (a b : string) :
  ~ Strings.hasByte c a ->
  Strings.Cut (a +:+ String c b) (String c "") = Some (a, b).
Proof.
  induction a as [|x a IH]; intros Hc.
  - simpl. destruct (ascii_dec c c); [|congruence]. destruct b; reflexivity.
  - change (String x a +:+ String c b) with (String x (a +:+ String c b)).
    simpl. destruct (ascii_dec c x) as [->|Hne].
    + exfalso. apply Hc. exists 0%nat. reflexivity.
    + rewrite IH; [reflexivity|]. intros [i Hi]. apply Hc. exists (S i). exact Hi.
Qed.

Lemma length_append (a b : string) :
  String.length (a +:+ b) = (String.length a + String.length b)%nat.
Proof.
  induction a as [|x a IH]; [reflexivity|].
  change (String x a +:+ b) with (String x (a +:+ b)). simpl. rewrite IH. reflexivity.
Qed.

Section DirectiveLines.

Variable unicodeLower : string -> string.
Variable normalizeID : string -> string.

(** X17. A directive line as an author writes it is read back:
    for a key without colon that is empty or ends with a printable byte,
    and a value that starts and ends with a printable byte, a text block
    whose single plain run is [$key: value] has the meta value with the
    key [$key] in lower case and the value [value], whatever blanks the
    value holds inside. *)
Theorem extractMetaValueFromBlock_directiveLine (b : Block) (inline : InlineBlock)
    (key value : string) :
  Type_ b = BlockText ->
  InlineContent b = [inline] ->
  IsPlain inline = true ->
  Text inline = directiveLine key value ->
  ~ Strings.hasByte ":" key ->
  key = "" \/ endsPrintable key ->
  startsPrintable value ->
  endsPrintable value ->
  extractMetaValueFromBlock unicodeLower (Some b)
  = OK (Some (mkMetaValue (Strings.ToLower unicodeLower ("$" +:+ key)) value)).
Proof.
  intros Ht Hi Hp Htext Hcolon Hkey Hvs Hve.
  assert (Hdollar : startsPrintable ("$" +:+ key)).
  { exists "$"%char, key. split; reflexivity. }
  assert (Hkeyend : endsPrintable ("$" +:+ key)).
  { destruct Hkey as [->|Hk]; [|apply endsPrintable_append, Hk].
    exists "$"%char, "". split; reflexivity. }
  assert (Hline : Strings.TrimSpace (directiveLine key value) = directiveLine key value).
  { apply TrimSpace_printable.
    - exists "$"%char, (key +:+ ": " +:+ value). split; reflexivity.
    - unfold directiveLine. rewrite <- !append_assoc. apply endsPrintable_append, Hve. }
  assert (Hcut : Strings.Cut (directiveLine key value) ":"
                 = Some ("$" +:+ key, " " +:+ value)).
  { change (directiveLine key value)
      with (String "$" (key +:+ String ":" (" " +:+ value))).
    change (Strings.Cut (String "$" (key +:+ String ":" (" " +:+ value))) ":")
      with (match Strings.Cut (key +:+ String ":" (" " +:+ value)) ":" with
            | Some (before, after) => Some (String "$" before, after)
            | None => None
            end).
    rewrite (Cut_first_byte _ _ _ Hcolon). reflexivity. }
  unfold extractMetaValueFromBlock. rewrite Ht, Hi, Hp, Htext, Hline. simpl negb.
  cbv iota.
  assert (Hlen : (Strings.len (directiveLine key value) <? 4) = false).
  { apply Z.ltb_ge. unfold Strings.len, directiveLine.
    rewrite !length_append. destruct Hvs as (c & rest & -> & _). simpl. lia. }
  rewrite Hlen.
  change (Strings.SplitN (directiveLine key value) ":" 2)
    with (match Strings.Cut (directiveLine key value) ":" with
          | Some (before, after) => [before; after]
          | None => [directiveLine key value]
          end).
  rewrite Hcut.
  rewrite (TrimSpace_printable _ Hdollar Hkeyend).
  change (Strings.TrimSpace (String " " value)) with (Strings.TrimSpace (" " +:+ value)).
  rewrite (TrimSpace_blank_printable _ Hvs Hve). reflexivity.
Qed.

(** X18. A meta value comes from nothing but a directive line: when
    [extractMetaValueFromBlock] returns one, the block is a text block
    with a single run, the run is plain, its trimmed text starts with [$]
    and holds a colon, the key is what stands before the first colon,
    trimmed and in lower case, and the value is all that follows it,
    trimmed. *)
Theorem extractMetaValueFromBlock_found (block : option Block) (mv : MetaValue) :
  extractMetaValueFromBlock unicodeLower block = OK (Some mv) ->
  exists b inline before after,
    block = Some b
    /\ Type_ b = BlockText
    /\ InlineContent b = [inline]
    /\ IsPlain inline = true
    /\ Strings.TrimSpace (Text inline) = before +:+ ":" +:+ after
    /\ ~ Strings.hasByte ":" before
    /\ String.get 0 before = Some "$"%char
    /\ Key mv = Strings.ToLower unicodeLower (Strings.TrimSpace before)
    /\ Value mv = Strings.TrimSpace after.
Proof.
  unfold extractMetaValueFromBlock. destruct block as [b|]; [|discriminate].
  destruct (String.eqb_spec (Type_ b) BlockText) as [Ht|]; [|discriminate]. simpl.
  destruct (InlineContent b) as [|inline [|? ?]] eqn:Hi; [discriminate| |discriminate].
  destruct (IsPlain inline) eqn:Hp; [|discriminate]. simpl.
  destruct (Strings.len _ <? 4); [discriminate|].
  destruct (bool_decide_reflect
              (String.get 0 (Strings.TrimSpace (Text inline)) = Some "$"%char))
    as [Hd|]; [|discriminate]. simpl.
  change (Strings.SplitN (Strings.TrimSpace (Text inline)) ":" 2)
    with (match Strings.Cut (Strings.TrimSpace (Text inline)) ":" with
          | Some (before, after) => [before; after]
          | None => [Strings.TrimSpace (Text inline)]
          end).
  destruct (Strings.Cut (Strings.TrimSpace (Text inline)) ":") as [[before after]|] eqn:Hcut;
    [|discriminate].
  intros [= <-]. apply Cut_byte_Some in Hcut. destruct Hcut as (Hs & Hno & _).
  exists b, inline, before, after. repeat split; try assumption; try reflexivity.
  rewrite Hs in Hd. destruct before as [|c before]; [discriminate|]. exact Hd.
Qed.

End DirectiveLines.

(** ** Runs on the sample pages, continued *)

(** Marks at [-1] and [7], and a [false] at [0], on a page of two
    blocks. *)
Lemma removeBlocks_no_effect_witness :
  removeBlocks twoBlocksPage idleMarks = twoBlocksPage.
Proof.
  apply (removeBlocks_no_effect twoBlocksPage idleMarks).
  intros k Hk. unfold idleMarks in Hk.
  destruct (decide (k = -1)) as [->|Hn1]; [lia|].
  rewrite lookup_insert_ne in Hk by congruence.
  destruct (decide (k = 0)) as [->|Hn0]; [rewrite lookup_insert_eq in Hk; discriminate|].
  rewrite lookup_insert_ne in Hk by congruence.
  destruct (decide (k = 7)) as [->|Hn7]; [right; simpl; lia|].
  rewrite lookup_singleton_ne in Hk by congruence. discriminate.
Defined.

(** [metaPage]: two of its four blocks stay. *)
Lemma extractMeta_leaves_witness :
  Content (Root (NotionPage metaPageExtracted))
  = List.filter (keeps sameCase) (Content (Root (NotionPage metaPage)))
  /\ sublist (Content (Root (NotionPage metaPageExtracted)))
       (Content (Root (NotionPage metaPage)))
  /\ Title metaPageExtracted = Title metaPage
  /\ NotionID metaPageExtracted = NotionID metaPage
  /\ SourceFiles metaPageExtracted = SourceFiles metaPage
  /\ PageID (NotionPage metaPageExtracted) = PageID (NotionPage metaPage).
Proof.
  apply (extractMeta_leaves sameCase dashless metaPage metaPageExtracted).
  vm_compute. reflexivity.
Defined.

(** [$id: 1], a line of text, [$ID: 2]: the page gets the identifier 2. *)
Lemma extractMeta_last_wins_witness : ID twoIdsPageExtracted = "2".
Proof.
  apply (proj1 (extractMeta_last_wins sameCase dashless twoIdsPage twoIdsPageExtracted
                  [textBlock "$id: 1"; textBlock "between"] [] (textBlock "$ID: 2")
                  (mkMetaValue "$id" "2")
                  ltac:(vm_compute; reflexivity) ltac:(reflexivity)
                  ltac:(vm_compute; reflexivity)
                  ltac:(intros later mv' Hin; inversion Hin))).
  reflexivity.
Defined.

(** [$score: 5] and a line of text. *)
Lemma extractMeta_score_ignored_witness :
  ID scorePageExtracted = ID scorePage
  /\ StackOverflowID scorePageExtracted = StackOverflowID scorePage
  /\ Search scorePageExtracted = Search scorePage
  /\ Content (Root (NotionPage scorePageExtracted))
     = List.filter (keeps sameCase) (Content (Root (NotionPage scorePage))).
Proof.
  apply (extractMeta_score_ignored sameCase dashless scorePage scorePageExtracted).
  - vm_compute. reflexivity.
  - intros block mv Hin Hv.
    repeat (apply elem_of_cons in Hin; destruct Hin as [->|Hin]).
    + vm_compute in Hv. injection Hv as <-. reflexivity.
    + vm_compute in Hv. discriminate.
    + inversion Hin.
Defined.

(** The two page links of [linksPage]. *)
Lemma getSubPages_returns_witness :
  length [Some 1%positive; Some 2%positive]
  = length (List.filter isPageLink (Content (Root linksPage)))
  /\ Forall (fun node => node <> None) [Some 1%positive; Some 2%positive]
  /\ Content (Root linksPageLeft)
     = List.filter (fun block => negb (isPageLink block)) (Content (Root linksPage))
  /\ (length (Content (Root linksPageLeft)) + length [Some 1%positive; Some 2%positive]
      = length (Content (Root linksPage)))%nat
  /\ getSubPages dashless linksPageLeft sampleMapping = OK ([], linksPageLeft).
Proof.
  apply (getSubPages_returns dashless sampleMapping linksPage linksPageLeft
           [Some 1%positive; Some 2%positive]).
  vm_compute. reflexivity.
Defined.

(** A URL of another host. *)
Lemma gitoembed_outside_widget_witness :
  gitoembedToRelativePath "https://example.com/gitoembed/widget?url=:" = OK "".
Proof.
  apply (gitoembed_outside_widget "https://example.com/gitoembed/widget?url=:").
  vm_compute. left. split; discriminate.
Defined.

(** The URL of [booleans.go]: [blob/] and [master/] are cut off. *)
Lemma gitoembed_path_of_inner_witness :
  exists parsed inner b m n,
    Url.Parse booleansURL = Some parsed
    /\ Url.Parse (Url.Get (Url.Query parsed) "url") = Some inner
    /\ Url.Host inner = "github.com"
    /\ (b = "" \/ b = "blob/") /\ (m = "" \/ m = "master/") /\ (n = "" \/ n = "notion/")
    /\ Url.Path inner
       = "/essentialbooks/books/" +:+ b +:+ m +:+ n
         +:+ "books/go/0020-basic-types/booleans.go".
Proof.
  apply (gitoembed_path_of_inner booleansURL "books/go/0020-basic-types/booleans.go").
  - vm_compute. reflexivity.
  - discriminate.
Defined.

(** An embed that does not resolve and one whose file is read. *)
Lemma extractEmbeddedSourceFiles_appends_witness :
  exists files,
    resolvedPageExtracted
    = withSourceFiles resolvedPage (SourceFiles resolvedPage ++ files)%list
    /\ map EmbedURL files
       = map displaySourceOf
           (List.filter isEmbed (Content (Root (NotionPage resolvedPage))))
    /\ Forall (fun f =>
                 FileExists f = true ->
                 exists relativePath,
                   gitoembedToRelativePath (EmbedURL f) = OK relativePath
                   /\ relativePath <> ""
                   /\ FileName f = sampleBase relativePath
                   /\ Path f = sampleJoin sampleGetwd.1 relativePath
                   /\ sampleReader (Path f) = (Lines f, None)) files.
Proof.
  apply (extractEmbeddedSourceFiles_appends sampleGetwd sampleReader sampleBase
           sampleJoin resolvedPage resolvedPageExtracted).
  vm_compute. reflexivity.
Defined.

(** The entry of [booleans.go] among the source files. *)
Lemma findSourceFileForEmbedURL_sound_witness :
  booleansFile ∈ SourceFiles resolvedPageExtracted
  /\ EmbedURL booleansFile = booleansURL
  /\ FileExists booleansFile = true.
Proof.
  apply (findSourceFileForEmbedURL_sound resolvedPageExtracted booleansURL booleansFile).
  vm_compute. reflexivity.
Defined.

(** Extraction of [resolvedPage], then the lookup of the embed that does
    not resolve. *)
Lemma findSourceFileForEmbedURL_after_extraction_witness :
  exists f,
    sourceFileOf sampleReader sampleBase sampleJoin sampleGetwd.1 "https://example.com/x"
    = OK f
    /\ findSourceFileForEmbedURL resolvedPageExtracted "https://example.com/x"
       = if FileExists f then Some f else None.
Proof.
  apply (proj2 (findSourceFileForEmbedURL_after_extraction sampleGetwd sampleReader
                  sampleBase sampleJoin resolvedPage resolvedPageExtracted
                  "https://example.com/x"
                  ltac:(vm_compute; reflexivity) ltac:(reflexivity))
           (embedBlock "https://example.com/x")).
  - left.
  - reflexivity.
  - reflexivity.
Defined.

(** The heap of two pages in a circle has three page links. *)
Lemma bookPageFromNotionPage_ends_witness :
  circleBuild 4 <> OutOfFuel /\ circleBuild 9 = circleBuild 4.
Proof.
  apply (bookPageFromNotionPage_ends sameCase dashless sampleGetwd sampleReader sampleBase
           sampleJoin circleMapping 4 9 circleHeap (Some 1%positive));
    vm_compute; lia.
Defined.

Lemma bookPageFromNotionPage_page_witness :
  exists page,
    circleHeap !! 1%positive = Some page
    /\ nodePtr circleTree = 1%positive
    /\ Title (nodePage circleTree) = notionapi.Title (Root page)
    /\ Content (Root (NotionPage (nodePage circleTree)))
       = List.filter (stays sameCase) (Content (Root page))
    /\ map (fun sub => Some (nodePtr sub)) (nodePages circleTree)
       = map (subPageOf dashless circleMapping)
           (List.filter isPageLink (Content (Root page)))
    /\ circleHeapLeft !! 1%positive = Some (NotionPage (nodePage circleTree)).
Proof.
  apply (bookPageFromNotionPage_page sameCase dashless sampleGetwd sampleReader sampleBase
           sampleJoin circleMapping 4 circleHeap circleHeapLeft 1%positive circleTree).
  vm_compute. reflexivity.
Defined.

Lemma bookPageFromNotionPage_again_witness :
  exists res,
    bookPageFromNotionPage sameCase dashless sampleGetwd sampleReader sampleBase
      sampleJoin 4 circleMapping circleHeapLeft (Some 1%positive)
    = Done (BookNode 1%positive res [], circleHeapLeft)
    /\ NotionPage res = NotionPage (nodePage circleTree)
    /\ Title res = Title (nodePage circleTree)
    /\ SourceFiles res = SourceFiles (nodePage circleTree)
    /\ ID res = "" /\ StackOverflowID res = "" /\ Search res = [].
Proof.
  apply (bookPageFromNotionPage_again sameCase dashless sampleGetwd sampleReader sampleBase
           sampleJoin circleMapping 4 circleHeap circleHeapLeft 1%positive circleTree).
  vm_compute. reflexivity.
Defined.

Lemma bookFromPages_returns_witness :
  exists l page t,
    Book.pageIDToPage circleBook !! Book.NotionStartPageID circleBook = Some (Some l)
    /\ circleHeap !! l = Some page
    /\ Type_ (Root page) = BlockPage
    /\ bookPageFromNotionPage sameCase dashless sampleGetwd sampleReader sampleBase
         sampleJoin 4 (Book.pageIDToPage circleBook) circleHeap (Some l)
       = Done (t, circleHeapLeft)
    /\ Book.Title circleBookBuilt = notionapi.Title (Root page)
    /\ Book.RootPage circleBookBuilt = Some t
    /\ Book.NotionStartPageID circleBookBuilt = Book.NotionStartPageID circleBook
    /\ Book.pageIDToPage circleBookBuilt = Book.pageIDToPage circleBook.
Proof.
  apply (bookFromPages_returns sameCase dashless sampleGetwd sampleReader sampleBase
           sampleJoin 4 circleBook circleBookBuilt circleHeap circleHeapLeft).
  vm_compute. reflexivity.
Defined.

(** The line [$Id: 59 a]. *)
Lemma extractMetaValueFromBlock_directiveLine_witness :
  extractMetaValueFromBlock sameCase (textBlock "$Id: 59 a")
  = OK (Some (mkMetaValue "$id" "59 a")).
Proof.
  apply (extractMetaValueFromBlock_directiveLine sameCase
           (mkBlock "t" BlockText "" [mkInlineBlock "$Id: 59 a" true] (mkFormatEmbed "") [] [])
           (mkInlineBlock "$Id: 59 a" true) "Id" "59 a").
  - reflexivity.
  - reflexivity.
  - reflexivity.
  - reflexivity.
  - apply Cut_byte_None_inv. reflexivity.
  - right. exists "d"%char, "I". split; reflexivity.
  - exists "5"%char, "9 a". split; reflexivity.
  - exists "a"%char, " 95". split; reflexivity.
Defined.

Lemma extractMetaValueFromBlock_found_witness :
  exists b inline before after,
    textBlock " $search: a, b , c " = Some b
    /\ Type_ b = BlockText
    /\ InlineContent b = [inline]
    /\ IsPlain inline = true
    /\ Strings.TrimSpace (Text inline) = before +:+ ":" +:+ after
    /\ ~ Strings.hasByte ":" before
    /\ String.get 0 before = Some "$"%char
    /\ "$search" = Strings.ToLower sameCase (Strings.TrimSpace before)
    /\ "a, b , c" = Strings.TrimSpace after.
Proof.
  apply (extractMetaValueFromBlock_found sameCase (textBlock " $search: a, b , c ")
           (mkMetaValue "$search" "a, b , c")).
  vm_compute. reflexivity.
Defined.
